(** * CASSE backend: users, authentication and audit core

    A shallow embedding of the service layer of the Django backend
    (apps/users, apps/authn, apps/audit) and the properties of its
    authorisation and audit rules.

    Conventions of the embedding
    - Python [str] is [string], the UTF-8 bytes of the text.  Splitting
      at an ASCII character and the substring test are the same on the
      bytes as on the characters.  [str.lower] and [str.strip] follow the
      Unicode tables of the interpreter and are section variables, as is
      the case folding with which the database compares in [icontains].
    - A [dict] of request or validated data is an association list in
      insertion order; its values are the text values the serializers
      deliver.
    - The database, the logging channel and the clock form the [World];
      code that raises runs in a state-and-exception monad over it.
    - The password hasher, the password validators, the token service and
      the field validation of the REST framework are external
      collaborators and are taken as section variables. *)

From Stdlib Require Import ZArith String Ascii List.
From stdpp Require Import base decidable option list gmap strings sorting pretty.

#[local] Set Warnings "-clear-no-such-hyp".

Local Open Scope string_scope.
Local Open Scope list_scope.
Local Open Scope Z_scope.

(** ** Python strings *)

Module Py.

Fixpoint startswith (p s : string) : bool :=
  match p, s with
  | EmptyString, _ => true
  | String a p', String b s' => if Ascii.eqb a b then startswith p' s' else false
  | String _ _, EmptyString => false
  end.

(** [needle in hay] *)
Fixpoint contains (needle hay : string) : bool :=
  if startswith needle hay then true
  else match hay with
       | EmptyString => false
       | String _ t => contains needle t
       end.

(** [sep.join(l)] *)
Fixpoint join (sep : string) (l : list string) : string :=
  match l with
  | [] => ""
  | [x] => x
  | x :: t => x +:+ sep +:+ join sep t
  end.

(** Truth value of a string: [bool(s)]. *)
Definition truthy (s : string) : bool :=
  match s with EmptyString => false | _ => true end.

(** Truth value of an optional string: [None] and [''] are falsy. *)
Definition truthy_opt (o : option string) : bool :=
  match o with Some s => truthy s | None => false end.

(** [s.rsplit(c, 1)]: the parts before and after the last occurrence
    of [c], if there is one. *)
Fixpoint rsplit1 (c : ascii) (s : string) : option (string * string) :=
  match s with
  | EmptyString => None
  | String a t =>
      match rsplit1 c t with
      | Some (l, r) => Some (String a l, r)
      | None => if Ascii.eqb a c then Some (EmptyString, t) else None
      end
  end.

(** *** Dictionaries with text keys, in insertion order *)

Abbreviation dict V := (list (string * V)).

Section Dict.
Context {V : Type}.

(** [d.get(k)] *)
Fixpoint get (k : string) (d : dict V) : option V :=
  match d with
  | [] => None
  | (k', v) :: t => if String.eqb k k' then Some v else get k t
  end.

(** [d] without the key [k]. *)
Fixpoint remove (k : string) (d : dict V) : dict V :=
  match d with
  | [] => []
  | (k', v) :: t => if String.eqb k k' then remove k t else (k', v) :: remove k t
  end.

(** [d.pop(k, None)]: the value and the dictionary left behind. *)
Definition pop (k : string) (d : dict V) : option V * dict V :=
  (get k d, remove k d).

(** [d.setdefault(k, v)] as a statement: the dictionary afterwards. *)
Definition setdefault (k : string) (v : V) (d : dict V) : dict V :=
  match get k d with
  | Some _ => d
  | None => d ++ [(k, v)]
  end.

(** [list(d.keys())] *)
Definition keys (d : dict V) : list string := d.*1.

(** [set(d.keys())] *)
Definition keyset (d : dict V) : gset string := list_to_set (keys d).
End Dict.

(** [d.get(k)] where a value of [d] may itself be [None]. *)
Definition get_value {V} (k : string) (d : dict (option V)) : option V :=
  match get k d with Some v => v | None => None end.

End Py.

(** ** apps/users/models.py and apps/audit/models.py *)

(** A row of the user table; also the in-memory [User] object.  The
    primary key (a UUID in the source) is a number here, timestamps are
    integers, nullable columns are options. *)
Record User := mkUser {
  id : nat;
  full_name : string;
  id_type : string;
  id_number : string;
  birth_date : option string;
  phone : string;
  address : option string;
  profile_photo_url : option string;
  email_primary : string;
  email_secondary : option string;
  role : string;
  status : string;
  password : string;
  created_at : Z;
  updated_at : Z;
  last_login_at : option Z
}.

Global Instance User_eq_dec : EqDecision User.
Proof. solve_decision. Defined.

(** [User.Role] and [User.Status]: text choices. *)
Module Role.
Definition ADMIN := "ADMIN".
Definition CLIENT := "CLIENT".
Definition INTERVENTORIA := "INTERVENTORIA".
Definition SUPERVISOR := "SUPERVISOR".
(** [[choice[0] for choice in User.Role.choices]] *)
Definition choices : list string := [ADMIN; CLIENT; INTERVENTORIA; SUPERVISOR].
End Role.

Module Status.
Definition ACTIVE := "ACTIVE".
Definition SUSPENDED := "SUSPENDED".
Definition choices : list string := [ACTIVE; SUSPENDED].
End Status.

(** The text columns that request data can name.  The embedding covers
    data whose keys name these columns or nothing the object has: the
    key, the timestamps, the properties and the methods of the model are
    outside its domain, and so is the conversion of a text to the type of
    its column (a date for [birth_date]).  Statements that depend on this
    say so in their hypotheses. *)
Inductive column :=
  | c_full_name | c_id_type | c_id_number | c_birth_date | c_phone
  | c_address | c_profile_photo_url | c_email_primary | c_email_secondary
  | c_role | c_status | c_password.

Definition columns : Py.dict column :=
  [("full_name", c_full_name); ("id_type", c_id_type);
   ("id_number", c_id_number); ("birth_date", c_birth_date);
   ("phone", c_phone); ("address", c_address);
   ("profile_photo_url", c_profile_photo_url);
   ("email_primary", c_email_primary);
   ("email_secondary", c_email_secondary);
   ("role", c_role); ("status", c_status); ("password", c_password)].

(** The column a key names, if any. *)
Definition column_of (key : string) : option column := Py.get key columns.
Global Arguments column_of : simpl never.

(** [hasattr(user, key)] on that domain. *)
Definition hasattr (key : string) : bool :=
  match column_of key with Some _ => true | None => false end.

Definition set_column (c : column) (v : string) (u : User) : User :=
  let '(mkUser i fn it inum bd ph ad pp ep es ro st pw ca ua ll) := u in
  match c with
  | c_full_name => mkUser i v it inum bd ph ad pp ep es ro st pw ca ua ll
  | c_id_type => mkUser i fn v inum bd ph ad pp ep es ro st pw ca ua ll
  | c_id_number => mkUser i fn it v bd ph ad pp ep es ro st pw ca ua ll
  | c_birth_date => mkUser i fn it inum (Some v) ph ad pp ep es ro st pw ca ua ll
  | c_phone => mkUser i fn it inum bd v ad pp ep es ro st pw ca ua ll
  | c_address => mkUser i fn it inum bd ph (Some v) pp ep es ro st pw ca ua ll
  | c_profile_photo_url => mkUser i fn it inum bd ph ad (Some v) ep es ro st pw ca ua ll
  | c_email_primary => mkUser i fn it inum bd ph ad pp v es ro st pw ca ua ll
  | c_email_secondary => mkUser i fn it inum bd ph ad pp ep (Some v) ro st pw ca ua ll
  | c_role => mkUser i fn it inum bd ph ad pp ep es v st pw ca ua ll
  | c_status => mkUser i fn it inum bd ph ad pp ep es ro v pw ca ua ll
  | c_password => mkUser i fn it inum bd ph ad pp ep es ro st v ca ua ll
  end.

(** [setattr(user, key, value)] guarded by [hasattr(user, key)]. *)
Definition setattr (key value : string) (u : User) : User :=
  match column_of key with
  | Some c => set_column c value u
  | None => u
  end.

Definition set_timestamps (ca ua : Z) (u : User) : User :=
  let '(mkUser i fn it inum bd ph ad pp ep es ro st pw _ _ ll) := u in
  mkUser i fn it inum bd ph ad pp ep es ro st pw ca ua ll.

Definition set_last_login_at (t : option Z) (u : User) : User :=
  let '(mkUser i fn it inum bd ph ad pp ep es ro st pw ca ua _) := u in
  mkUser i fn it inum bd ph ad pp ep es ro st pw ca ua t.

(** JSON values of the audit metadata and of response bodies. *)
#[local] Set Warnings "-register-all".
Inductive json :=
  | JNull
  | JStr (s : string)
  | JBool (b : bool)
  | JList (l : list json)
  | JObj (o : list (string * json)).

Definition json_of_opt (o : option string) : json :=
  match o with Some s => JStr s | None => JNull end.

(** A row of the audit table.  [actor_user] and [entity_id] hold primary
    keys; both are nullable. *)
Record AuditLog := mkAuditLog {
  log_id : nat;
  actor_user : option nat;
  action : string;
  entity : string;
  entity_id : option nat;
  metadata : Py.dict json;
  ip_address : option string;
  log_created_at : Z
}.

(** Modelled from the spec: apps/audit/constants.py is not among the
    sources; the action codes are the closed vocabulary of the data model. *)
Module constants.
Definition LOGIN_SUCCESS := "LOGIN_SUCCESS".
Definition LOGIN_FAILED := "LOGIN_FAILED".
Definition USER_REGISTERED := "USER_REGISTERED".
Definition USER_CREATED_BY_ADMIN := "USER_CREATED_BY_ADMIN".
Definition USER_UPDATED_BY_ADMIN := "USER_UPDATED_BY_ADMIN".
Definition USER_UPDATED_SELF := "USER_UPDATED_SELF".
Definition USER_SUSPENDED := "USER_SUSPENDED".
Definition USER_ACTIVATED := "USER_ACTIVATED".
End constants.

(** ** Exceptions, the world and the monad *)

Inductive exn :=
  | ValidationError (msg : string)
  | PermissionDenied (msg : string)
  | IntegrityError (msg : string)
  | DoesNotExist
  | ValueError (msg : string)
  | TypeError (msg : string)
  | KeyError (key : string)
  | AttributeError (msg : string)
  | DatabaseError (msg : string).

(** [str(e)], as the f-strings and the views print an exception. *)
Definition str_exn (e : exn) : string :=
  match e with
  | ValidationError m => "['" +:+ m +:+ "']"
  | PermissionDenied m | IntegrityError m | ValueError m
  | TypeError m | AttributeError m | DatabaseError m => m
  | DoesNotExist => "User matching query does not exist."
  | KeyError k => "'" +:+ k +:+ "'"
  end.

Inductive level := DEBUG | INFO | WARNING | ERROR.

(** The world outside a request: both tables, the records handed to the
    [logging] channel, the clock, the supply of fresh primary keys, and
    the failure (if any) with which the storage layer answers a write to
    the audit table. *)
Record World := mkWorld {
  users : list User;
  audit_logs : list AuditLog;
  log : list (level * string);
  now : Z;
  next_id : nat;
  audit_fault : option exn
}.

Definition set_users (us : list User) (w : World) : World :=
  mkWorld us (audit_logs w) (log w) (now w) (next_id w) (audit_fault w).

(** State and exceptions: a computation returns a value or raises, and
    leaves a state behind in both cases. *)
Definition St (S A : Type) : Type := S → (exn + A) * S.

Definition ret {S A} (a : A) : St S A := λ s, (inr a, s).
Definition raise {S A} (e : exn) : St S A := λ s, (inl e, s).
Definition bind {S A B} (m : St S A) (k : A → St S B) : St S B :=
  λ s, match m s with
       | (inl e, s') => (inl e, s')
       | (inr a, s') => k a s'
       end.

(** [try: body except ... as e: handler e] *)
Definition try_except {S A} (body : St S A) (handler : exn → St S A) : St S A :=
  λ s, match body s with
       | (inl e, s') => handler e s'
       | (inr a, s') => (inr a, s')
       end.

Notation "'do' x <- m ; k" := (bind m (λ x, k))
  (at level 10, x name, m at level 100, k at level 200).
Notation "'do' ' p <- m ; k" := (bind m (λ x, match x with p => k end))
  (at level 10, p pattern, m at level 100, k at level 200).
Notation "m ;;; k" := (bind m (λ _, k))
  (at level 100, k at level 200, right associativity).

Abbreviation M := (St World).

(** [logger.<level>(msg)] *)
Definition logger (l : level) (msg : string) : M unit :=
  λ w, (inr tt,
        mkWorld (users w) (audit_logs w) (log w ++ [(l, msg)]) (now w)
                (next_id w) (audit_fault w)).

(** [uuid.uuid4()] *)
Definition uuid4 : M nat :=
  λ w, (inr (next_id w),
        mkWorld (users w) (audit_logs w) (log w) (now w) (S (next_id w))
                (audit_fault w)).

(** [timezone.now()] *)
Definition timezone_now : M Z := λ w, (inr (now w), w).

(** [str(uuid)] *)
Definition str_id (i : nat) : string := pretty i.

(** [User.objects.get(id=user_id)] *)
Definition User_objects_get (user_id : nat) : M User :=
  λ w, match List.find (λ u, bool_decide (id u = user_id)) (users w) with
       | Some u => (inr u, w)
       | None => (inl DoesNotExist, w)
       end.

(** [User.objects.get(email_primary=email)] *)
Definition User_objects_get_by_email (email : string) : M User :=
  λ w, match List.find (λ u, bool_decide (email_primary u = email)) (users w) with
       | Some u => (inr u, w)
       | None => (inl DoesNotExist, w)
       end.

(** [User.objects.filter(email_primary=value).exists()] *)
Definition email_exists (value : string) (w : World) : bool :=
  existsb (λ u, bool_decide (email_primary u = value)) (users w).

(** The constraints of the user table: [birth_date] is not nullable,
    [email_primary] is unique, [(id_type, id_number)] is unique together. *)
Definition constraint_violation (u : User) (others : list User) : option exn :=
  if bool_decide (birth_date u = None) then
    Some (IntegrityError "null value in column birth_date")
  else if existsb (λ r, bool_decide (email_primary r = email_primary u)) others then
    Some (IntegrityError "duplicate key value violates unique constraint: email_primary")
  else if existsb (λ r, bool_decide (id_type r = id_type u) &&
                         bool_decide (id_number r = id_number u)) others then
    Some (IntegrityError "duplicate key value violates unique constraint: id_type, id_number")
  else None.

(** [user.save()]: an update when the primary key is in the table, an
    insert otherwise.  [created_at] is set on insert ([auto_now_add]),
    [updated_at] on every save ([auto_now]); the object carries the new
    timestamps afterwards. *)
Definition save (u : User) : M User :=
  λ w,
    let others := List.filter (λ r, negb (bool_decide (id r = id u))) (users w) in
    match constraint_violation u others with
    | Some e => (inl e, w)
    | None =>
        if existsb (λ r, bool_decide (id r = id u)) (users w) then
          let u' := set_timestamps (created_at u) (now w) u in
          (inr u',
           set_users (List.map (λ r, if bool_decide (id r = id u) then u' else r)
                               (users w)) w)
        else
          let u' := set_timestamps (now w) (now w) u in
          (inr u', set_users (users w ++ [u']) w)
    end.

(** [user.save(update_fields=['last_login_at'])]: only that column of the
    row is written. *)
Definition save_last_login_at (u : User) : M unit :=
  λ w, (inr tt,
        set_users (List.map (λ r, if bool_decide (id r = id u)
                                  then set_last_login_at (last_login_at u) r
                                  else r) (users w)) w).

(** [AuditLog.objects.create(...)]: raises what the storage layer raises,
    otherwise appends the row. *)
Definition AuditLog_objects_create
    (actor : option User) (action entity : string) (entity_id : option nat)
    (metadata : Py.dict json) (ip : option string) : M AuditLog :=
  λ w, match audit_fault w with
       | Some e => (inl e, w)
       | None =>
           let row := mkAuditLog (next_id w) (id <$> actor) action entity
                                 entity_id metadata ip (now w) in
           (inr row,
            mkWorld (users w) (audit_logs w ++ [row]) (log w) (now w)
                    (S (next_id w)) (audit_fault w))
       end.

(** [AuditLog.__str__] *)
Definition AuditLog_str (actor : option User) (a : AuditLog) : string :=
  action a +:+ " - " +:+ entity a +:+ " - " +:+
  match actor with Some u => email_primary u | None => "Sistema" end +:+
  " - " +:+ pretty (log_created_at a).

(** ** apps/audit/services/audit_log.py *)

Definition log_audit_event
    (actor_user : option User) (action entity : string)
    (entity_id : option nat) (metadata : option (Py.dict json))
    (ip_address : option string) : M (option AuditLog) :=
  try_except
    (if negb (Py.truthy action) || negb (Py.truthy entity) then
       logger WARNING ("Intento de crear audit log sin action o entity: action="
                       +:+ action +:+ ", entity=" +:+ entity) ;;;
       ret None
     else
       do audit_log <- AuditLog_objects_create actor_user action entity entity_id
                         (default [] metadata) ip_address;
       logger DEBUG ("Audit log creado: " +:+ AuditLog_str actor_user audit_log) ;;;
       ret (Some audit_log))
    (λ e,
       logger ERROR ("Error al crear audit log: " +:+ str_exn e) ;;;
       ret None).

(** ** The services, over the external collaborators *)

Section Backend.

(** The interpreter's [str.lower()] and [str.strip()], and the case
    folding under which the database compares two texts in an
    [icontains] lookup. *)
Variable lower : string → string.
Variable strip : string → string.
Variable fold : string → string.

(** Credential service: [make_password] hashes, [check_password]
    verifies, [validate_password] reports what Django's password
    validators reject.  Token service: [RefreshToken.for_user]. *)
Variable make_password : string → string.
Variable check_password : string → string → bool.
Variable validate_password : string → option string.
Variable for_user : User → exn + (string * string).

(** The REST framework's part of the [ModelSerializer] at hand.  [clean]
    is [Field.run_validation] as far as the framework does it: the
    conversion of the text and the validators it derives from the column
    (trimming, formats, lengths, choices, uniqueness against the table,
    with the instance of an update excluded); it delivers an error or the
    value the validators written in the source then see.
    [run_validators] is [Serializer.run_validators]: the validators the
    framework derives for the serializer as a whole (the unique-together
    check of the identity document), run on the validated fields. *)
Variable clean : option User → list User → string → string → string + string.
Variable run_validators : option User → list User → Py.dict string → option string.

#[local] Set Default Proof Using "Type".

(** Proofs about the pure helpers make no reference to the collaborators. *)
Ltac pure_goal :=
  try clear lower; try clear strip; try clear fold;
  try clear make_password; try clear check_password;
  try clear validate_password; try clear for_user;
  try clear clean; try clear run_validators.
Ltac prop := pure_goal; tauto.

(** [user.set_password(raw)] *)
Definition set_password (raw : string) (u : User) : User :=
  set_column c_password (make_password raw) u.

(** *** apps/users/models.py: [UserManager] *)

(** [BaseUserManager.normalize_email]: lower-cases the domain part. *)
Definition normalize_email (email : string) : string :=
  match Py.rsplit1 "@" (strip email) with
  | Some (email_name, domain_part) => email_name +:+ "@" +:+ lower domain_part
  | None => email
  end.

(** [self.model(email_primary=..., **extra_fields)] on that domain: a
    fresh object with the column defaults, then one assignment per
    keyword; a keyword that names nothing the model has is a
    [TypeError]. *)
Fixpoint init_kwargs (kwargs : Py.dict string) (u : User) : exn + User :=
  match kwargs with
  | [] => inr u
  | (k, v) :: rest =>
      match column_of k with
      | Some c => init_kwargs rest (set_column c v u)
      | None => inl (TypeError ("User() got unexpected keyword arguments: '" +:+ k +:+ "'"))
      end
  end.

Definition User_init (email_primary : string) (extra_fields : Py.dict string) : M User :=
  do pk <- uuid4;
  match init_kwargs extra_fields
          (mkUser pk "" "" "" None "" None None email_primary None
                  Role.CLIENT Status.ACTIVE "" 0 0 None) with
  | inl e => raise e
  | inr u => ret u
  end.

Definition create_user (email_primary : option string) (password : option string)
    (extra_fields : Py.dict string) : M User :=
  if negb (Py.truthy_opt email_primary) then
    raise (ValueError "El email_primary es obligatorio")
  else
    let email_primary := normalize_email (default "" email_primary) in
    do user <- User_init email_primary extra_fields;
    let user := if Py.truthy_opt password
                then set_password (default "" password) user else user in
    save user.

(** *** apps/users/services/users.py *)

Definition SELF_EDITABLE_FIELDS : gset string :=
  {[ "full_name"; "phone"; "address"; "email_secondary";
     "profile_photo_url"; "password" ]}.

Definition SELF_PROHIBITED_FIELDS : gset string :=
  {[ "role"; "status"; "email_primary"; "id_type"; "id_number";
     "birth_date"; "created_at"; "updated_at"; "last_login_at" ]}.

(** [data.pop('email_primary')]: a [KeyError] without the key. *)
Definition pop_required (k : string) (data : Py.dict string) : M (string * Py.dict string) :=
  match Py.get k data with
  | Some v => ret (v, Py.remove k data)
  | None => raise (KeyError k)
  end.

Definition register_user (data : Py.dict string) (ip_address : option string) : M User :=
  try_except
    (let '(password, data) := Py.pop "password" data in
     if negb (Py.truthy_opt password) then
       raise (ValidationError "El password es obligatorio")
     else
       let data := Py.setdefault "role" Role.CLIENT data in
       let data := Py.setdefault "status" Status.ACTIVE data in
       do '(email, data) <- pop_required "email_primary" data;
       do user <- create_user (Some email) password data;
       log_audit_event (Some user) constants.USER_REGISTERED "User" (Some (id user))
         (Some [("email", JStr (email_primary user)); ("role", JStr (role user))])
         ip_address ;;;
       logger INFO ("Usuario registrado: " +:+ email_primary user) ;;;
       ret user)
    (λ e,
       match e with
       | IntegrityError _ =>
           logger ERROR ("Error de integridad al registrar usuario: " +:+ str_exn e) ;;;
           raise (ValidationError "El email ya está en uso")
       | _ =>
           logger ERROR ("Error al registrar usuario: " +:+ str_exn e) ;;;
           raise e
       end).

Definition create_user_by_admin (data : Py.dict string) (actor_user : User)
    (ip_address : option string) : M User :=
  if bool_decide (role actor_user ≠ Role.ADMIN) then
    raise (PermissionDenied "Solo los administradores pueden crear usuarios")
  else
    try_except
      (let '(password, data) := Py.pop "password" data in
       if negb (Py.truthy_opt password) then
         raise (ValidationError "El password es obligatorio")
       else
         do '(email, data) <- pop_required "email_primary" data;
         do user <- create_user (Some email) password data;
         log_audit_event (Some actor_user) constants.USER_CREATED_BY_ADMIN "User"
           (Some (id user))
           (Some [("created_user_email", JStr (email_primary user));
                  ("created_user_role", JStr (role user));
                  ("created_user_status", JStr (status user));
                  ("created_by", JStr (str_id (id actor_user)))])
           ip_address ;;;
         logger INFO ("Usuario creado por admin " +:+ email_primary actor_user
                      +:+ ": " +:+ email_primary user) ;;;
         ret user)
      (λ e,
         match e with
         | IntegrityError _ =>
             logger ERROR ("Error de integridad al crear usuario: " +:+ str_exn e) ;;;
             raise (ValidationError "El email ya está en uso")
         | _ =>
             logger ERROR ("Error al crear usuario: " +:+ str_exn e) ;;;
             raise e
         end).

(** The [changes] dictionary of [update_user_by_admin]: one entry per
    field of role, status and email_primary whose value differs. *)
Definition change_entry (name old new : string) : Py.dict json :=
  if bool_decide (old ≠ new)
  then [(name, JObj [("old", JStr old); ("new", JStr new)])] else [].

Definition admin_changes (old user : User) : Py.dict json :=
  change_entry "role" (role old) (role user) ++
  change_entry "status" (status old) (status user) ++
  change_entry "email_primary" (email_primary old) (email_primary user).

Definition admin_metadata (old user actor_user : User) : Py.dict json :=
  [("updated_user_id", JStr (str_id (id user)));
   ("updated_user_email", JStr (email_primary user));
   ("updated_by", JStr (str_id (id actor_user)))] ++
  match admin_changes old user with
  | [] => []
  | changes => [("changes", JObj changes)]
  end.

(** [for key, value in data.items(): if hasattr(user, key): setattr(...)] *)
Definition apply_fields (data : Py.dict string) (u : User) : User :=
  foldl (λ u kv, setattr kv.1 kv.2 u) u data.

Definition update_user_by_admin (user_id : nat) (data : Py.dict string)
    (actor_user : User) (ip_address : option string) : M User :=
  if bool_decide (role actor_user ≠ Role.ADMIN) then
    raise (PermissionDenied "Solo los administradores pueden actualizar usuarios")
  else
    try_except
      (do old <- User_objects_get user_id;
       let '(password, data) := Py.pop "password" data in
       let user := apply_fields data old in
       let user := if Py.truthy_opt password
                   then set_password (default "" password) user else user in
       do user <- save user;
       log_audit_event (Some actor_user) constants.USER_UPDATED_BY_ADMIN "User"
         (Some (id user)) (Some (admin_metadata old user actor_user)) ip_address ;;;
       logger INFO ("Usuario " +:+ email_primary user +:+ " actualizado por admin "
                    +:+ email_primary actor_user) ;;;
       ret user)
      (λ e,
         match e with
         | DoesNotExist =>
             logger ERROR ("Usuario con ID " +:+ str_id user_id +:+ " no encontrado") ;;;
             raise e
         | _ =>
             logger ERROR ("Error al actualizar usuario: " +:+ str_exn e) ;;;
             raise e
         end).

(** [update_self_user] mutates the object it is given (the request's
    user): its state is that object together with the world.  The
    [old_values] dictionary the source builds is never read and is left
    out. *)
Definition with_world {A} (m : M A) : St (User * World) A :=
  λ '(u, w), let '(r, w') := m w in (r, (u, w')).

Definition get_object : St (User * World) User := λ '(u, w), (inr u, (u, w)).

Definition modify_object (f : User → User) : St (User * World) unit :=
  λ '(u, w), (inr tt, (f u, w)).

(** [user.save()] on the shared object. *)
Definition save_object : St (User * World) unit :=
  λ '(u, w), match save u w with
             | (inl e, w') => (inl e, (u, w'))
             | (inr u', w') => (inr tt, (u', w'))
             end.

Definition update_self_user (data : Py.dict string) (ip_address : option string)
    : St (User * World) User :=
  let prohibited_fields := Py.keyset data ∩ SELF_PROHIBITED_FIELDS in
  if bool_decide (prohibited_fields ≠ ∅) then
    raise (ValidationError ("No se pueden actualizar los siguientes campos: "
                            +:+ Py.join ", " (elements prohibited_fields)))
  else
    let allowed_data := filter (λ kv, kv.1 ∈ SELF_EDITABLE_FIELDS) data in
    if bool_decide (allowed_data = []) then
      raise (ValidationError "No hay campos válidos para actualizar")
    else
      try_except
        (let '(password, allowed_data) := Py.pop "password" allowed_data in
         modify_object (apply_fields allowed_data) ;;;
         (if Py.truthy_opt password
          then modify_object (set_password (default "" password))
          else ret tt) ;;;
         save_object ;;;
         do user <- get_object;
         let metadata :=
           [("updated_fields", JList (JStr <$> Py.keys allowed_data))] ++
           (if Py.truthy_opt password then [("password_changed", JBool true)] else []) in
         with_world (log_audit_event (Some user) constants.USER_UPDATED_SELF "User"
                       (Some (id user)) (Some metadata) ip_address) ;;;
         with_world (logger INFO ("Usuario " +:+ email_primary user
                                  +:+ " actualizó su perfil")) ;;;
         ret user)
        (λ e,
           with_world (logger ERROR ("Error al actualizar perfil propio: " +:+ str_exn e)) ;;;
           raise e).

Definition suspend_user (user_id : nat) (actor_user : User)
    (ip_address : option string) : M User :=
  if bool_decide (role actor_user ≠ Role.ADMIN) then
    raise (PermissionDenied "Solo los administradores pueden suspender usuarios")
  else
    try_except
      (do user <- User_objects_get user_id;
       if bool_decide (status user = Status.SUSPENDED) then
         logger WARNING ("Usuario " +:+ email_primary user +:+ " ya está suspendido") ;;;
         ret user
       else
         do user <- save (set_column c_status Status.SUSPENDED user);
         log_audit_event (Some actor_user) constants.USER_SUSPENDED "User" (Some (id user))
           (Some [("suspended_user_email", JStr (email_primary user));
                  ("suspended_by", JStr (str_id (id actor_user)))])
           ip_address ;;;
         logger INFO ("Usuario " +:+ email_primary user +:+ " suspendido por admin "
                      +:+ email_primary actor_user) ;;;
         ret user)
      (λ e,
         match e with
         | DoesNotExist =>
             logger ERROR ("Usuario con ID " +:+ str_id user_id +:+ " no encontrado") ;;;
             raise e
         | _ =>
             logger ERROR ("Error al suspender usuario: " +:+ str_exn e) ;;;
             raise e
         end).

Definition activate_user (user_id : nat) (actor_user : User)
    (ip_address : option string) : M User :=
  if bool_decide (role actor_user ≠ Role.ADMIN) then
    raise (PermissionDenied "Solo los administradores pueden activar usuarios")
  else
    try_except
      (do user <- User_objects_get user_id;
       if bool_decide (status user = Status.ACTIVE) then
         logger WARNING ("Usuario " +:+ email_primary user +:+ " ya está activo") ;;;
         ret user
       else
         do user <- save (set_column c_status Status.ACTIVE user);
         log_audit_event (Some actor_user) constants.USER_ACTIVATED "User" (Some (id user))
           (Some [("activated_user_email", JStr (email_primary user));
                  ("activated_by", JStr (str_id (id actor_user)))])
           ip_address ;;;
         logger INFO ("Usuario " +:+ email_primary user +:+ " activado por admin "
                      +:+ email_primary actor_user) ;;;
         ret user)
      (λ e,
         match e with
         | DoesNotExist =>
             logger ERROR ("Usuario con ID " +:+ str_id user_id +:+ " no encontrado") ;;;
             raise e
         | _ =>
             logger ERROR ("Error al activar usuario: " +:+ str_exn e) ;;;
             raise e
         end).

(** *** apps/users/selectors/users.py *)

Definition ALLOWED_LIST_ROLES : gset string :=
  {[ Role.ADMIN; Role.SUPERVISOR; Role.INTERVENTORIA ]}.

Definition get_user_by_id (user_id : nat) : M User :=
  try_except
    (do user <- User_objects_get user_id;
     logger DEBUG ("Usuario encontrado por ID: " +:+ str_id user_id) ;;;
     ret user)
    (λ e,
       match e with
       | DoesNotExist =>
           logger WARNING ("Usuario con ID " +:+ str_id user_id +:+ " no encontrado") ;;;
           raise e
       | _ => raise e
       end).

Definition get_user_by_email (email : option string) : M User :=
  let email := if Py.truthy_opt email
               then lower (strip (default "" email)) else "" in
  if negb (Py.truthy email) then
    raise (ValueError "El email no puede estar vacío")
  else
    try_except
      (do user <- User_objects_get_by_email email;
       logger DEBUG ("Usuario encontrado por email: " +:+ email) ;;;
       ret user)
      (λ e,
         match e with
         | DoesNotExist =>
             logger WARNING ("Usuario con email " +:+ email +:+ " no encontrado") ;;;
             raise e
         | _ => raise e
         end).

(** [field__icontains=search]: [search] occurs in [field] once the
    database has folded the case of both. *)
Definition icontains (field search : string) : bool :=
  Py.contains (fold search) (fold field).

(** The [Q(...) | Q(...) | Q(...) | Q(...)] of the search filter. *)
Definition search_q (search : string) (u : User) : bool :=
  icontains (full_name u) search || icontains (email_primary u) search ||
  icontains (id_number u) search || icontains (phone u) search.

(** [order_by('-created_at')] *)
Definition newest_first (u v : User) : Prop := created_at v ≤ created_at u.

Global Instance newest_first_dec u v : Decision (newest_first u v).
Proof. unfold newest_first. apply _. Defined.

Global Instance newest_first_total : Total newest_first.
Proof. intros u v. unfold newest_first. lia. Qed.

Definition order_by_created_at_desc (qs : list User) : list User :=
  merge_sort newest_first qs.

(** [list_users]: the values of the filter map are text or [None].
    [filters.get('search', '')] is [''] without the key, which is blank
    whatever is stripped; [None] under the key has no [strip]. *)
Definition list_users (filters : option (Py.dict (option string)))
    (actor_user : option User) : M (list User) :=
  match actor_user with
  | None => raise (ValueError "actor_user es requerido para listar usuarios")
  | Some actor_user =>
      if bool_decide (role actor_user ∉ ALLOWED_LIST_ROLES) then
        logger WARNING ("Intento de listar usuarios por usuario sin permisos: "
                        +:+ email_primary actor_user +:+ " (role: "
                        +:+ role actor_user +:+ ")") ;;;
        raise (PermissionDenied "No tiene permisos para listar usuarios")
      else
        do queryset <- (λ w, (inr (users w), w));
        do queryset <-
          match filters with
          | None | Some [] => ret queryset
          | Some filters =>
              let role_ := Py.get_value "role" filters in
              do queryset <-
                (if Py.truthy_opt role_ then
                   if bool_decide (default "" role_ ∈ Role.choices) then
                     ret (filter (λ u, role u = default "" role_) queryset)
                   else
                     logger WARNING ("Rol inválido en filtro: " +:+ default "" role_) ;;;
                     ret queryset
                 else ret queryset);
              let status_ := Py.get_value "status" filters in
              do queryset <-
                (if Py.truthy_opt status_ then
                   if bool_decide (default "" status_ ∈ Status.choices) then
                     ret (filter (λ u, status u = default "" status_) queryset)
                   else
                     logger WARNING ("Estado inválido en filtro: " +:+ default "" status_) ;;;
                     ret queryset
                 else ret queryset);
              do search <-
                match Py.get "search" filters with
                | None => ret ""
                | Some (Some search) => ret (strip search)
                | Some None =>
                    raise (AttributeError "'NoneType' object has no attribute 'strip'")
                end;
              if Py.truthy search
              then ret (filter (λ u, search_q search u = true) queryset)
              else ret queryset
          end;
        let queryset := order_by_created_at_desc queryset in
        logger DEBUG ("Lista de usuarios obtenida por " +:+ email_primary actor_user
                      +:+ ": " +:+ pretty (length queryset) +:+ " usuarios") ;;;
        ret queryset
  end.

(** *** apps/users/serializers.py *)

(** An HTTP request as the views read it: the body, the headers in
    [META], and the authenticated user ([None] for an anonymous one). *)
Record Request := mkRequest {
  data : Py.dict string;
  META : Py.dict string;
  user : option User
}.

Record Response := mkResponse {
  body : json;
  status_code : nat
}.

(** [UserPublicSerializer(instance, context={'request': request}).data];
    timestamps and the key are printed as text. *)
Definition UserPublicSerializer (instance : User) (request : Request) : json :=
  let representation : Py.dict json :=
    [("id", JStr (str_id (id instance)));
     ("full_name", JStr (full_name instance));
     ("email_primary", JStr (email_primary instance));
     ("phone", JStr (phone instance));
     ("email_secondary", json_of_opt (email_secondary instance));
     ("role", JStr (role instance));
     ("status", JStr (status instance));
     ("profile_photo_url", json_of_opt (profile_photo_url instance));
     ("created_at", JStr (pretty (created_at instance)));
     ("updated_at", JStr (pretty (updated_at instance)));
     ("last_login_at", json_of_opt (pretty <$> last_login_at instance))] in
  JObj
    match user request with
    | None => Py.remove "phone" (Py.remove "email_secondary" representation)
    | Some requesting_user =>
        if bool_decide (role requesting_user = Role.CLIENT) then
          if bool_decide (id requesting_user = id instance) then representation
          else Py.remove "phone" (Py.remove "email_secondary" representation)
        else representation
    end.

(** [UserRegisterSerializer.validate_email_primary] *)
Definition validate_email_primary (value : string) (w : World) : string + string :=
  let value := lower (strip value) in
  if email_exists value w then inl "Este email ya está en uso" else inr value.

(** One declared field of [is_valid()]: a required field must be present
    unless the serializer is partial; a present value goes through the
    validation of the field.  Keys of the request that are no declared
    field are never read. *)
Definition run_declared_field (validate_field : string → string → string + string)
    (partial : bool) (initial_data : Py.dict string) (f : string * bool)
    : option (string * (string + string)) :=
  match Py.get f.1 initial_data with
  | None =>
      if f.2 && negb partial then Some (f.1, inl "This field is required.") else None
  | Some v => Some (f.1, validate_field f.1 v)
  end.

Definition run_declared_fields (validate_field : string → string → string + string)
    (partial : bool) (fields : list (string * bool)) (initial_data : Py.dict string)
    : list (string * (string + string)) :=
  omap (run_declared_field validate_field partial initial_data) fields.

(** The validation of one field: the framework's part, then the
    validator written in the source. *)
Definition cleaned (instance : option User) (w : World)
    (validate_field : string → string → string + string) (name value : string)
    : string + string :=
  match clean instance (users w) name value with
  | inl e => inl e
  | inr value => validate_field name value
  end.

Definition field_errors (rs : list (string * (string + string))) : Py.dict string :=
  omap (λ r, match r.2 with inl e => Some (r.1, e) | inr _ => None end) rs.

Definition field_values (rs : list (string * (string + string))) : Py.dict string :=
  omap (λ r, match r.2 with inr v => Some (r.1, v) | inl _ => None end) rs.

(** [Serializer.run_validation] after the fields: the errors of the
    fields, if any; otherwise the validators of the serializer as a
    whole, whose error goes under [non_field_errors]; otherwise the
    validated data. *)
Definition validated (instance : option User) (w : World)
    (results : list (string * (string + string))) : Py.dict string + Py.dict string :=
  match field_errors results with
  | [] =>
      match run_validators instance (users w) (field_values results) with
      | Some e => inl [("non_field_errors", e)]
      | None => inr (field_values results)
      end
  | errors => inl errors
  end.

(** The fields of [UserRegisterSerializer.Meta] with their [required]
    flag. *)
Definition register_fields : list (string * bool) :=
  [("full_name", true); ("id_type", true); ("id_number", true);
   ("email_primary", true); ("phone", true); ("birth_date", true);
   ("password", true); ("email_secondary", false); ("address", false);
   ("profile_photo_url", false)].

(** The validators [UserRegisterSerializer] adds to its fields:
    [validate_email_primary] and the password validators. *)
Definition register_validate (w : World) (name value : string) : string + string :=
  if bool_decide (name = "email_primary") then validate_email_primary value w
  else if bool_decide (name = "password") then
    match validate_password value with Some e => inl e | None => inr value end
  else inr value.

(** [serializer.is_valid()] with [serializer.errors] on the left and
    [serializer.validated_data] on the right. *)
Definition UserRegisterSerializer_is_valid (initial_data : Py.dict string) (w : World)
    : Py.dict string + Py.dict string :=
  validated None w
    (run_declared_fields (cleaned None w (register_validate w)) false
       register_fields initial_data).

Definition errors_json (errors : Py.dict string) : json :=
  JObj (prod_map (λ k, k) (λ e, JList [JStr e]) <$> errors).

(** [UserMeUpdateSerializer.validate] *)
Definition PROHIBITED_FIELDS : gset string :=
  {[ "role"; "status"; "email_primary"; "id_type"; "id_number";
     "birth_date"; "created_at"; "updated_at"; "last_login_at" ]}.

Definition UserMeUpdateSerializer_validate (attrs : Py.dict string)
    : string + Py.dict string :=
  let prohibited := Py.keyset attrs ∩ PROHIBITED_FIELDS in
  if bool_decide (prohibited ≠ ∅) then
    inl ("No se pueden actualizar los siguientes campos: "
         +:+ Py.join ", " (elements prohibited))
  else inr attrs.

(** *** apps/authn/views.py *)

(** [x_forwarded_for.split(',')[0]] *)
Fixpoint before_comma (s : string) : string :=
  match s with
  | EmptyString => EmptyString
  | String c t => if Ascii.eqb c "," then EmptyString else String c (before_comma t)
  end.

Definition get_client_ip (request : Request) : option string :=
  let x_forwarded_for := Py.get "HTTP_X_FORWARDED_FOR" (META request) in
  if Py.truthy_opt x_forwarded_for
  then Some (before_comma (default "" x_forwarded_for))
  else Py.get "REMOTE_ADDR" (META request).

(** Modelled from the spec: apps/authn/serializers.py ([LoginSerializer])
    is not among the sources.  Login looks the user up by the normalised
    email and verifies the password with the credential service; an
    unknown email and a password mismatch both fail with
    InvalidCredentials, and nothing tells them apart.  A request without
    one of the two fields names no user either. *)
Definition InvalidCredentials : json :=
  JObj [("non_field_errors", JList [JStr "InvalidCredentials"])].

(** Modelled from the spec: [LoginSerializer.is_valid()] with the errors
    on the left and the validated user on the right (section 4.3: lookup
    by normalised email, then the credential check). *)
Definition LoginSerializer_is_valid (initial_data : Py.dict string) (w : World)
    : json + User :=
  match Py.get "email_primary" initial_data, Py.get "password" initial_data with
  | Some email, Some raw =>
      match User_objects_get_by_email (lower (strip email)) w with
      | (inr u, _) =>
          if check_password raw (password u) then inr u else inl InvalidCredentials
      | (inl _, _) => inl InvalidCredentials
      end
  | _, _ => inl InvalidCredentials
  end.

(** [generate_tokens_for_user] of apps/authn/services/jwt.py *)
Definition generate_tokens_for_user (u : User) : M (string * string) :=
  match for_user u with
  | inr tokens => ret tokens
  | inl e =>
      logger ERROR ("Error al generar tokens para usuario " +:+ str_id (id u)
                    +:+ ": " +:+ str_exn e) ;;;
      raise e
  end.

(** [LoginView.post] *)
Definition LoginView_post (request : Request) : M Response :=
  let ip_address := get_client_ip request in
  do serializer <- (λ w, (inr (LoginSerializer_is_valid (data request) w), w));
  match serializer with
  | inl errors =>
      let email := default "" (Py.get "email_primary" (data request)) in
      (if Py.truthy email then
         log_audit_event None constants.LOGIN_FAILED "User" None
           (Some [("email", JStr email); ("reason", JStr "invalid_credentials")])
           ip_address ;;;
         ret tt
       else ret tt) ;;;
      ret (mkResponse errors 401)
  | inr user_ =>
      if bool_decide (status user_ ≠ Status.ACTIVE) then
        log_audit_event (Some user_) constants.LOGIN_FAILED "User" (Some (id user_))
          (Some [("reason", JStr "user_suspended")]) ip_address ;;;
        ret (mkResponse (JObj [("detail", JStr "Usuario suspendido")]) 403)
      else
        do tokens <-
          try_except (do t <- generate_tokens_for_user user_; ret (Some t))
            (λ e,
               logger ERROR ("Error al generar tokens para usuario "
                             +:+ str_id (id user_) +:+ ": " +:+ str_exn e) ;;;
               ret None);
        match tokens with
        | None => ret (mkResponse (JObj [("detail", JStr "Error al generar tokens")]) 500)
        | Some (access, refresh) =>
            do t <- timezone_now;
            let user_ := set_last_login_at (Some t) user_ in
            save_last_login_at user_ ;;;
            log_audit_event (Some user_) constants.LOGIN_SUCCESS "User" (Some (id user_))
              (Some [("email", JStr (email_primary user_))]) ip_address ;;;
            ret (mkResponse
                   (JObj [("access", JStr access); ("refresh", JStr refresh);
                          ("user", UserPublicSerializer user_ request)])
                   200)
        end
  end.

(** [RegisterView.post] *)
Definition RegisterView_post (request : Request) : M Response :=
  let ip_address := get_client_ip request in
  do serializer <- (λ w, (inr (UserRegisterSerializer_is_valid (data request) w), w));
  match serializer with
  | inl errors => ret (mkResponse (errors_json errors) 400)
  | inr validated_data =>
      try_except
        (do user_ <- register_user validated_data ip_address;
         ret (mkResponse (UserPublicSerializer user_ request) 201))
        (λ e,
           logger ERROR ("Error al registrar usuario: " +:+ str_exn e) ;;;
           ret (mkResponse (JObj [("detail", JStr (str_exn e))]) 400))
  end.

(** ** Properties *)

(** The invariants of the user table (section 3 of the design): primary
    keys, emails and identity pairs are unique, [birth_date] is set. *)
Definition db_ok (us : list User) : Prop :=
  NoDup (id <$> us) ∧ NoDup (email_primary <$> us) ∧
  NoDup ((λ u, (id_type u, id_number u)) <$> us) ∧
  Forall (λ u, birth_date u ≠ None) us.

Global Instance db_ok_dec us : Decision (db_ok us).
Proof. unfold db_ok. apply _. Defined.

(** The row [log_audit_event] stores in world [w]. *)
Definition audit_row (w : World) (actor : option User) (action entity : string)
    (entity_id : option nat) (metadata : Py.dict json) (ip : option string) : AuditLog :=
  mkAuditLog (next_id w) (id <$> actor) action entity entity_id metadata ip (now w).

(** The rows one emitted event leaves in the audit table: the row, unless
    the storage layer fails, in which case the failure is swallowed. *)
Definition emitted (w : World) (row : AuditLog) : list AuditLog :=
  match audit_fault w with None => [row] | Some _ => [] end.

Ltac run :=
  unfold try_except, bind, ret, raise, logger, uuid4, timezone_now,
    AuditLog_objects_create; simpl.

Lemma truthy_true s : Py.truthy s = true ↔ s ≠ "".
Proof. destruct s; simpl; split; congruence. Qed.

Lemma truthy_false s : Py.truthy s = false ↔ s = "".
Proof. destruct s; simpl; split; congruence. Qed.

(** What [log_audit_event] does to the world when both codes are given. *)
Lemma log_audit_event_run actor a e eid md ip w :
  a ≠ "" → e ≠ "" →
  ∃ r w', log_audit_event actor a e eid md ip w = (inr r, w') ∧
    users w' = users w ∧ now w' = now w ∧
    audit_logs w' = audit_logs w ++ emitted w (audit_row w actor a e eid (default [] md) ip) ∧
    ∃ entry, log w' = log w ++ [entry].
Proof.
  intros Ha He. unfold log_audit_event, emitted.
  apply truthy_true in Ha, He. rewrite Ha, He. run.
  destruct (audit_fault w) as [ex|]; simpl.
  - eexists _, _. split; [reflexivity|]. simpl. rewrite app_nil_r. eauto.
  - eexists _, _. split; [reflexivity|]. simpl. eauto.
Qed.

Lemma find_by_id us u :
  NoDup (id <$> us) → u ∈ us →
  List.find (λ r, bool_decide (id r = id u)) us = Some u.
Proof.
  induction us as [|r us IH]; intros Hnd Hin; [by apply elem_of_nil in Hin|].
  rewrite fmap_cons in Hnd. apply NoDup_cons in Hnd as [Hr Hnd]. simpl.
  apply elem_of_cons in Hin as [->|Hin].
  - by rewrite bool_decide_eq_true_2.
  - rewrite bool_decide_eq_false_2; [by apply IH|].
    intros Heq. apply Hr. rewrite Heq. by apply list_elem_of_fmap_2.
Qed.

Lemma find_replaced us u u' :
  u ∈ us → id u' = id u →
  List.find (λ r, bool_decide (id r = id u))
    (List.map (λ r, if bool_decide (id r = id u) then u' else r) us) = Some u'.
Proof.
  intros Hin Hid. induction us as [|r us IH]; [by apply elem_of_nil in Hin|].
  simpl. destruct (bool_decide (id r = id u)) eqn:Hr.
  - by rewrite bool_decide_eq_true_2.
  - rewrite Hr. apply IH. apply elem_of_cons in Hin as [->|Hin]; [|done].
    by rewrite bool_decide_eq_true_2 in Hr.
Qed.

Lemma existsb_false {A} (p : A → bool) (l : list A) :
  (∀ x, x ∈ l → p x = false) → existsb p l = false.
Proof.
  induction l as [|x l IH]; intros H; [done|]. simpl.
  rewrite H by left. apply IH. intros y Hy. apply H. by right.
Qed.

Lemma existsb_true {A} (p : A → bool) (l : list A) x :
  x ∈ l → p x = true → existsb p l = true.
Proof.
  intros Hin Hp. apply existsb_exists. exists x. split; [|done].
  by apply list_elem_of_In.
Qed.

Lemma NoDup_fmap_eq {A B} (f : A → B) (l : list A) x y :
  NoDup (f <$> l) → x ∈ l → y ∈ l → f x = f y → x = y.
Proof.
  induction l as [|z l IH]; intros Hnd Hx Hy Hf; [by apply elem_of_nil in Hx|].
  rewrite fmap_cons in Hnd. apply NoDup_cons in Hnd as [Hz Hnd].
  apply elem_of_cons in Hx as [->|Hx], Hy as [->|Hy]; auto.
  - exfalso. apply Hz. rewrite Hf. by apply list_elem_of_fmap_2.
  - exfalso. apply Hz. rewrite <- Hf. by apply list_elem_of_fmap_2.
Qed.

(** Saving a row of a consistent table with its unique columns
    untouched violates no constraint. *)
Lemma constraint_ok us u u' :
  db_ok us → u ∈ us →
  id u' = id u → email_primary u' = email_primary u →
  id_type u' = id_type u → id_number u' = id_number u →
  birth_date u' = birth_date u →
  constraint_violation u'
    (List.filter (λ r, negb (bool_decide (id r = id u'))) us) = None.
Proof.
  intros (Hid & Hem & Hpair & Hbd) Hin Ei Ee Et En Eb.
  unfold constraint_violation.
  rewrite bool_decide_eq_false_2; last first.
  { rewrite Eb. by eapply (proj1 (Forall_forall _ _) Hbd). }
  rewrite !existsb_false; [done| |].
  - intros r Hr. apply list_elem_of_In, filter_In in Hr as [Hr Hne].
    apply list_elem_of_In in Hr. apply negb_true_iff, bool_decide_eq_false in Hne.
    apply andb_false_iff. destruct (decide (id_type r = id_type u')) as [E1|]; [|left; by apply bool_decide_eq_false].
    right. apply bool_decide_eq_false. intros E2. apply Hne. rewrite Ei. f_equal.
    apply (NoDup_fmap_eq (λ u, (id_type u, id_number u)) us); auto. simpl. congruence.
  - intros r Hr. apply list_elem_of_In, filter_In in Hr as [Hr Hne].
    apply list_elem_of_In in Hr. apply negb_true_iff, bool_decide_eq_false in Hne.
    apply bool_decide_eq_false. intros E. apply Hne. rewrite Ei. f_equal.
    apply (NoDup_fmap_eq email_primary us); auto. congruence.
Qed.

(** An update of a row that is in the table. *)
Lemma save_update w u u' :
  db_ok (users w) → u ∈ users w →
  id u' = id u → email_primary u' = email_primary u →
  id_type u' = id_type u → id_number u' = id_number u →
  birth_date u' = birth_date u →
  save u' w =
    (inr (set_timestamps (created_at u') (now w) u'),
     set_users (List.map (λ r, if bool_decide (id r = id u)
                               then set_timestamps (created_at u') (now w) u'
                               else r) (users w)) w).
Proof.
  intros Hok Hin Ei Ee Et En Eb. unfold save.
  rewrite (constraint_ok _ u) by done.
  rewrite (existsb_true _ _ u); [|done|by apply bool_decide_eq_true].
  by rewrite Ei.
Qed.

(** *** Running the monad step by step *)

Lemma bind_inr {S A B} (m : St S A) (k : A → St S B) s a s' :
  m s = (inr a, s') → bind m k s = k a s'.
Proof. intros H. unfold bind. by rewrite H. Qed.

Lemma bind_inl {S A B} (m : St S A) (k : A → St S B) s e s' :
  m s = (inl e, s') → bind m k s = (inl e, s').
Proof. intros H. unfold bind. by rewrite H. Qed.

Lemma try_inr {S A} (body : St S A) handler s a s' :
  body s = (inr a, s') → try_except body handler s = (inr a, s').
Proof. intros H. unfold try_except. by rewrite H. Qed.

Lemma try_inl {S A} (body : St S A) handler s e s' :
  body s = (inl e, s') → try_except body handler s = handler e s'.
Proof. intros H. unfold try_except. by rewrite H. Qed.

Lemma bind_inv_inr {S A B} (m : St S A) (k : A → St S B) s b s' :
  bind m k s = (inr b, s') →
  ∃ a s1, m s = (inr a, s1) ∧ k a s1 = (inr b, s').
Proof.
  unfold bind. destruct (m s) as [[e|a] s1]; [done|]. eauto.
Qed.

Lemma get_found uid w u :
  List.find (λ r, bool_decide (id r = uid)) (users w) = Some u →
  User_objects_get uid w = (inr u, w).
Proof. intros H. unfold User_objects_get. by rewrite H. Qed.

(** *** Which exceptions a computation can raise *)

Definition raises_only {S A} (P : exn → Prop) (m : St S A) : Prop :=
  ∀ s e s', m s = (inl e, s') → P e.

Lemma raises_only_ret {S A} P (a : A) : raises_only (S:=S) P (ret a).
Proof. intros s e s' H. inversion H. Qed.

Lemma raises_only_raise {S A} (P : exn → Prop) e :
  P e → raises_only (S:=S) (A:=A) P (raise e).
Proof. intros HP s e' s' H. inversion H. by subst. Qed.

Lemma raises_only_bind {S A B} P (m : St S A) (k : A → St S B) :
  raises_only P m → (∀ a, raises_only P (k a)) → raises_only P (bind m k).
Proof.
  intros Hm Hk s e s' H. unfold bind in H.
  destruct (m s) as [[e1|a] s1] eqn:E.
  - inversion H; subst. by eapply Hm.
  - by eapply Hk.
Qed.

Lemma raises_only_try {S A} (P Q : exn → Prop) (body : St S A) handler :
  raises_only Q body → (∀ e, Q e → raises_only P (handler e)) →
  raises_only P (try_except body handler).
Proof.
  intros Hb Hh s e s' H. unfold try_except in H.
  destruct (body s) as [[e1|a] s1] eqn:E; [|inversion H].
  eapply Hh; [|done]. by eapply Hb.
Qed.

Lemma raises_only_weaken {S A} (P Q : exn → Prop) (m : St S A) :
  (∀ e, P e → Q e) → raises_only P m → raises_only Q m.
Proof. intros HPQ Hm s e s' H. apply HPQ. by eapply Hm. Qed.

Lemma raises_only_logger P l msg : raises_only P (logger l msg).
Proof. intros s e s' H. inversion H. Qed.

Lemma raises_only_uuid4 P : raises_only P uuid4.
Proof. intros s e s' H. inversion H. Qed.

Lemma raises_only_get uid : raises_only (λ e, e = DoesNotExist) (User_objects_get uid).
Proof.
  intros s e s' H. unfold User_objects_get in H.
  destruct (List.find _ _); inversion H. done.
Qed.

Lemma raises_only_save u : raises_only (λ e, ∃ m, e = IntegrityError m) (save u).
Proof.
  intros s e s' H. unfold save, constraint_violation in H.
  repeat case_match; simplify_eq; eauto.
Qed.

(** The audit logger raises nothing. *)
Lemma raises_only_log_audit_event actor a e eid md ip :
  raises_only (λ _, False) (log_audit_event actor a e eid md ip).
Proof.
  unfold log_audit_event.
  apply (raises_only_try _ (λ _, True)).
  - intros s ex s' _. exact I.
  - intros ex _. apply raises_only_bind; [apply raises_only_logger|].
    intros _. apply raises_only_ret.
Qed.

Definition not_permission_denied (e : exn) : Prop := ∀ msg, e ≠ PermissionDenied msg.

Lemma raises_only_create_user email pw extra :
  raises_only not_permission_denied (create_user email pw extra).
Proof.
  unfold create_user. case_match.
  { apply raises_only_raise. by intros m. }
  apply raises_only_bind.
  - unfold User_init. apply raises_only_bind; [apply raises_only_uuid4|].
    intros pk. destruct (init_kwargs _ _) as [e|u] eqn:E; [|apply raises_only_ret].
    apply raises_only_raise. intros m ->.
    revert E. generalize (mkUser pk "" "" "" None "" None None
      (normalize_email (default "" email)) None Role.CLIENT Status.ACTIVE "" 0 0 None).
    induction extra as [|[k v] extra IH]; intros u0 E; simpl in E; [done|].
    destruct (column_of k); [exact (IH _ E)|done].
  - intros u. eapply raises_only_weaken; [|apply raises_only_save].
    intros e [m ->] m'. done.
Qed.

(** C7: the audit logger never raises.  Whatever its arguments and the
    state of the storage layer, [log_audit_event] returns; the user table
    is untouched; with an empty action or entity it stores no row, logs a
    warning and returns [None]; when the storage layer fails it stores no
    row, logs the error and returns [None]; otherwise it returns the row
    it appended. *)
Theorem log_audit_event_never_raises actor a e eid md ip w :
  ∃ r w', log_audit_event actor a e eid md ip w = (inr r, w') ∧
    users w' = users w ∧
    if negb (Py.truthy a) || negb (Py.truthy e) then
      r = None ∧ audit_logs w' = audit_logs w ∧
      log w' = log w ++
        [(WARNING, "Intento de crear audit log sin action o entity: action="
                   +:+ a +:+ ", entity=" +:+ e)]
    else
      match audit_fault w with
      | Some ex =>
          r = None ∧ audit_logs w' = audit_logs w ∧
          log w' = log w ++ [(ERROR, "Error al crear audit log: " +:+ str_exn ex)]
      | None =>
          r = Some (audit_row w actor a e eid (default [] md) ip) ∧
          audit_logs w' =
            audit_logs w ++ [audit_row w actor a e eid (default [] md) ip]
      end.
Proof.
  unfold log_audit_event.
  destruct (negb (Py.truthy a) || negb (Py.truthy e)) eqn:E; run.
  - eexists _, _. split; [reflexivity|]. simpl. auto.
  - destruct (audit_fault w) as [ex|]; simpl;
      (eexists _, _; split; [reflexivity|]); simpl; auto.
Qed.

Lemma raises_only_audit P actor a e eid md ip :
  raises_only P (log_audit_event actor a e eid md ip).
Proof.
  eapply raises_only_weaken; [|apply raises_only_log_audit_event]. by intros ? [].
Qed.

Lemma raises_only_pop_required P k data :
  P (KeyError k) → raises_only P (pop_required k data).
Proof.
  intros HP. unfold pop_required.
  destruct (Py.get k data); [apply raises_only_ret|by apply raises_only_raise].
Qed.

Ltac raises :=
  repeat first
    [ apply raises_only_ret
    | apply raises_only_logger
    | apply raises_only_audit
    | apply raises_only_create_user
    | apply raises_only_pop_required; by intros ?
    | apply raises_only_raise; by intros ?
    | apply raises_only_bind; [|intros ?] ].

Lemma create_user_by_admin_admin data actor ip :
  role actor = Role.ADMIN →
  raises_only not_permission_denied (create_user_by_admin data actor ip).
Proof.
  intros Hr. unfold create_user_by_admin.
  rewrite bool_decide_eq_false_2 by (by intros []).
  apply (raises_only_try _ not_permission_denied).
  - destruct (Py.pop "password" data) as [pw d]. case_match; raises.
    destruct a as [email d']. raises.
  - intros e He. destruct e; raises; apply He.
Qed.

Lemma update_user_by_admin_admin uid data actor ip :
  role actor = Role.ADMIN →
  raises_only not_permission_denied (update_user_by_admin uid data actor ip).
Proof.
  intros Hr. unfold update_user_by_admin.
  rewrite bool_decide_eq_false_2 by (by intros []).
  apply (raises_only_try _ not_permission_denied).
  - apply raises_only_bind.
    { eapply raises_only_weaken; [|apply raises_only_get]. by intros ? -> ?. }
    intros old. destruct (Py.pop "password" data) as [pw d].
    apply raises_only_bind; [|intros ?; raises].
    eapply raises_only_weaken; [|apply raises_only_save]. by intros ? [? ->] ?.
  - intros e He. destruct e; raises; apply He.
Qed.

Lemma suspend_user_admin uid actor ip :
  role actor = Role.ADMIN →
  raises_only not_permission_denied (suspend_user uid actor ip).
Proof.
  intros Hr. unfold suspend_user.
  rewrite bool_decide_eq_false_2 by (by intros []).
  apply (raises_only_try _ not_permission_denied).
  - apply raises_only_bind.
    { eapply raises_only_weaken; [|apply raises_only_get]. by intros ? -> ?. }
    intros u. case_match; raises.
    eapply raises_only_weaken; [|apply raises_only_save]. by intros ? [? ->] ?.
  - intros e He. destruct e; raises; apply He.
Qed.

Lemma activate_user_admin uid actor ip :
  role actor = Role.ADMIN →
  raises_only not_permission_denied (activate_user uid actor ip).
Proof.
  intros Hr. unfold activate_user.
  rewrite bool_decide_eq_false_2 by (by intros []).
  apply (raises_only_try _ not_permission_denied).
  - apply raises_only_bind.
    { eapply raises_only_weaken; [|apply raises_only_get]. by intros ? -> ?. }
    intros u. case_match; raises.
    eapply raises_only_weaken; [|apply raises_only_save]. by intros ? [? ->] ?.
  - intros e He. destruct e; raises; apply He.
Qed.

Lemma raises_only_fst {A} P (m : M A) w :
  raises_only P m → ∀ e, fst (m w) = inl e → P e.
Proof. intros Hm e He. destruct (m w) as [r w'] eqn:E. simpl in He. subst. by eapply Hm. Qed.

(** C3: the admin path is gated by the actor's role.  For an actor whose
    role is not ADMIN, create_user_by_admin, update_user_by_admin,
    suspend_user and activate_user raise PermissionDenied and leave the
    world (both tables and the log) as it was; for an actor whose role is
    ADMIN none of the four raises PermissionDenied. *)
Theorem admin_path_role_check actor data uid ip w :
  (role actor ≠ Role.ADMIN →
     create_user_by_admin data actor ip w =
       (inl (PermissionDenied "Solo los administradores pueden crear usuarios"), w) ∧
     update_user_by_admin uid data actor ip w =
       (inl (PermissionDenied "Solo los administradores pueden actualizar usuarios"), w) ∧
     suspend_user uid actor ip w =
       (inl (PermissionDenied "Solo los administradores pueden suspender usuarios"), w) ∧
     activate_user uid actor ip w =
       (inl (PermissionDenied "Solo los administradores pueden activar usuarios"), w)) ∧
  (role actor = Role.ADMIN →
     ∀ msg,
       fst (create_user_by_admin data actor ip w) ≠ inl (PermissionDenied msg) ∧
       fst (update_user_by_admin uid data actor ip w) ≠ inl (PermissionDenied msg) ∧
       fst (suspend_user uid actor ip w) ≠ inl (PermissionDenied msg) ∧
       fst (activate_user uid actor ip w) ≠ inl (PermissionDenied msg)).
Proof.
  split.
  - intros Hr. unfold create_user_by_admin, update_user_by_admin, suspend_user,
      activate_user. by rewrite !bool_decide_eq_true_2.
  - intros Hr msg.
    repeat split; intros H;
      eapply raises_only_fst in H;
      eauto using create_user_by_admin_admin, update_user_by_admin_admin,
        suspend_user_admin, activate_user_admin;
      by apply (H msg).
Qed.

(** *** The status state machine *)

Lemma log_audit_event_stored actor a e eid md ip w :
  a ≠ "" → e ≠ "" →
  ∃ r w', log_audit_event actor a e eid (Some md) ip w = (inr r, w') ∧
    users w' = users w ∧
    audit_logs w' = audit_logs w ++ emitted w (audit_row w actor a e eid md ip).
Proof.
  intros Ha He.
  destruct (log_audit_event_run actor a e eid (Some md) ip w Ha He)
    as (r & w' & E & Hu & _ & Hl & _).
  eauto.
Qed.

Lemma suspend_noop w actor uid u ip :
  role actor = Role.ADMIN →
  List.find (λ r, bool_decide (id r = uid)) (users w) = Some u →
  status u = Status.SUSPENDED →
  ∃ w', suspend_user uid actor ip w = (inr u, w') ∧
    users w' = users w ∧ audit_logs w' = audit_logs w.
Proof.
  intros Hr Hf Hs. unfold suspend_user, User_objects_get.
  rewrite bool_decide_eq_false_2 by (by intros []). run.
  rewrite Hf, bool_decide_eq_true_2 by done. eauto.
Qed.

Lemma activate_noop w actor uid u ip :
  role actor = Role.ADMIN →
  List.find (λ r, bool_decide (id r = uid)) (users w) = Some u →
  status u = Status.ACTIVE →
  ∃ w', activate_user uid actor ip w = (inr u, w') ∧
    users w' = users w ∧ audit_logs w' = audit_logs w.
Proof.
  intros Hr Hf Hs. unfold activate_user, User_objects_get.
  rewrite bool_decide_eq_false_2 by (by intros []). run.
  rewrite Hf, bool_decide_eq_true_2 by done. eauto.
Qed.

Lemma set_status_fields s u :
  id (set_column c_status s u) = id u ∧
  email_primary (set_column c_status s u) = email_primary u ∧
  id_type (set_column c_status s u) = id_type u ∧
  id_number (set_column c_status s u) = id_number u ∧
  birth_date (set_column c_status s u) = birth_date u ∧
  status (set_column c_status s u) = s.
Proof. by destruct u. Qed.

Lemma set_timestamps_fields ca ua u :
  id (set_timestamps ca ua u) = id u ∧
  email_primary (set_timestamps ca ua u) = email_primary u ∧
  role (set_timestamps ca ua u) = role u ∧
  status (set_timestamps ca ua u) = status u.
Proof. by destruct u. Qed.

Lemma suspend_transition w actor u ip :
  role actor = Role.ADMIN → db_ok (users w) → u ∈ users w →
  status u ≠ Status.SUSPENDED →
  ∃ u' w', suspend_user (id u) actor ip w = (inr u', w') ∧
    status u' = Status.SUSPENDED ∧ id u' = id u ∧
    users w' = (λ r, if bool_decide (id r = id u) then u' else r) <$> users w ∧
    audit_logs w' =
      audit_logs w ++
      emitted w (audit_row w (Some actor) constants.USER_SUSPENDED "User" (Some (id u))
                   [("suspended_user_email", JStr (email_primary u));
                    ("suspended_by", JStr (str_id (id actor)))] ip).
Proof.
  intros Hr Hok Hin Hs.
  pose (u0 := set_column c_status Status.SUSPENDED u).
  pose (u' := set_timestamps (created_at u0) (now w) u0).
  pose (w1 := set_users
                (List.map (λ r, if bool_decide (id r = id u) then u' else r) (users w)) w).
  assert (Hsave : save u0 w = (inr u', w1)).
  { apply save_update; try done; by destruct u. }
  assert (Hf : id u' = id u ∧ email_primary u' = email_primary u ∧
               status u' = Status.SUSPENDED) by (by destruct u).
  destruct Hf as (Ei & Ee & Es).
  destruct (log_audit_event_stored (Some actor) constants.USER_SUSPENDED "User"
              (Some (id u'))
              [("suspended_user_email", JStr (email_primary u'));
               ("suspended_by", JStr (str_id (id actor)))] ip w1)
    as (r & w2 & E & Hu & Hl); [done|done|].
  eexists u', _. split.
  { unfold suspend_user. rewrite bool_decide_eq_false_2 by (by intros []).
    apply try_inr.
    erewrite bind_inr by (apply get_found, find_by_id; [apply Hok|done]).
    rewrite bool_decide_eq_false_2 by done.
    erewrite bind_inr by exact Hsave.
    erewrite bind_inr by exact E.
    reflexivity. }
  simpl. rewrite Hu, Hl, Ei, Ee. done.
Qed.

Lemma activate_transition w actor u ip :
  role actor = Role.ADMIN → db_ok (users w) → u ∈ users w →
  status u ≠ Status.ACTIVE →
  ∃ u' w', activate_user (id u) actor ip w = (inr u', w') ∧
    status u' = Status.ACTIVE ∧ id u' = id u ∧
    users w' = (λ r, if bool_decide (id r = id u) then u' else r) <$> users w ∧
    audit_logs w' =
      audit_logs w ++
      emitted w (audit_row w (Some actor) constants.USER_ACTIVATED "User" (Some (id u))
                   [("activated_user_email", JStr (email_primary u));
                    ("activated_by", JStr (str_id (id actor)))] ip).
Proof.
  intros Hr Hok Hin Hs.
  pose (u0 := set_column c_status Status.ACTIVE u).
  pose (u' := set_timestamps (created_at u0) (now w) u0).
  pose (w1 := set_users
                (List.map (λ r, if bool_decide (id r = id u) then u' else r) (users w)) w).
  assert (Hsave : save u0 w = (inr u', w1)).
  { apply save_update; try done; by destruct u. }
  assert (Hf : id u' = id u ∧ email_primary u' = email_primary u ∧
               status u' = Status.ACTIVE) by (by destruct u).
  destruct Hf as (Ei & Ee & Es).
  destruct (log_audit_event_stored (Some actor) constants.USER_ACTIVATED "User"
              (Some (id u'))
              [("activated_user_email", JStr (email_primary u'));
               ("activated_by", JStr (str_id (id actor)))] ip w1)
    as (r & w2 & E & Hu & Hl); [done|done|].
  eexists u', _. split.
  { unfold activate_user. rewrite bool_decide_eq_false_2 by (by intros []).
    apply try_inr.
    erewrite bind_inr by (apply get_found, find_by_id; [apply Hok|done]).
    rewrite bool_decide_eq_false_2 by done.
    erewrite bind_inr by exact Hsave.
    erewrite bind_inr by exact E.
    reflexivity. }
  simpl. rewrite Hu, Hl, Ei, Ee. done.
Qed.

(** C2: suspend and activate are idempotent and audit only a transition.
    For an admin actor and a user [u] of a consistent table:
    - if [u] is ACTIVE, [suspend_user] returns the record with status
      SUSPENDED, rewrites that row only, and hands exactly one
      USER_SUSPENDED event to the audit logger (one new audit row, none
      when the audit storage fails); a second [suspend_user] returns the
      same record and changes neither table; [activate_user] on the
      ACTIVE user returns it unchanged and changes neither table;
    - symmetrically, if [u] is SUSPENDED, [activate_user] makes it ACTIVE
      with exactly one USER_ACTIVATED event, a second [activate_user] is
      a no-op, and so is [suspend_user] on the SUSPENDED user. *)
Theorem suspend_activate_idempotent w actor u ip :
  role actor = Role.ADMIN → db_ok (users w) → u ∈ users w →
  (status u = Status.ACTIVE →
     (∃ u' w',
        suspend_user (id u) actor ip w = (inr u', w') ∧
        status u' = Status.SUSPENDED ∧ id u' = id u ∧
        users w' = (λ r, if bool_decide (id r = id u) then u' else r) <$> users w ∧
        audit_logs w' =
          audit_logs w ++
          emitted w (audit_row w (Some actor) constants.USER_SUSPENDED "User"
                       (Some (id u))
                       [("suspended_user_email", JStr (email_primary u));
                        ("suspended_by", JStr (str_id (id actor)))] ip) ∧
        ∃ w'', suspend_user (id u) actor ip w' = (inr u', w'') ∧
               users w'' = users w' ∧ audit_logs w'' = audit_logs w') ∧
     (∃ w0, activate_user (id u) actor ip w = (inr u, w0) ∧
            users w0 = users w ∧ audit_logs w0 = audit_logs w)) ∧
  (status u = Status.SUSPENDED →
     (∃ u' w',
        activate_user (id u) actor ip w = (inr u', w') ∧
        status u' = Status.ACTIVE ∧ id u' = id u ∧
        users w' = (λ r, if bool_decide (id r = id u) then u' else r) <$> users w ∧
        audit_logs w' =
          audit_logs w ++
          emitted w (audit_row w (Some actor) constants.USER_ACTIVATED "User"
                       (Some (id u))
                       [("activated_user_email", JStr (email_primary u));
                        ("activated_by", JStr (str_id (id actor)))] ip) ∧
        ∃ w'', activate_user (id u) actor ip w' = (inr u', w'') ∧
               users w'' = users w' ∧ audit_logs w'' = audit_logs w') ∧
     (∃ w0, suspend_user (id u) actor ip w = (inr u, w0) ∧
            users w0 = users w ∧ audit_logs w0 = audit_logs w)).
Proof.
  intros Hr Hok Hin. split; intros Hs.
  - split.
    + destruct (suspend_transition w actor u ip) as (u' & w' & E & Hs' & Hi & Hu & Hl);
        [done|done|done|by rewrite Hs|].
      exists u', w'. repeat split; try done.
      apply suspend_noop; [done| |done].
      rewrite Hu. by apply find_replaced.
    + apply activate_noop; [done| |done]. apply find_by_id; [apply Hok|done].
  - split.
    + destruct (activate_transition w actor u ip) as (u' & w' & E & Hs' & Hi & Hu & Hl);
        [done|done|done|by rewrite Hs|].
      exists u', w'. repeat split; try done.
      apply activate_noop; [done| |done].
      rewrite Hu. by apply find_replaced.
    + apply suspend_noop; [done| |done]. apply find_by_id; [apply Hok|done].
Qed.

(** *** Self-update and the prohibited fields *)

(** [needle] occurs in [hay]. *)
Definition substring_of (needle hay : string) : Prop :=
  ∃ pre post, hay = pre +:+ needle +:+ post.

Lemma app_cons x (a b : string) : String x a +:+ b = String x (a +:+ b).
Proof. reflexivity. Qed.

Lemma app_assoc_s (a b c : string) : (a +:+ b) +:+ c = a +:+ (b +:+ c).
Proof. induction a as [|x a IH]; [done|by rewrite !app_cons, IH]. Qed.

Lemma app_empty_r (a : string) : a +:+ "" = a.
Proof. induction a as [|x a IH]; [done|by rewrite app_cons, IH]. Qed.

Lemma substring_of_app_l pre needle hay :
  substring_of needle hay → substring_of needle (pre +:+ hay).
Proof.
  intros (p & q & ->). exists (pre +:+ p), q. by rewrite app_assoc_s.
Qed.

Lemma join_names sep l x : x ∈ l → substring_of x (Py.join sep l).
Proof.
  induction l as [|y l IH]; intros Hin; [by apply elem_of_nil in Hin|].
  apply elem_of_cons in Hin as [->|Hin].
  - destruct l as [|z l]; simpl.
    + exists "", "". by rewrite app_empty_r.
    + exists "", (sep +:+ Py.join sep (z :: l)). done.
  - destruct l as [|z l]; [by apply elem_of_nil in Hin|].
    change (Py.join sep (y :: z :: l)) with (y +:+ sep +:+ Py.join sep (z :: l)).
    by apply substring_of_app_l, substring_of_app_l, IH.
Qed.

Lemma elem_of_keyset {V} (d : Py.dict V) k : k ∈ Py.keyset d ↔ k ∈ Py.keys d.
Proof. unfold Py.keyset. apply elem_of_list_to_set. Qed.

(** C1: a self-update that names a prohibited field is rejected as a
    whole.  If [data] has at least one key in the prohibited set, then
    [update_self_user] raises a ValidationError and leaves the user
    object, both tables and the log exactly as they were, whatever other
    keys [data] holds; the message lists exactly the prohibited keys of
    [data], each of them occurring in its text; and
    [UserMeUpdateSerializer.validate] rejects the same data with the
    same message. *)
Theorem update_self_rejects_prohibited data ip user_ w :
  (∃ k, k ∈ Py.keys data ∧ k ∈ SELF_PROHIBITED_FIELDS) →
  ∃ named msg,
    msg = "No se pueden actualizar los siguientes campos: " +:+ Py.join ", " named ∧
    update_self_user data ip (user_, w) = (inl (ValidationError msg), (user_, w)) ∧
    UserMeUpdateSerializer_validate data = inl msg ∧
    NoDup named ∧
    (∀ k, k ∈ named ↔ k ∈ Py.keys data ∧ k ∈ SELF_PROHIBITED_FIELDS) ∧
    (∀ k, k ∈ named → substring_of k msg).
Proof.
  intros (k & Hk & Hp).
  assert (Hne : Py.keyset data ∩ SELF_PROHIBITED_FIELDS ≠ ∅).
  { intros He. apply (not_elem_of_empty (C:=gset string) k). rewrite <- He.
    apply elem_of_intersection. split; [by apply elem_of_keyset|done]. }
  eexists (elements (Py.keyset data ∩ SELF_PROHIBITED_FIELDS)), _.
  split; [reflexivity|]. split; [|split; [|split; [|split]]].
  - unfold update_self_user. by rewrite bool_decide_eq_true_2.
  - unfold UserMeUpdateSerializer_validate.
    change PROHIBITED_FIELDS with SELF_PROHIBITED_FIELDS.
    by rewrite bool_decide_eq_true_2.
  - apply NoDup_elements.
  - intros k'. rewrite elem_of_elements, elem_of_intersection, elem_of_keyset. done.
  - intros k' Hk'. by apply substring_of_app_l, join_names.
Qed.

(** *** The admin update and its audit metadata *)

Lemma save_frame u w r w1 :
  save u w = (r, w1) →
  audit_logs w1 = audit_logs w ∧ log w1 = log w ∧ now w1 = now w ∧
  next_id w1 = next_id w ∧ audit_fault w1 = audit_fault w.
Proof.
  unfold save. intros H. repeat case_match; simplify_eq; done.
Qed.

(** The object [update_user_by_admin] saves: the fetched row with the
    fields of [data] assigned and the password re-hashed if one is given. *)
Definition admin_updated (data : Py.dict string) (old : User) : User :=
  let '(password, data) := Py.pop "password" data in
  let user_ := apply_fields data old in
  if Py.truthy_opt password then set_password (default "" password) user_ else user_.





(** *** Registration *)

Lemma keys_cons {V} k (v : V) d : Py.keys ((k, v) :: d) = k :: Py.keys d.
Proof. reflexivity. Qed.

Lemma get_None_keys {V} k (d : Py.dict V) : Py.get k d = None ↔ k ∉ Py.keys d.
Proof.
  induction d as [|[k' v] d IH].
  - split; [intros _ H; by apply elem_of_nil in H|done].
  - rewrite keys_cons, not_elem_of_cons. simpl.
    destruct (String.eqb_spec k k') as [->|Hne]; [|prop].
    split; [done|]. by intros [? _].
Qed.

Lemma get_remove_ne {V} k k' (d : Py.dict V) :
  k ≠ k' → Py.get k (Py.remove k' d) = Py.get k d.
Proof.
  intros Hne. induction d as [|[k0 v] d IH]; simpl; [done|].
  destruct (String.eqb_spec k' k0) as [->|H0]; simpl.
  - rewrite IH. by destruct (String.eqb_spec k k0).
  - by rewrite IH.
Qed.

Lemma keys_remove {V} k k' (d : Py.dict V) :
  k ∈ Py.keys (Py.remove k' d) ↔ k ∈ Py.keys d ∧ k ≠ k'.
Proof.
  pure_goal. induction d as [|[k0 v] d IH].
  - simpl. rewrite elem_of_nil. prop.
  - rewrite keys_cons, elem_of_cons. simpl.
    destruct (String.eqb_spec k' k0) as [->|H0];
      rewrite ?keys_cons, ?elem_of_cons, IH; [|naive_solver].
    split; [prop|]. intros [[->|?] ?]; prop.
Qed.

Lemma NoDup_keys_remove {V} k (d : Py.dict V) :
  NoDup (Py.keys d) → NoDup (Py.keys (Py.remove k d)).
Proof.
  induction d as [|[k0 v] d IH]; [done|].
  rewrite keys_cons, NoDup_cons. simpl. intros [Hk Hd].
  destruct (String.eqb_spec k k0); [by apply IH|].
  rewrite keys_cons. apply NoDup_cons. split; [|by apply IH].
  intros H. apply Hk. by apply (keys_remove k0 k d).
Qed.

Lemma get_app {V} k (d d' : Py.dict V) :
  Py.get k (d ++ d') = match Py.get k d with Some v => Some v | None => Py.get k d' end.
Proof.
  induction d as [|[k0 v] d IH]; simpl; [done|]. by destruct (String.eqb_spec k k0).
Qed.

Lemma get_setdefault {V} k k' (v : V) d :
  Py.get k (Py.setdefault k' v d) =
    if decide (k = k') then Some (default v (Py.get k d)) else Py.get k d.
Proof.
  unfold Py.setdefault. destruct (Py.get k' d) as [v'|] eqn:E.
  - destruct (decide (k = k')) as [->|]; [by rewrite E|done].
  - rewrite get_app. simpl.
    destruct (decide (k = k')) as [->|Hne].
    + by rewrite E, String.eqb_refl.
    + apply String.eqb_neq in Hne. rewrite Hne. by destruct (Py.get k d).
Qed.

Lemma NoDup_keys_setdefault {V} k (v : V) d :
  NoDup (Py.keys d) → NoDup (Py.keys (Py.setdefault k v d)).
Proof.
  intros Hd. unfold Py.setdefault. destruct (Py.get k d) eqn:E; [done|].
  unfold Py.keys in *. rewrite fmap_app. simpl.
  apply NoDup_app. split; [done|]. split; [|apply NoDup_singleton].
  intros x Hx Hx'. apply list_elem_of_singleton in Hx'. subst.
  by apply (get_None_keys k d).
Qed.

(** A key naming a column names exactly that column. *)
Lemma column_of_inv k c :
  column_of k = Some c → Py.get k columns = Some c ∧ (k, c) ∈ columns.
Proof.
  unfold column_of. intros H. split; [done|].
  revert H. generalize columns. intros d. induction d as [|[k0 c0] d IH]; [done|].
  simpl. destruct (String.eqb_spec k k0) as [->|]; intros H.
  - simplify_eq. by left.
  - right. by apply IH.
Qed.

Lemma column_of_role k : column_of k = Some c_role → k = "role".
Proof.
  pure_goal. intros H. apply column_of_inv in H as [_ H]. unfold columns in H.
  rewrite !elem_of_cons, elem_of_nil in H. naive_solver.
Qed.

Lemma column_of_status k : column_of k = Some c_status → k = "status".
Proof.
  pure_goal. intros H. apply column_of_inv in H as [_ H]. unfold columns in H.
  rewrite !elem_of_cons, elem_of_nil in H. naive_solver.
Qed.


Lemma get_cons {V} k k' (v : V) d :
  Py.get k ((k', v) :: d) = if String.eqb k k' then Some v else Py.get k d.
Proof. reflexivity. Qed.

Lemma init_kwargs_cons k v kw u0 :
  init_kwargs ((k, v) :: kw) u0 =
    match column_of k with
    | Some c => init_kwargs kw (set_column c v u0)
    | None => inl (TypeError ("User() got unexpected keyword arguments: '" +:+ k +:+ "'"))
    end.
Proof. reflexivity. Qed.

Lemma init_kwargs_role kw u0 u :
  init_kwargs kw u0 = inr u → NoDup (Py.keys kw) →
  role u = default (role u0) (Py.get "role" kw).
Proof.
  revert u0. induction kw as [|[k v] kw IH]; intros u0 H Hnd.
  { simpl in *. by simplify_eq. }
  rewrite keys_cons in Hnd. apply NoDup_cons in Hnd as [Hk Hnd].
  rewrite init_kwargs_cons in H. rewrite get_cons.
  destruct (column_of k) as [c|] eqn:Ec; [|done].
  rewrite (IH _ H Hnd).
  destruct (String.eqb_spec "role" k) as [<-|Hne].
  - apply (get_None_keys "role" kw) in Hk. rewrite Hk.
    vm_compute in Ec. simplify_eq. by destruct u0.
  - assert (c ≠ c_role) by (intros ->; by apply column_of_role in Ec).
    destruct (Py.get "role" kw); [done|]. simpl. by destruct u0, c.
Qed.

Lemma init_kwargs_status kw u0 u :
  init_kwargs kw u0 = inr u → NoDup (Py.keys kw) →
  status u = default (status u0) (Py.get "status" kw).
Proof.
  revert u0. induction kw as [|[k v] kw IH]; intros u0 H Hnd.
  { simpl in *. by simplify_eq. }
  rewrite keys_cons in Hnd. apply NoDup_cons in Hnd as [Hk Hnd].
  rewrite init_kwargs_cons in H. rewrite get_cons.
  destruct (column_of k) as [c|] eqn:Ec; [|done].
  rewrite (IH _ H Hnd).
  destruct (String.eqb_spec "status" k) as [<-|Hne].
  - apply (get_None_keys "status" kw) in Hk. rewrite Hk.
    vm_compute in Ec. simplify_eq. by destruct u0.
  - assert (c ≠ c_status) by (intros ->; by apply column_of_status in Ec).
    destruct (Py.get "status" kw); [done|]. simpl. by destruct u0, c.
Qed.


Lemma save_result u w u' w1 :
  save u w = (inr u', w1) →
  (∃ ca ua, u' = set_timestamps ca ua u) ∧ u' ∈ users w1 ∧
  constraint_violation u
    (List.filter (λ r, negb (bool_decide (id r = id u))) (users w)) = None.
Proof.
  unfold save. intros H.
  destruct (constraint_violation _ _) eqn:Ec; [done|].
  destruct (existsb _ _) eqn:Ex; simplify_eq; (split; [eauto|split; [|done]]); simpl.
  - apply existsb_exists in Ex as (r & Hr & Hid). apply bool_decide_eq_true in Hid.
    apply list_elem_of_In in Hr. apply list_elem_of_In, in_map_iff. exists r.
    split; [by rewrite bool_decide_eq_true_2|by apply list_elem_of_In].
  - apply elem_of_app. right. by left.
Qed.

(** What a successful [register_user] went through. *)
Lemma register_user_inv data ip w u w' :
  register_user data ip w = (inr u, w') →
  ∃ pw e kwargs u1 u2 w2,
    Py.get "password" data = Some pw ∧
    kwargs =
      Py.remove "email_primary"
        (Py.setdefault "status" Status.ACTIVE
           (Py.setdefault "role" Role.CLIENT (Py.remove "password" data))) ∧
    Py.get "email_primary"
      (Py.setdefault "status" Status.ACTIVE
         (Py.setdefault "role" Role.CLIENT (Py.remove "password" data))) = Some e ∧
    init_kwargs kwargs
      (mkUser (next_id w) "" "" "" None "" None None (normalize_email e) None
              Role.CLIENT Status.ACTIVE "" 0 0 None) = inr u1 ∧
    u2 = (if Py.truthy pw then set_password pw u1 else u1) ∧
    save u2 (snd (uuid4 w)) = (inr u, w2) ∧
    users w' = users w2 ∧
    audit_logs w' =
      audit_logs w2 ++
      emitted w2 (audit_row w2 (Some u) constants.USER_REGISTERED "User" (Some (id u))
                    [("email", JStr (email_primary u)); ("role", JStr (role u))] ip).
Proof.
  intros H. unfold register_user, try_except in H.
  match type of H with match ?b w with _ => _ end = _ =>
    destruct (b w) as [[ex|u0] w0] eqn:B end.
  { destruct ex; unfold bind, logger, raise in H; simpl in H; done. }
  simplify_eq. unfold Py.pop in B.
  destruct (Py.get "password" data) as [pw|] eqn:Epw; simpl in B; [|done].
  destruct (Py.truthy pw) eqn:Tpw; simpl in B; [|done].
  apply bind_inv_inr in B as ([e kwargs] & s1 & P & B).
  unfold pop_required in P.
  destruct (Py.get "email_primary" _) as [e'|] eqn:Ee; [|done].
  unfold ret in P. simplify_eq.
  apply bind_inv_inr in B as (u3 & s2 & C & B).
  unfold create_user in C. simpl in C.
  destruct (Py.truthy e) eqn:Te; simpl in C; [|done].
  apply bind_inv_inr in C as (u1 & s3 & I & Sv).
  unfold User_init in I. apply bind_inv_inr in I as (pk & s4 & U & I).
  unfold uuid4 in U. simplify_eq. simpl in I.
  destruct (init_kwargs _ _) as [|u1'] eqn:Ei; [done|].
  unfold ret in I. simplify_eq.
  apply bind_inv_inr in B as (r & s5 & L & B).
  apply bind_inv_inr in B as ([] & s6 & Lg & B).
  unfold ret in B. unfold logger in Lg. simplify_eq.
  destruct (log_audit_event_stored (Some u) constants.USER_REGISTERED "User"
              (Some (id u))
              [("email", JStr (email_primary u)); ("role", JStr (role u))] ip s2)
    as (r' & w3 & E & Hu & Hl); [done|done|].
  rewrite E in L. simplify_eq.
  rewrite Tpw in Sv. eexists pw, e, _, u1, _, s2. rewrite Tpw.
  repeat split; done.
Qed.

(** C10: [register_user] only fills in the role and the status the
    caller leaves out.  When [register_user] creates a user from [data],
    the user's role is the value of the "role" key of [data] if there is
    one and CLIENT otherwise, its status is the value of the "status" key
    if there is one and ACTIVE otherwise, and the user is a row of the
    table: a caller-supplied role such as ADMIN is kept. *)
Theorem register_user_keeps_supplied_role data ip w u w' :
  NoDup (Py.keys data) →
  register_user data ip w = (inr u, w') →
  role u = default Role.CLIENT (Py.get "role" data) ∧
  status u = default Status.ACTIVE (Py.get "status" data) ∧
  u ∈ users w'.
Proof.
  intros Hnd H.
  apply register_user_inv in H
    as (pw & e & kwargs & u1 & u2 & w2 & Epw & -> & Ee & Ei & -> & Sv & Hu & _).
  apply save_result in Sv as ((ca & ua & ->) & Hin & _).
  assert (Hk : NoDup (Py.keys
            (Py.remove "email_primary"
               (Py.setdefault "status" Status.ACTIVE
                  (Py.setdefault "role" Role.CLIENT (Py.remove "password" data)))))).
  { by apply NoDup_keys_remove, NoDup_keys_setdefault, NoDup_keys_setdefault,
      NoDup_keys_remove. }
  pose proof (init_kwargs_role _ _ _ Ei Hk) as Er.
  pose proof (init_kwargs_status _ _ _ Ei Hk) as Es.
  rewrite get_remove_ne, get_setdefault, get_setdefault, get_remove_ne in Er by done.
  rewrite get_remove_ne, get_setdefault, get_setdefault, get_remove_ne in Es by done.
  simpl in Er, Es.
  split; [|split].
  - rewrite <- Er. destruct (Py.truthy pw); by destruct u1.
  - rewrite <- Es. destruct (Py.truthy pw); by destruct u1.
  - by rewrite Hu.
Qed.

Lemma keys_setdefault {V} k k' (v : V) d :
  k ∈ Py.keys (Py.setdefault k' v d) → k ∈ Py.keys d ∨ k = k'.
Proof.
  unfold Py.setdefault. destruct (Py.get k' d); [by left|].
  unfold Py.keys. rewrite fmap_app, elem_of_app. simpl.
  rewrite list_elem_of_singleton. prop.
Qed.

Lemma init_kwargs_total kw u0 :
  (∀ k, k ∈ Py.keys kw → hasattr k = true) → ∃ u, init_kwargs kw u0 = inr u.
Proof.
  revert u0. induction kw as [|[k v] kw IH]; intros u0 Hk; [by eexists|].
  rewrite init_kwargs_cons.
  pose proof (Hk k) as Hh. rewrite keys_cons in Hh. unfold hasattr in Hh.
  destruct (column_of k); [|by discriminate Hh; left].
  apply IH. intros k' Hk'. apply Hk. rewrite keys_cons. by right.
Qed.

(** The keyword arguments [register_user] passes to [create_user]. *)
Definition register_kwargs (data : Py.dict string) : Py.dict string :=
  Py.remove "email_primary"
    (Py.setdefault "status" Status.ACTIVE
       (Py.setdefault "role" Role.CLIENT (Py.remove "password" data))).

Lemma register_kwargs_columns data :
  (∀ k, k ∈ Py.keys data → hasattr k = true) →
  ∀ k, k ∈ Py.keys (register_kwargs data) → hasattr k = true.
Proof.
  intros H k Hk. unfold register_kwargs in Hk.
  apply keys_remove in Hk as [Hk _].
  apply keys_setdefault in Hk as [Hk| ->]; [|done].
  apply keys_setdefault in Hk as [Hk| ->]; [|done].
  apply keys_remove in Hk as [Hk _]. by apply H.
Qed.

(** A row with the email of another row cannot be written. *)
Lemma constraint_violation_email u others r :
  r ∈ others → email_primary r = email_primary u →
  ∃ m, constraint_violation u others = Some (IntegrityError m).
Proof.
  intros Hr He. unfold constraint_violation.
  destruct (bool_decide (birth_date u = None)); [by eexists|].
  rewrite (existsb_true _ _ r); [by eexists|done|by apply bool_decide_eq_true].
Qed.





(** *** Listing users *)

Lemma startswith_spec p s : Py.startswith p s = true ↔ ∃ post, s = p +:+ post.
Proof.
  revert s. induction p as [|a p IH]; intros s; simpl.
  - split; [intros _; by exists s|done].
  - destruct s as [|b s]; [split; [done|by intros [? ?]]|].
    destruct (Ascii.eqb_spec a b) as [->|Hne].
    + rewrite IH. split; intros [post H]; exists post.
      * by rewrite app_cons, <- H.
      * rewrite app_cons in H. by simplify_eq.
    + split; [done|]. intros [post H]. rewrite app_cons in H. by simplify_eq.
Qed.

Lemma contains_cons n c t :
  Py.contains n (String c t) =
    if Py.startswith n (String c t) then true else Py.contains n t.
Proof. reflexivity. Qed.

Lemma contains_spec n h : Py.contains n h = true ↔ substring_of n h.
Proof.
  unfold substring_of. induction h as [|c t IH].
  - simpl. destruct n as [|a n]; simpl.
    + split; [intros _; by exists "", ""|done].
    + split; [done|]. intros ([|??] & post & H); by rewrite ?app_cons in H.
  - rewrite contains_cons. destruct (Py.startswith n (String c t)) eqn:Es.
    + split; [intros _|done]. apply startswith_spec in Es as [post ->].
      by exists "", post.
    + rewrite IH. split.
      * intros (pre & post & ->). by exists (String c pre), post.
      * intros ([|c' pre] & post & H).
        -- assert (Py.startswith n (String c t) = true) as Hs; [|congruence].
           apply startswith_spec. exists post. by rewrite H.
        -- rewrite app_cons in H. simplify_eq. by exists pre, post.
Qed.

(** A filter value counts when it is one of the choices. *)
Definition valid_filter (choices : list string) (v : option string) : option string :=
  match v with
  | Some x => if bool_decide (x ∈ choices) then Some x else None
  | None => None
  end.

(** The search value of a filter map is text when the key is absent or
    holds text, not [None]. *)
Definition search_is_text (filters : Py.dict (option string)) : Prop :=
  Py.get "search" filters ≠ Some None.

(** The search term: the "search" text stripped, if anything is left. *)
Definition search_term (filters : Py.dict (option string)) : option string :=
  match Py.get "search" filters with
  | Some (Some q) => if Py.truthy (strip q) then Some (strip q) else None
  | _ => None
  end.

(** [q] occurs, ignoring case, in one of the four searched columns. *)
Definition matches_search (q : string) (u : User) : Prop :=
  ∃ field, field ∈ [full_name u; email_primary u; id_number u; phone u] ∧
           substring_of (fold q) (fold field).

(** The users a filter map selects. *)
Definition selects (filters : Py.dict (option string)) (u : User) : Prop :=
  (∀ r, valid_filter Role.choices (Py.get_value "role" filters) = Some r → role u = r) ∧
  (∀ s, valid_filter Status.choices (Py.get_value "status" filters) = Some s →
        status u = s) ∧
  (∀ q, search_term filters = Some q → matches_search q u).

Lemma search_q_spec q u : search_q q u = true ↔ matches_search q u.
Proof.
  unfold search_q, matches_search, icontains.
  rewrite !orb_true_iff, !contains_spec. split.
  - intros [[[H|H]|H]|H]; eexists; (split; [|exact H]);
      rewrite !elem_of_cons; prop.
  - intros (f & Hf & H). rewrite !elem_of_cons, elem_of_nil in Hf.
    destruct Hf as [->|[->|[->|[->|[]]]]]; prop.
Qed.

Definition selectsb (filters : Py.dict (option string)) (u : User) : bool :=
  match valid_filter Role.choices (Py.get_value "role" filters) with
  | Some r => bool_decide (role u = r) | None => true end &&
  match valid_filter Status.choices (Py.get_value "status" filters) with
  | Some s => bool_decide (status u = s) | None => true end &&
  match search_term filters with
  | Some q => search_q q u | None => true end.

Lemma selectsb_spec filters u : selectsb filters u = true ↔ selects filters u.
Proof.
  unfold selectsb, selects. rewrite !andb_true_iff.
  destruct (valid_filter Role.choices _) as [r|],
           (valid_filter Status.choices _) as [s|],
           (search_term filters) as [q|];
    rewrite ?bool_decide_eq_true, ?search_q_spec;
    (split; [intros [[H1 H2] H3]; repeat split; intros ? ?; by simplify_eq
            |intros (H1 & H2 & H3); repeat split; auto]).
Qed.

Global Instance selects_dec filters u : Decision (selects filters u).
Proof.
  refine (cast_if (decide (selectsb filters u = true)));
    abstract (by rewrite <- selectsb_spec).
Defined.

(** The warnings a filter map causes: one for a role that is given, not
    empty and not a choice, one for such a status. *)
Definition filter_warnings (filters : Py.dict (option string))
    : list (level * string) :=
  match Py.get_value "role" filters with
  | Some r => if Py.truthy r && negb (bool_decide (r ∈ Role.choices))
              then [(WARNING, "Rol inválido en filtro: " +:+ r)] else []
  | None => []
  end ++
  match Py.get_value "status" filters with
  | Some s => if Py.truthy s && negb (bool_decide (s ∈ Status.choices))
              then [(WARNING, "Estado inválido en filtro: " +:+ s)] else []
  | None => []
  end.

Definition add_log (entries : list (level * string)) (w : World) : World :=
  mkWorld (users w) (audit_logs w) (log w ++ entries) (now w) (next_id w)
          (audit_fault w).

Lemma add_log_nil w : add_log [] w = w.
Proof. destruct w. unfold add_log. simpl. by rewrite app_nil_r. Qed.

Lemma add_log_add_log l1 l2 w : add_log l2 (add_log l1 w) = add_log (l1 ++ l2) w.
Proof. unfold add_log. simpl. by rewrite app_assoc. Qed.

Lemma logger_add_log l msg w : logger l msg w = (inr tt, add_log [(l, msg)] w).
Proof. reflexivity. Qed.

Lemma filter_all {A} (P : A → Prop) `{!∀ x, Decision (P x)} (l : list A) :
  (∀ x, P x) → filter P l = l.
Proof.
  intros Hall. induction l as [|x l IH]; [done|]. by rewrite filter_cons_True, IH.
Qed.

Lemma empty_not_role : "" ∉ Role.choices.
Proof.
  intros H. repeat (apply elem_of_cons in H as [H|H]; [done|]). by apply elem_of_nil in H.
Qed.

Lemma empty_not_status : "" ∉ Status.choices.
Proof.
  intros H. repeat (apply elem_of_cons in H as [H|H]; [done|]). by apply elem_of_nil in H.
Qed.

(** The filter block of [list_users]: it selects, or stops at a search
    value that is [None] once the warnings are logged. *)
Lemma list_users_filters filters (qs : list User) w :
  (do queryset <-
     (if Py.truthy_opt (Py.get_value "role" filters) then
        if bool_decide (default "" (Py.get_value "role" filters) ∈ Role.choices) then
          ret (filter (λ u, role u = default "" (Py.get_value "role" filters)) qs)
        else
          logger WARNING ("Rol inválido en filtro: "
                          +:+ default "" (Py.get_value "role" filters)) ;;;
          ret qs
      else ret qs);
   do queryset <-
     (if Py.truthy_opt (Py.get_value "status" filters) then
        if bool_decide (default "" (Py.get_value "status" filters) ∈ Status.choices) then
          ret (filter (λ u, status u = default "" (Py.get_value "status" filters))
                 queryset)
        else
          logger WARNING ("Estado inválido en filtro: "
                          +:+ default "" (Py.get_value "status" filters)) ;;;
          ret queryset
      else ret queryset);
   do search <-
     match Py.get "search" filters with
     | None => ret ""
     | Some (Some search) => ret (strip search)
     | Some None => raise (AttributeError "'NoneType' object has no attribute 'strip'")
     end;
   if Py.truthy search
   then ret (filter (λ u, search_q search u = true) queryset)
   else ret queryset) w
  = (match Py.get "search" filters with
     | Some None => inl (AttributeError "'NoneType' object has no attribute 'strip'")
     | _ => inr (filter (selects filters) qs)
     end,
     add_log (filter_warnings filters) w).
Proof.
  assert (R : ∃ P1 : User → Prop, ∃ _ : ∀ u, Decision (P1 u), ∀ w0,
    (if Py.truthy_opt (Py.get_value "role" filters) then
       if bool_decide (default "" (Py.get_value "role" filters) ∈ Role.choices) then
         ret (filter (λ u, role u = default "" (Py.get_value "role" filters)) qs)
       else
         logger WARNING ("Rol inválido en filtro: "
                         +:+ default "" (Py.get_value "role" filters)) ;;;
         ret qs
     else ret qs) w0 =
    (inr (filter P1 qs),
     add_log match Py.get_value "role" filters with
             | Some r => if Py.truthy r && negb (bool_decide (r ∈ Role.choices))
                         then [(WARNING, "Rol inválido en filtro: " +:+ r)] else []
             | None => []
             end w0) ∧
    ∀ u, P1 u ↔ ∀ r, valid_filter Role.choices (Py.get_value "role" filters) = Some r →
                     role u = r).
  { destruct (Py.get_value "role" filters) as [r|]; simpl.
    - destruct (Py.truthy r) eqn:T; simpl.
      + destruct (bool_decide (r ∈ Role.choices)) eqn:V; simpl.
        * exists (λ u, role u = r), _. intros w0. rewrite add_log_nil.
          split; [done|]. intros u. split; [by intros ? ? [= <-]|auto].
        * exists (λ _, True), _. intros w0. rewrite filter_all by done.
          split; [done|]. by split.
      + exists (λ _, True), _. intros w0. rewrite filter_all, add_log_nil by done.
        split; [done|]. intros u. split; [|done]. intros _ r'.
        apply truthy_false in T as ->.
        by rewrite bool_decide_eq_false_2 by apply empty_not_role.
    - exists (λ _, True), _. intros w0. rewrite filter_all, add_log_nil by done.
      split; [done|]. by split. }
  destruct R as (P1 & D1 & R).
  assert (S : ∃ P2 : User → Prop, ∃ _ : ∀ u, Decision (P2 u), ∀ (qs0 : list User) w0,
    (if Py.truthy_opt (Py.get_value "status" filters) then
       if bool_decide (default "" (Py.get_value "status" filters) ∈ Status.choices) then
         ret (filter (λ u, status u = default "" (Py.get_value "status" filters)) qs0)
       else
         logger WARNING ("Estado inválido en filtro: "
                         +:+ default "" (Py.get_value "status" filters)) ;;;
         ret qs0
     else ret qs0) w0 =
    (inr (filter P2 qs0),
     add_log match Py.get_value "status" filters with
             | Some s => if Py.truthy s && negb (bool_decide (s ∈ Status.choices))
                         then [(WARNING, "Estado inválido en filtro: " +:+ s)] else []
             | None => []
             end w0) ∧
    ∀ u, P2 u ↔ ∀ s, valid_filter Status.choices (Py.get_value "status" filters) = Some s →
                     status u = s).
  { destruct (Py.get_value "status" filters) as [r|]; simpl.
    - destruct (Py.truthy r) eqn:T; simpl.
      + destruct (bool_decide (r ∈ Status.choices)) eqn:V; simpl.
        * exists (λ u, status u = r), _. intros qs0 w0. rewrite add_log_nil.
          split; [done|]. intros u. split; [by intros ? ? [= <-]|auto].
        * exists (λ _, True), _. intros qs0 w0. rewrite filter_all by done.
          split; [done|]. by split.
      + exists (λ _, True), _. intros qs0 w0. rewrite filter_all, add_log_nil by done.
        split; [done|]. intros u. split; [|done]. intros _ r'.
        apply truthy_false in T as ->.
        by rewrite bool_decide_eq_false_2 by apply empty_not_status.
    - exists (λ _, True), _. intros qs0 w0. rewrite filter_all, add_log_nil by done.
      split; [done|]. by split. }
  destruct S as (P2 & D2 & S).
  erewrite bind_inr by apply R.
  erewrite bind_inr by apply S.
  rewrite add_log_add_log. fold (filter_warnings filters).
  assert (Q : ∃ P3 : User → Prop, ∃ _ : ∀ u, Decision (P3 u),
    (∀ u, P3 u ↔ ∀ q, search_term filters = Some q → matches_search q u) ∧
    ∀ (qs0 : list User) w0,
    ((do search <-
        (match Py.get "search" filters with
         | None => ret ""
         | Some (Some search) => ret (strip search)
         | Some None =>
             raise (AttributeError "'NoneType' object has no attribute 'strip'")
         end : M string);
      if Py.truthy search
      then ret (filter (λ u, search_q search u = true) qs0)
      else ret qs0) : M (list User)) w0 =
    (match Py.get "search" filters with
     | Some None => inl (AttributeError "'NoneType' object has no attribute 'strip'")
     | _ => inr (filter P3 qs0)
     end, w0)).
  { unfold search_term. destruct (Py.get "search" filters) as [[q|]|]; simpl.
    - destruct (Py.truthy (strip q)) eqn:T.
      + exists (λ u, search_q (strip q) u = true), _. split.
        * intros u. rewrite search_q_spec. split; [by intros ? ? [= <-]|auto].
        * intros qs0 w0. unfold bind, ret. by rewrite T.
      + exists (λ _, True), _. split; [by split|].
        intros qs0 w0. unfold bind, ret. by rewrite T, filter_all.
    - exists (λ _, True), _. split; [by split|]. done.
    - exists (λ _, True), _. split; [by split|].
      intros qs0 w0. unfold bind, ret. simpl. by rewrite filter_all. }
  destruct Q as (P3 & D3 & Q3 & Q).
  rewrite Q. destruct (Py.get "search" filters) as [[q|]|]; [|done|];
    (f_equal; f_equal;
     rewrite !list_filter_filter; apply list_filter_iff; intros u;
     unfold selects; rewrite (proj2 (R w) u), (proj2 (S qs w) u), (Q3 u);
     prop).
Qed.

Global Instance newest_first_trans : Transitive newest_first.
Proof. intros u v x. unfold newest_first. lia. Qed.

Lemma selects_empty u : selects [] u.
Proof. by repeat split. Qed.

Lemma allowed_roles r :
  r ∈ ALLOWED_LIST_ROLES ↔
  r = Role.ADMIN ∨ r = Role.SUPERVISOR ∨ r = Role.INTERVENTORIA.
Proof.
  unfold ALLOWED_LIST_ROLES.
  rewrite !elem_of_union, !elem_of_singleton. prop.
Qed.

(** A listing by an allowed actor. *)
Lemma list_users_run filters actor w :
  role actor ∈ ALLOWED_LIST_ROLES →
  search_is_text (default [] filters) →
  list_users filters (Some actor) w =
    (inr (order_by_created_at_desc (filter (selects (default [] filters)) (users w))),
     add_log
       (filter_warnings (default [] filters) ++
        [(DEBUG, "Lista de usuarios obtenida por " +:+ email_primary actor +:+ ": "
                 +:+ pretty (length (order_by_created_at_desc
                               (filter (selects (default [] filters)) (users w))))
                 +:+ " usuarios")]) w).
Proof.
  intros Ha Ht. unfold list_users.
  rewrite bool_decide_eq_false_2 by (by intros H).
  erewrite bind_inr by reflexivity.
  destruct filters as [[|kv f]|]; simpl default in *.
  - rewrite (filter_all (selects [])) by apply selects_empty.
    erewrite bind_inr by reflexivity. reflexivity.
  - cbv zeta.
    generalize (list_users_filters (kv :: f) (users w) w).
    unfold search_is_text in Ht.
    destruct (Py.get "search" (kv :: f)) as [[q|]|] eqn:G; [|done|];
      (intros E; erewrite bind_inr by exact E;
       erewrite bind_inr by apply logger_add_log;
       by rewrite add_log_add_log).
  - rewrite (filter_all (selects [])) by apply selects_empty.
    erewrite bind_inr by reflexivity. reflexivity.
Qed.

(** A listing with [None] under the search key. *)
Lemma list_users_search_none f actor w :
  role actor ∈ ALLOWED_LIST_ROLES →
  Py.get "search" f = Some None →
  list_users (Some f) (Some actor) w =
    (inl (AttributeError "'NoneType' object has no attribute 'strip'"),
     add_log (filter_warnings f) w).
Proof.
  intros Ha G. unfold list_users.
  rewrite bool_decide_eq_false_2 by (by intros H).
  erewrite bind_inr by reflexivity.
  destruct f as [|kv f]; [done|]. cbv zeta.
  generalize (list_users_filters (kv :: f) (users w) w).
  rewrite G. intros E. by erewrite bind_inl by exact E.
Qed.

Lemma order_by_sorted (qs : list User) :
  StronglySorted newest_first (order_by_created_at_desc qs) ∧
  order_by_created_at_desc qs ≡ₚ qs.
Proof.
  split; [apply StronglySorted_merge_sort; apply _|apply merge_sort_Permutation].
Qed.

(** C4: who may list users, and what a role filter returns.  For every
    actor, [list_users] raises PermissionDenied exactly when the actor's
    role is none of ADMIN, SUPERVISOR and INTERVENTORIA, so a CLIENT is
    always denied.  For an allowed actor and a filter map whose role is a
    valid choice [r] and which has no effective status or search filter,
    the result holds exactly the users whose role is [r] (each row once)
    and is ordered by [created_at], newest first; the user table is not
    changed. *)
Theorem list_users_permission_and_role_filter w filters actor :
  (fst (list_users filters (Some actor) w) =
     inl (PermissionDenied "No tiene permisos para listar usuarios") ↔
   ¬ (role actor = Role.ADMIN ∨ role actor = Role.SUPERVISOR ∨
      role actor = Role.INTERVENTORIA)) ∧
  (role actor = Role.CLIENT →
     fst (list_users filters (Some actor) w) =
       inl (PermissionDenied "No tiene permisos para listar usuarios")) ∧
  (role actor = Role.ADMIN ∨ role actor = Role.SUPERVISOR ∨
   role actor = Role.INTERVENTORIA →
     ∀ f r,
       filters = Some f → Py.get_value "role" f = Some r → r ∈ Role.choices →
       valid_filter Status.choices (Py.get_value "status" f) = None →
       search_is_text f → search_term f = None →
       ∃ result w',
         list_users filters (Some actor) w = (inr result, w') ∧
         users w' = users w ∧
         result ≡ₚ filter (λ u, role u = r) (users w) ∧
         StronglySorted newest_first result).
Proof.
  assert (Hdenied : role actor ∉ ALLOWED_LIST_ROLES →
            fst (list_users filters (Some actor) w) =
              inl (PermissionDenied "No tiene permisos para listar usuarios")).
  { intros Hn. unfold list_users. by rewrite bool_decide_eq_true_2. }
  split; [|split].
  - rewrite <- allowed_roles. split; [|done].
    intros H Ha. unfold list_users in H.
    rewrite bool_decide_eq_false_2 in H by (by intros Hn).
    erewrite bind_inr in H by reflexivity.
    destruct filters as [[|kv f]|].
    + by erewrite bind_inr in H by reflexivity.
    + cbv zeta in H.
      generalize (list_users_filters (kv :: f) (users w) w). revert H.
      destruct (Py.get "search" (kv :: f)) as [[q|]|]; intros H E.
      * by erewrite bind_inr in H by exact E.
      * by erewrite bind_inl in H by exact E.
      * by erewrite bind_inr in H by exact E.
    + by erewrite bind_inr in H by reflexivity.
  - intros Hc. apply Hdenied. rewrite allowed_roles, Hc. by intros [|[|]].
  - intros Ha f r -> Hr Hvalid Hs Ht Hq. apply allowed_roles in Ha.
    rewrite (list_users_run _ _ _ Ha) by done. eexists _, _. split; [reflexivity|].
    split; [done|]. simpl default.
    destruct (order_by_sorted (filter (selects f) (users w))) as [Hsorted Hperm].
    split; [|done]. rewrite Hperm.
    erewrite list_filter_iff; [reflexivity|].
    intros u. unfold selects. rewrite Hr, Hs, Hq. simpl.
    rewrite bool_decide_eq_true_2 by done. split.
    + intros (H & _ & _). by apply H.
    + intros <-. repeat split; intros ? ?; by simplify_eq.
Qed.

(** C5 (as the code has it): for an allowed actor and any filter map
    whose search value, if there is one, is text, [list_users] succeeds
    and changes neither table.  A role or status value that is no valid
    choice is not applied; when such a value is not empty a warning is
    logged for it, an empty value (or [None]) is skipped silently.  The
    search text is stripped; when something is left, a user is kept if
    the stripped text occurs, under the case folding of the database, in
    full_name, email_primary, id_number or phone; a search text that is
    blank is not applied.  The result holds exactly the selected users
    and is ordered by [created_at], newest first.  A filter map that
    holds [None] under the search key makes the call raise an
    AttributeError, with both tables unchanged. *)
Theorem list_users_filters_and_order w filters actor :
  role actor = Role.ADMIN ∨ role actor = Role.SUPERVISOR ∨
  role actor = Role.INTERVENTORIA →
  (search_is_text (default [] filters) →
   ∃ result w',
     list_users filters (Some actor) w = (inr result, w') ∧
     users w' = users w ∧ audit_logs w' = audit_logs w ∧
     result ≡ₚ filter (selects (default [] filters)) (users w) ∧
     StronglySorted newest_first result ∧
     log w' =
       log w ++ filter_warnings (default [] filters) ++
       [(DEBUG, "Lista de usuarios obtenida por " +:+ email_primary actor +:+ ": "
                +:+ pretty (length result) +:+ " usuarios")]) ∧
  (Py.get "search" (default [] filters) = Some None →
   ∃ w',
     list_users filters (Some actor) w =
       (inl (AttributeError "'NoneType' object has no attribute 'strip'"), w') ∧
     users w' = users w ∧ audit_logs w' = audit_logs w).
Proof.
  intros Ha. apply allowed_roles in Ha. split.
  - intros Ht.
    rewrite (list_users_run _ _ _ Ha) by done. eexists _, _. split; [reflexivity|].
    destruct (order_by_sorted (filter (selects (default [] filters)) (users w)))
      as [Hsorted Hperm].
    by repeat split.
  - intros G. destruct filters as [f|]; [|done]. simpl default in G.
    rewrite (list_users_search_none _ _ _ Ha G). by eexists.
Qed.

(** *** Login *)

Lemma find_none_email (us : list User) email :
  (∀ u, u ∈ us → email_primary u ≠ email) →
  List.find (λ u, bool_decide (email_primary u = email)) us = None.
Proof.
  intros H. induction us as [|r us IH]; [done|]. simpl.
  rewrite bool_decide_eq_false_2 by (apply H; by left).
  apply IH. intros u Hu. apply H. by right.
Qed.

Lemma login_invalid_run request w e :
  LoginSerializer_is_valid (data request) w = inl InvalidCredentials →
  Py.get "email_primary" (data request) = Some e → e ≠ "" →
  ∃ w',
    LoginView_post request w = (inr (mkResponse InvalidCredentials 401), w') ∧
    users w' = users w ∧
    audit_logs w' =
      audit_logs w ++
      emitted w (audit_row w None constants.LOGIN_FAILED "User" None
                   [("email", JStr e); ("reason", JStr "invalid_credentials")]
                   (get_client_ip request)).
Proof.
  intros Hs He Hne. apply truthy_true in Hne.
  destruct (log_audit_event_stored None constants.LOGIN_FAILED "User" None
              [("email", JStr e); ("reason", JStr "invalid_credentials")]
              (get_client_ip request) w) as (r & w' & E & Hu & Hl); [done|done|].
  exists w'. split; [|done].
  unfold LoginView_post. erewrite bind_inr by reflexivity.
  rewrite Hs, He. simpl default. rewrite Hne.
  erewrite bind_inr; [reflexivity|].
  erewrite bind_inr by exact E. reflexivity.
Qed.

(** C8 (as the code has it): a login with an unknown email and a login
    with a known email and a wrong password cannot be told apart, when
    both requests carry a non-empty email_primary.  Both get status 401
    with the same body, neither changes the user table, and each hands
    one LOGIN_FAILED event to the audit logger, with no actor, no entity
    id and the metadata {email: the email as sent, reason:
    invalid_credentials}. *)
Theorem login_failures_indistinguishable w req1 req2 e1 e2 p2 :
  Py.get "email_primary" (data req1) = Some e1 → e1 ≠ "" →
  Py.get "email_primary" (data req2) = Some e2 → e2 ≠ "" →
  (∀ u, u ∈ users w → email_primary u ≠ lower (strip e1)) →
  (∃ u, u ∈ users w ∧ email_primary u = lower (strip e2)) →
  Py.get "password" (data req2) = Some p2 →
  (∀ u, u ∈ users w → email_primary u = lower (strip e2) →
        check_password p2 (password u) = false) →
  ∃ w1 w2,
    LoginView_post req1 w = (inr (mkResponse InvalidCredentials 401), w1) ∧
    LoginView_post req2 w = (inr (mkResponse InvalidCredentials 401), w2) ∧
    users w1 = users w ∧ users w2 = users w ∧
    audit_logs w1 =
      audit_logs w ++
      emitted w (audit_row w None constants.LOGIN_FAILED "User" None
                   [("email", JStr e1); ("reason", JStr "invalid_credentials")]
                   (get_client_ip req1)) ∧
    audit_logs w2 =
      audit_logs w ++
      emitted w (audit_row w None constants.LOGIN_FAILED "User" None
                   [("email", JStr e2); ("reason", JStr "invalid_credentials")]
                   (get_client_ip req2)).
Proof.
  intros E1 N1 E2 N2 Hnone (u & Hu & Hemail) P2 Hwrong.
  destruct (login_invalid_run req1 w e1) as (w1 & R1 & U1 & A1); [|done|done|].
  { unfold LoginSerializer_is_valid, User_objects_get_by_email.
    rewrite E1, (find_none_email _ _ Hnone). by case_match. }
  destruct (login_invalid_run req2 w e2) as (w2 & R2 & U2 & A2); [|done|done|].
  { unfold LoginSerializer_is_valid, User_objects_get_by_email. rewrite E2, P2.
    destruct (List.find _ _) as [u'|] eqn:F; [|done].
    apply find_some in F as [Hin Heq]. apply bool_decide_eq_true in Heq.
    rewrite Hwrong; [done|by apply list_elem_of_In|done]. }
  by exists w1, w2.
Qed.

(** * Further properties of the services

    The rest of this file covers code the properties above do not reach:
    the success and error paths of the services, the invariants every
    operation keeps, the remaining selectors, serializers and views. *)

(** ** Reading a text column *)

Global Instance column_eq_dec : EqDecision column.
Proof. solve_decision. Defined.

(** [getattr(user, key)] for a text column. *)
Definition getattr (c : column) (u : User) : option string :=
  match c with
  | c_full_name => Some (full_name u)
  | c_id_type => Some (id_type u)
  | c_id_number => Some (id_number u)
  | c_birth_date => birth_date u
  | c_phone => Some (phone u)
  | c_address => address u
  | c_profile_photo_url => profile_photo_url u
  | c_email_primary => Some (email_primary u)
  | c_email_secondary => email_secondary u
  | c_role => Some (role u)
  | c_status => Some (status u)
  | c_password => Some (password u)
  end.

(** The name of a column. *)
Definition column_name (c : column) : string :=
  match c with
  | c_full_name => "full_name" | c_id_type => "id_type"
  | c_id_number => "id_number" | c_birth_date => "birth_date"
  | c_phone => "phone" | c_address => "address"
  | c_profile_photo_url => "profile_photo_url"
  | c_email_primary => "email_primary"
  | c_email_secondary => "email_secondary"
  | c_role => "role" | c_status => "status" | c_password => "password"
  end.

Lemma getattr_set_column c c' v u :
  getattr c' (set_column c v u) = if decide (c = c') then Some v else getattr c' u.
Proof. pure_goal. destruct u, c, c'; reflexivity. Qed.

Lemma set_column_frame c v u :
  id (set_column c v u) = id u ∧ created_at (set_column c v u) = created_at u ∧
  updated_at (set_column c v u) = updated_at u ∧
  last_login_at (set_column c v u) = last_login_at u.
Proof. pure_goal. by destruct u, c. Qed.

Lemma column_of_name k c : column_of k = Some c → k = column_name c.
Proof.
  pure_goal. intros H. apply column_of_inv in H as [_ H]. unfold columns in H.
  rewrite !elem_of_cons, elem_of_nil in H.
  repeat (destruct H as [H|H]; [by simplify_eq|]). done.
Qed.

Lemma column_of_column_name c : column_of (column_name c) = Some c.
Proof. pure_goal. by destruct c. Qed.

Lemma setattr_frame k v u :
  id (setattr k v u) = id u ∧ created_at (setattr k v u) = created_at u ∧
  updated_at (setattr k v u) = updated_at u ∧
  last_login_at (setattr k v u) = last_login_at u.
Proof.
  pure_goal. unfold setattr. destruct (column_of k); [apply set_column_frame|done].
Qed.

Lemma apply_fields_frame data u :
  id (apply_fields data u) = id u ∧
  created_at (apply_fields data u) = created_at u ∧
  updated_at (apply_fields data u) = updated_at u ∧
  last_login_at (apply_fields data u) = last_login_at u.
Proof.
  pure_goal. unfold apply_fields. revert u.
  induction data as [|[k v] data IH]; intros u; [done|]. simpl.
  destruct (IH (setattr k v u)) as (-> & -> & -> & ->). apply setattr_frame.
Qed.

(** A column no key of [data] names keeps its value. *)
Lemma apply_fields_untouched c data u :
  column_name c ∉ Py.keys data → getattr c (apply_fields data u) = getattr c u.
Proof.
  pure_goal. unfold apply_fields. revert u.
  induction data as [|[k v] data IH]; intros u Hk; [done|].
  rewrite keys_cons in Hk. apply not_elem_of_cons in Hk as [Hne Hk]. simpl.
  rewrite IH by done. unfold setattr.
  destruct (column_of k) as [c'|] eqn:E; [|done].
  rewrite getattr_set_column. destruct (decide (c' = c)) as [->|]; [|done].
  by apply column_of_name in E.
Qed.

(** With distinct keys, a column a key names gets that key's value. *)
Lemma apply_fields_assigned c data u v :
  NoDup (Py.keys data) → Py.get (column_name c) data = Some v →
  getattr c (apply_fields data u) = Some v.
Proof.
  pure_goal. unfold apply_fields. revert u.
  induction data as [|[k x] data IH]; intros u Hnd Hg; [done|].
  rewrite keys_cons in Hnd. apply NoDup_cons in Hnd as [Hk Hnd].
  rewrite get_cons in Hg. simpl.
  destruct (String.eqb_spec (column_name c) k) as [<-|Hne].
  - simplify_eq. fold (apply_fields data (setattr (column_name c) v u)).
    rewrite apply_fields_untouched by done.
    unfold setattr. rewrite column_of_column_name, getattr_set_column.
    by rewrite decide_True.
  - by apply IH.
Qed.


(** ** [update_self_user]: the paths behind the prohibited-field check *)

Definition self_metadata (allowed_data : Py.dict string) : Py.dict json :=
  [("updated_fields", JList (JStr <$> Py.keys (Py.remove "password" allowed_data)))] ++
  (if Py.truthy_opt (Py.get "password" allowed_data)
   then [("password_changed", JBool true)] else []).

Lemma update_self_user_run data ip user_ w :
  Py.keyset data ∩ SELF_PROHIBITED_FIELDS = ∅ →
  filter (λ kv, kv.1 ∈ SELF_EDITABLE_FIELDS) data ≠ [] →
  let allowed := filter (λ kv : string * string, kv.1 ∈ SELF_EDITABLE_FIELDS) data in
  let u2 := admin_updated allowed user_ in
  match save u2 w with
  | (inl e, w1) =>
      update_self_user data ip (user_, w) =
        (inl e, (u2, snd (logger ERROR ("Error al actualizar perfil propio: " +:+ str_exn e) w1)))
  | (inr u', w1) =>
      ∃ w2, update_self_user data ip (user_, w) = (inr u', (u', w2)) ∧
        users w2 = users w1 ∧
        audit_logs w2 = audit_logs w1 ++
          emitted w1 (audit_row w1 (Some u') constants.USER_UPDATED_SELF "User"
                        (Some (id u')) (self_metadata allowed) ip)
  end.
Proof.
  intros Hp Ha allowed u2. unfold update_self_user.
  rewrite bool_decide_eq_false_2 by (by intros ?).
  rewrite bool_decide_eq_false_2 by done.
  fold allowed. unfold self_metadata.
  subst u2. unfold admin_updated, Py.pop.
  destruct (Py.truthy_opt (Py.get "password" allowed)) eqn:Et;
    cbv beta iota delta [try_except bind modify_object ret save_object get_object
                         with_world raise];
    match goal with |- context [save ?u w] => destruct (save u w) as [[e|u'] w1] eqn:Es end;
    try reflexivity.
  all: match goal with |- context [log_audit_event ?a ?b ?c ?d (Some ?md) ?i ?ww] =>
    destruct (log_audit_event_stored a b c d md i ww) as (r & w' & E & Hu & Hl);
      [done|done|] end.
  all: rewrite E; eexists; split; [reflexivity|]; simpl; by rewrite Hu, Hl.
Qed.

(** A failed [save] leaves the world as it was. *)
Lemma save_failed u w e w1 : save u w = (inl e, w1) → w1 = w.
Proof.
  unfold save. intros H.
  destruct (constraint_violation _ _); [by simplify_eq|].
  by destruct (existsb _ _).
Qed.

(** A successful [save] is an update of the row with the key, or an
    insert when no row has it. *)
Lemma save_inv u w u' w1 :
  save u w = (inr u', w1) →
  constraint_violation u
    (List.filter (λ r, negb (bool_decide (id r = id u))) (users w)) = None ∧
  ((existsb (λ r, bool_decide (id r = id u)) (users w) = true ∧
    u' = set_timestamps (created_at u) (now w) u ∧
    users w1 = (λ r, if bool_decide (id r = id u) then u' else r) <$> users w) ∨
   (existsb (λ r, bool_decide (id r = id u)) (users w) = false ∧
    u' = set_timestamps (now w) (now w) u ∧
    users w1 = users w ++ [u'])).
Proof.
  unfold save. intros H.
  destruct (constraint_violation _ _); [done|]. split; [done|].
  destruct (existsb _ _); simplify_eq; [left|right]; done.
Qed.

(** The attributes [update_self_user] must not touch: every column but
    the editable ones and [updated_at]. *)
Definition protected (u : User) :=
  (id u, role u, status u, email_primary u, id_type u, id_number u,
   birth_date u, created_at u, last_login_at u).

Lemma keys_filter {V} (P : string → Prop) `{∀ kv : string * V, Decision (P kv.1)} (d : Py.dict V) k :
  k ∈ Py.keys (filter (λ kv, P kv.1) d) ↔ k ∈ Py.keys d ∧ P k.
Proof.
  pure_goal. unfold Py.keys. rewrite !list_elem_of_fmap. split.
  - intros ([k' v] & -> & Hin). apply list_elem_of_filter in Hin as [HP Hin].
    split; [|done]. by exists (k', v).
  - intros [([k' v] & -> & Hin) HP]. exists (k', v). split; [done|].
    by apply list_elem_of_filter.
Qed.

Lemma NoDup_keys_filter {V} (P : string → Prop) `{∀ kv : string * V, Decision (P kv.1)} (d : Py.dict V) :
  NoDup (Py.keys d) → NoDup (Py.keys (filter (λ kv, P kv.1) d)).
Proof.
  pure_goal. induction d as [|[k v] d IH]; [done|].
  rewrite keys_cons. intros [Hk Hnd]%NoDup_cons.
  rewrite filter_cons. simpl. case_decide as HP; [|by apply IH].
  rewrite keys_cons. apply NoDup_cons. split; [|by apply IH].
  rewrite keys_filter. prop.
Qed.

Lemma get_filter {V} (P : string → Prop) `{∀ kv : string * V, Decision (P kv.1)} (d : Py.dict V) k :
  P k → Py.get k (filter (λ kv, P kv.1) d) = Py.get k d.
Proof.
  pure_goal. intros HP. induction d as [|[k' v] d IH]; [done|].
  rewrite filter_cons, get_cons. simpl. case_decide.
  - by rewrite get_cons, IH.
  - destruct (String.eqb_spec k k') as [->|]; [done|]. exact IH.
Qed.

Lemma get_filter_None {V} (P : string → Prop) `{∀ kv : string * V, Decision (P kv.1)} (d : Py.dict V) k :
  ¬ P k → Py.get k (filter (λ kv, P kv.1) d) = None.
Proof.
  pure_goal. intros HP. apply get_None_keys. rewrite keys_filter. prop.
Qed.

Lemma set_timestamps_getattr ca ua u c :
  getattr c (set_timestamps ca ua u) = getattr c u.
Proof. pure_goal. by destruct u, c. Qed.

Lemma set_timestamps_frame ca ua u :
  id (set_timestamps ca ua u) = id u ∧ created_at (set_timestamps ca ua u) = ca ∧
  updated_at (set_timestamps ca ua u) = ua ∧
  last_login_at (set_timestamps ca ua u) = last_login_at u.
Proof. pure_goal. by destruct u. Qed.

(** [protected] in terms of the columns. *)
Lemma protected_eq u v :
  id u = id v → created_at u = created_at v → last_login_at u = last_login_at v →
  (∀ c, column_name c ∉ SELF_EDITABLE_FIELDS → getattr c u = getattr c v) →
  protected u = protected v.
Proof.
  pure_goal. intros Hi Hc Hl Hg. unfold protected.
  pose proof (Hg c_role ltac:(by vm_compute)) as H1.
  pose proof (Hg c_status ltac:(by vm_compute)) as H2.
  pose proof (Hg c_email_primary ltac:(by vm_compute)) as H3.
  pose proof (Hg c_id_type ltac:(by vm_compute)) as H4.
  pose proof (Hg c_id_number ltac:(by vm_compute)) as H5.
  pose proof (Hg c_birth_date ltac:(by vm_compute)) as H6.
  simpl in *. congruence.
Qed.

(** What the assignments of a self-update do to a column. *)
Lemma admin_updated_frame kw u :
  id (admin_updated kw u) = id u ∧
  created_at (admin_updated kw u) = created_at u ∧
  updated_at (admin_updated kw u) = updated_at u ∧
  last_login_at (admin_updated kw u) = last_login_at u.
Proof.
  unfold admin_updated, Py.pop, set_password.
  destruct (Py.truthy_opt _).
  - destruct (set_column_frame c_password
      (make_password (default "" (Py.get "password" kw)))
      (apply_fields (Py.remove "password" kw) u)) as (-> & -> & -> & ->).
    apply apply_fields_frame.
  - apply apply_fields_frame.
Qed.

Lemma admin_updated_untouched kw u c :
  column_name c ∉ Py.keys kw → getattr c (admin_updated kw u) = getattr c u.
Proof.
  intros Hc. unfold admin_updated, Py.pop, set_password.
  assert (column_name c ∉ Py.keys (Py.remove "password" kw)) as Hr.
  { rewrite keys_remove. prop. }
  destruct (Py.truthy_opt _) eqn:Et; [|by apply apply_fields_untouched].
  rewrite getattr_set_column. destruct (decide (c_password = c)) as [<-|].
  - apply get_None_keys in Hc. simpl in Hc. by rewrite Hc in Et.
  - by apply apply_fields_untouched.
Qed.

Lemma admin_updated_assigned kw u c v :
  NoDup (Py.keys kw) → c ≠ c_password → Py.get (column_name c) kw = Some v →
  getattr c (admin_updated kw u) = Some v.
Proof.
  intros Hnd Hc Hg. unfold admin_updated, Py.pop, set_password.
  assert (getattr c (apply_fields (Py.remove "password" kw) u) = Some v) as Ha.
  { apply apply_fields_assigned; [by apply NoDup_keys_remove|].
    rewrite get_remove_ne; [done|]. intros E. apply Hc. by destruct c. }
  destruct (Py.truthy_opt _); [|done].
  rewrite getattr_set_column. by rewrite decide_False.
Qed.

Lemma admin_updated_password kw u :
  password (admin_updated kw u) =
    if Py.truthy_opt (Py.get "password" kw)
    then make_password (default "" (Py.get "password" kw)) else password u.
Proof.
  unfold admin_updated, Py.pop, set_password.
  destruct (Py.truthy_opt _).
  - pose proof (getattr_set_column c_password c_password
      (make_password (default "" (Py.get "password" kw)))
      (apply_fields (Py.remove "password" kw) u)) as H.
    rewrite decide_True in H by done. simpl in H. congruence.
  - pose proof (apply_fields_untouched c_password (Py.remove "password" kw) u) as H.
    simpl in H. rewrite keys_remove in H. injection H; [done|prop].
Qed.

Lemma self_updated_protected data u :
  protected (admin_updated
               (filter (λ kv, kv.1 ∈ SELF_EDITABLE_FIELDS) data) u) = protected u.
Proof.
  destruct (admin_updated_frame (filter (λ kv, kv.1 ∈ SELF_EDITABLE_FIELDS) data) u)
    as (Hi & Hc & _ & Hl).
  apply protected_eq; try done.
  intros c Hc'. apply admin_updated_untouched.
  by intros [_ ?]%(keys_filter (λ k, k ∈ SELF_EDITABLE_FIELDS)).
Qed.

Lemma protected_set_timestamps ua u :
  protected (set_timestamps (created_at u) ua u) = protected u.
Proof. pure_goal. by destruct u. Qed.

Lemma protected_id u v : protected u = protected v → id u = id v.
Proof. pure_goal. unfold protected. congruence. Qed.

Lemma replace_protected us u u' i :
  NoDup (id <$> us) → u ∈ us → i = id u → protected u' = protected u →
  protected <$> ((λ r, if bool_decide (id r = i) then u' else r) <$> us)
  = protected <$> us.
Proof.
  pure_goal. intros Hnd Hin -> Hp. rewrite <- list_fmap_compose.
  apply list_fmap_ext. intros i r Hr. simpl.
  case_bool_decide as E; [|done].
  rewrite Hp. f_equal. symmetry.
  apply (NoDup_fmap_eq id us); [done| |done|done].
  by eapply list_elem_of_lookup_2.
Qed.

(** X1. Whatever [update_self_user] is given and however it ends, the
    user's key, role, status, primary email, identity document, birth
    date, creation time and last login are what they were, on the object
    and in every row of the table. *)
Theorem update_self_user_keeps_protected data ip user_ w r user' w' :
  NoDup (id <$> users w) → user_ ∈ users w →
  update_self_user data ip (user_, w) = (r, (user', w')) →
  protected user' = protected user_ ∧
  protected <$> users w' = protected <$> users w.
Proof.
  intros Hnd Hin.
  destruct (decide (Py.keyset data ∩ SELF_PROHIBITED_FIELDS = ∅)) as [Hp|Hp]; cycle 1.
  { unfold update_self_user. rewrite bool_decide_eq_true_2 by done.
    by intros [= <- <- <-]. }
  destruct (decide (filter (λ kv, kv.1 ∈ SELF_EDITABLE_FIELDS) data = [])) as [Ha|Ha].
  { unfold update_self_user. rewrite bool_decide_eq_false_2 by (by intros ?).
    rewrite bool_decide_eq_true_2 by done. by intros [= <- <- <-]. }
  intros Hrun.
  pose proof (update_self_user_run data ip user_ w Hp Ha) as Hr.
  simpl in Hr. rewrite Hrun in Hr.
  pose proof (self_updated_protected data user_) as Hprot.
  destruct (save _ w) as [[e|u'] w1] eqn:Es.
  - injection Hr as -> -> ->. apply save_failed in Es as ->. done.
  - destruct Hr as (w2 & [= -> -> ->] & Hu & _).
    apply save_inv in Es as [_ [(_ & -> & Hw)|(Hex & _ & _)]].
    + rewrite protected_set_timestamps. split; [done|].
      rewrite Hu, Hw.
      apply (replace_protected _ user_); [done|done| |].
      * by apply protected_id.
      * by rewrite protected_set_timestamps.
    + exfalso. apply not_true_iff_false in Hex. apply Hex.
      apply (existsb_true _ _ user_); [done|].
      apply bool_decide_eq_true_2. symmetry. by apply protected_id.
Qed.

Lemma no_prohibited_keys (data : Py.dict string) :
  (∀ k, k ∈ Py.keys data → k ∉ SELF_PROHIBITED_FIELDS) →
  Py.keyset data ∩ SELF_PROHIBITED_FIELDS = ∅.
Proof.
  pure_goal. intros H. apply set_eq. intros k.
  rewrite elem_of_intersection, elem_of_keyset. split; [|by intros ?%elem_of_empty].
  intros [Hk Hp]. by destruct (H k Hk).
Qed.

(** X2. Data that names no prohibited and no editable field (the empty
    dictionary, or keys the model does not know) is refused with
    'No hay campos válidos para actualizar'; nothing is changed. *)
Theorem update_self_user_no_valid_fields data ip user_ w :
  (∀ k, k ∈ Py.keys data →
     ¬ (k ∈ SELF_PROHIBITED_FIELDS) ∧ ¬ (k ∈ SELF_EDITABLE_FIELDS)) →
  update_self_user data ip (user_, w) =
    (inl (ValidationError "No hay campos válidos para actualizar"), (user_, w)).
Proof.
  intros H. unfold update_self_user.
  rewrite bool_decide_eq_false_2; cycle 1.
  { intros Hne. apply Hne, no_prohibited_keys. intros k Hk. by apply H. }
  rewrite bool_decide_eq_true_2; [done|].
  destruct (filter _ data) as [|[k v] l] eqn:E; [done|]. exfalso.
  assert ((k, v) ∈ filter (λ kv : string * string, kv.1 ∈ SELF_EDITABLE_FIELDS) data)
    as [He Hin]%list_elem_of_filter by (rewrite E; left).
  destruct (H k) as [_ Hn]; [|done].
  apply list_elem_of_fmap. by exists (k, v).
Qed.

Lemma keys_remove_eq {V} k (d : Py.dict V) :
  Py.keys (Py.remove k d) = filter (λ x, x ≠ k) (Py.keys d).
Proof.
  pure_goal. induction d as [|[k' v] d IH]; [done|].
  rewrite keys_cons, filter_cons. simpl.
  destruct (String.eqb_spec k k') as [->|Hne].
  - by rewrite decide_False by (by intros ?).
  - rewrite decide_True by done. by rewrite keys_cons, IH.
Qed.

Lemma keys_filter_eq {V} (P : string → Prop) `{∀ kv : string * V, Decision (P kv.1)}
    `{∀ k, Decision (P k)} (d : Py.dict V) :
  Py.keys (filter (λ kv, P kv.1) d) = filter P (Py.keys d).
Proof.
  pure_goal. induction d as [|[k v] d IH]; [done|].
  rewrite keys_cons, !filter_cons. simpl.
  case_decide; case_decide; try done. by rewrite keys_cons, IH.
Qed.

(** The successful run of a self-update, in terms of the assignments. *)
Lemma self_update_saved data ip user_ w :
  db_ok (users w) → user_ ∈ users w →
  (∀ k, k ∈ Py.keys data → k ∉ SELF_PROHIBITED_FIELDS) →
  (∃ k, k ∈ Py.keys data ∧ k ∈ SELF_EDITABLE_FIELDS) →
  let allowed := filter (λ kv : string * string, kv.1 ∈ SELF_EDITABLE_FIELDS) data in
  let u2 := admin_updated allowed user_ in
  let u' := set_timestamps (created_at u2) (now w) u2 in
  ∃ w',
    update_self_user data ip (user_, w) = (inr u', (u', w')) ∧
    users w' = (λ r, if bool_decide (id r = id user_) then u' else r) <$> users w ∧
    audit_logs w' =
      audit_logs w ++
      emitted w (audit_row w (Some u') constants.USER_UPDATED_SELF "User"
                   (Some (id user_)) (self_metadata allowed) ip).
Proof.
  intros Hdb Hin Hp (k0 & Hk0 & He0) allowed u2 u'.
  apply no_prohibited_keys in Hp.
  assert (allowed ≠ []) as Ha.
  { intros E. assert (k0 ∈ Py.keys allowed) as Hk.
    { by apply (keys_filter (λ k, k ∈ SELF_EDITABLE_FIELDS)). }
    rewrite E in Hk. by apply elem_of_nil in Hk. }
  pose proof (update_self_user_run data ip user_ w Hp Ha) as Hr. simpl in Hr.
  fold allowed in Hr. fold u2 in Hr.
  pose proof (self_updated_protected data user_) as Hprot.
  fold allowed in Hprot. fold u2 in Hprot.
  assert (save u2 w = (inr u',
            set_users (List.map (λ r, if bool_decide (id r = id user_) then u' else r)
                                (users w)) w)) as Es.
  { unfold protected in Hprot. apply save_update; try done; congruence. }
  rewrite Es in Hr. destruct Hr as (w2 & Hrun & Hu & Hl).
  exists w2. split; [exact Hrun|]. split; [by rewrite Hu|].
  rewrite Hl. unfold emitted, audit_row. simpl.
  destruct (set_timestamps_frame (created_at u2) (now w) u2) as (Hid & _).
  fold u' in Hid. rewrite Hid.
  unfold protected in Hprot. by replace (id u2) with (id user_) by congruence.
Qed.

(** X3. A self-update that names no prohibited field and at least one
    editable field succeeds for a user of a consistent table: the row of
    that user is rewritten, each editable field present in the data gets
    the given value, a non-empty password is stored hashed, columns the
    data does not name are kept, [updated_at] is the time of the call, and
    one USER_UPDATED_SELF event lists the updated fields without the
    password. *)
Theorem update_self_user_updates data ip user_ w :
  db_ok (users w) → user_ ∈ users w → NoDup (Py.keys data) →
  (∀ k, k ∈ Py.keys data → k ∉ SELF_PROHIBITED_FIELDS) →
  (∃ k, k ∈ Py.keys data ∧ k ∈ SELF_EDITABLE_FIELDS) →
  ∃ u' w',
    update_self_user data ip (user_, w) = (inr u', (u', w')) ∧
    users w' = (λ r, if bool_decide (id r = id user_) then u' else r) <$> users w ∧
    updated_at u' = now w ∧
    (∀ c v, c ≠ c_password → column_name c ∈ SELF_EDITABLE_FIELDS →
       Py.get (column_name c) data = Some v → getattr c u' = Some v) ∧
    (∀ c, column_name c ∉ Py.keys data → getattr c u' = getattr c user_) ∧
    password u' =
      (if Py.truthy_opt (Py.get "password" data)
       then make_password (default "" (Py.get "password" data))
       else password user_) ∧
    audit_logs w' =
      audit_logs w ++
      emitted w
        (audit_row w (Some u') constants.USER_UPDATED_SELF "User" (Some (id user_))
           ([("updated_fields",
              JList (JStr <$> filter (λ k, k ≠ "password")
                                (filter (λ k, k ∈ SELF_EDITABLE_FIELDS) (Py.keys data))))] ++
            (if Py.truthy_opt (Py.get "password" data)
             then [("password_changed", JBool true)] else []))
           ip).
Proof.
  intros Hdb Hin Hnd Hp Hk.
  destruct (self_update_saved data ip user_ w Hdb Hin Hp Hk) as (w' & Hrun & Hu & Hl).
  set (allowed := filter (λ kv : string * string, kv.1 ∈ SELF_EDITABLE_FIELDS) data) in *.
  set (u2 := admin_updated allowed user_) in *.
  eexists _, w'. split; [exact Hrun|]. split; [exact Hu|].
  split; [by destruct u2|].
  assert (NoDup (Py.keys allowed)) as Hnda.
  { by apply (NoDup_keys_filter (λ k, k ∈ SELF_EDITABLE_FIELDS)). }
  assert (Py.get "password" allowed = Py.get "password" data) as Hpw.
  { by apply (get_filter (λ k, k ∈ SELF_EDITABLE_FIELDS)). }
  split.
  { intros c v Hc He Hg. rewrite set_timestamps_getattr.
    apply admin_updated_assigned; [done|done|].
    unfold allowed. by rewrite (get_filter (λ k, k ∈ SELF_EDITABLE_FIELDS)). }
  split.
  { intros c Hc. rewrite set_timestamps_getattr.
    apply admin_updated_untouched.
    by intros [? _]%(keys_filter (λ k, k ∈ SELF_EDITABLE_FIELDS)). }
  split.
  { pose proof (set_timestamps_getattr (created_at u2) (now w) u2 c_password) as H.
    simpl in H. injection H as ->. unfold u2.
    by rewrite admin_updated_password, Hpw. }
  rewrite Hl. unfold self_metadata.
  rewrite Hpw, keys_remove_eq.
  unfold allowed at 1. by rewrite (keys_filter_eq (λ k, k ∈ SELF_EDITABLE_FIELDS)).
Qed.

(** ** Calls on a user that does not exist *)

Lemma find_missing uid (us : list User) :
  (∀ u, u ∈ us → id u ≠ uid) →
  List.find (λ r, bool_decide (id r = uid)) us = None.
Proof.
  pure_goal. intros H. induction us as [|r us IH]; [done|]. simpl.
  rewrite bool_decide_eq_false_2 by (apply H; left).
  apply IH. intros u Hu. apply H. by right.
Qed.

(** X4. For an administrator and a key no row carries, [suspend_user],
    [activate_user] and [update_user_by_admin] raise [DoesNotExist]; the
    only trace is the ERROR record 'Usuario con ID ... no encontrado', and
    no table is written. *)
Theorem admin_calls_on_missing_user actor uid data ip w :
  role actor = Role.ADMIN →
  (∀ u, u ∈ users w → id u ≠ uid) →
  ∃ w',
    suspend_user uid actor ip w = (inl DoesNotExist, w') ∧
    activate_user uid actor ip w = (inl DoesNotExist, w') ∧
    update_user_by_admin uid data actor ip w = (inl DoesNotExist, w') ∧
    users w' = users w ∧ audit_logs w' = audit_logs w ∧
    log w' = log w ++ [(ERROR, "Usuario con ID " +:+ str_id uid +:+ " no encontrado")].
Proof.
  intros Hadmin Hmiss. apply find_missing in Hmiss.
  assert (User_objects_get uid w = (inl DoesNotExist, w)) as Hget.
  { unfold User_objects_get. by rewrite Hmiss. }
  eexists. unfold suspend_user, activate_user, update_user_by_admin.
  rewrite !bool_decide_eq_false_2 by (by intros ?).
  split; [|split; [|split]].
  - erewrite try_inl; [|by erewrite bind_inl]. reflexivity.
  - erewrite try_inl; [|by erewrite bind_inl]. reflexivity.
  - erewrite try_inl; [|by erewrite bind_inl]. reflexivity.
  - done.
Qed.

(** ** Failure writes nothing *)

(** The two tables of a world. *)
Definition tables (w : World) : list User * list AuditLog := (users w, audit_logs w).

(** [keeps m]: [m] writes to no table.  [atomic m]: a run of [m] that
    raises has written to no table. *)
Definition keeps {A} (m : M A) : Prop :=
  ∀ w r w', m w = (r, w') → tables w' = tables w.

Definition atomic {A} (m : M A) : Prop :=
  ∀ w e w', m w = (inl e, w') → tables w' = tables w.

Lemma keeps_atomic {A} (m : M A) : keeps m → atomic m.
Proof. pure_goal. intros H w e w' E. by eapply H. Qed.

Lemma keeps_ret {A} (a : A) : keeps (ret a).
Proof. pure_goal. by intros w r w' [= <- <-]. Qed.

Lemma keeps_raise {A} e : keeps (raise (A:=A) e).
Proof. pure_goal. by intros w r w' [= <- <-]. Qed.

Lemma keeps_logger l msg : keeps (logger l msg).
Proof. pure_goal. by intros w r w' [= <- <-]. Qed.

Lemma keeps_uuid4 : keeps uuid4.
Proof. pure_goal. by intros w r w' [= <- <-]. Qed.

Lemma keeps_get uid : keeps (User_objects_get uid).
Proof.
  pure_goal. intros w r w'. unfold User_objects_get.
  by destruct (List.find _ _); intros [= <- <-].
Qed.

Lemma keeps_bind {A B} (m : M A) (k : A → M B) :
  keeps m → (∀ a, keeps (k a)) → keeps (bind m k).
Proof.
  pure_goal. intros Hm Hk w r w'. unfold bind.
  destruct (m w) as [[e|a] w1] eqn:E.
  - intros [= <- <-]. by eapply Hm.
  - intros E'. apply Hk in E'. apply Hm in E. congruence.
Qed.

Lemma keeps_pop_required k data : keeps (pop_required k data).
Proof.
  pure_goal. unfold pop_required.
  destruct (Py.get k data); [apply keeps_ret|apply keeps_raise].
Qed.

Lemma atomic_bind_keeps {A B} (m : M A) (k : A → M B) :
  keeps m → (∀ a, atomic (k a)) → atomic (bind m k).
Proof.
  pure_goal. intros Hm Hk w e w'. unfold bind.
  destruct (m w) as [[e'|a] w1] eqn:E.
  - intros [= <- <-]. by eapply Hm.
  - intros E'. apply Hk in E'. apply Hm in E. congruence.
Qed.

Lemma atomic_bind_total {A B} (m : M A) (k : A → M B) :
  atomic m → (∀ a, raises_only (λ _, False) (k a)) → atomic (bind m k).
Proof.
  pure_goal. intros Hm Hk w e w'. unfold bind.
  destruct (m w) as [[e'|a] w1] eqn:E.
  - intros [= <- <-]. by eapply Hm.
  - intros E'. by apply Hk in E'.
Qed.

Lemma atomic_try {A} (body : M A) handler :
  atomic body → (∀ e, keeps (handler e)) → atomic (try_except body handler).
Proof.
  pure_goal. intros Hb Hh w e w'. unfold try_except.
  destruct (body w) as [[e'|a] w1] eqn:E; [|done].
  intros E'. apply Hh in E'. apply Hb in E. congruence.
Qed.

Lemma atomic_save u : atomic (save u).
Proof. pure_goal. intros w e w' E. by apply save_failed in E as ->. Qed.

Lemma atomic_create_user email pw extra : atomic (create_user email pw extra).
Proof.
  unfold create_user. destruct (negb _); [apply keeps_atomic, keeps_raise|].
  apply atomic_bind_keeps; [|intros u; apply atomic_save].
  unfold User_init. apply keeps_bind; [apply keeps_uuid4|]. intros pk.
  destruct (init_kwargs _ _); [apply keeps_raise|apply keeps_ret].
Qed.

Ltac total :=
  repeat first
    [ apply raises_only_ret
    | apply raises_only_logger
    | apply raises_only_audit
    | apply raises_only_bind; [|intros ?] ].

Ltac keeping :=
  repeat first
    [ apply keeps_ret | apply keeps_raise | apply keeps_logger
    | apply keeps_bind; [|intros ?] ].

Lemma atomic_register_user data ip : atomic (register_user data ip).
Proof.
  unfold register_user. apply atomic_try.
  - destruct (Py.pop "password" data) as [pw d].
    destruct (negb _); [apply keeps_atomic, keeps_raise|].
    apply atomic_bind_keeps; [apply keeps_pop_required|]. intros [e d'].
    apply atomic_bind_total; [apply atomic_create_user|]. intros u. total.
  - intros e. destruct e; keeping.
Qed.

Lemma atomic_create_user_by_admin data actor ip :
  atomic (create_user_by_admin data actor ip).
Proof.
  unfold create_user_by_admin.
  destruct (bool_decide _); [apply keeps_atomic, keeps_raise|].
  apply atomic_try.
  - destruct (Py.pop "password" data) as [pw d].
    destruct (negb _); [apply keeps_atomic, keeps_raise|].
    apply atomic_bind_keeps; [apply keeps_pop_required|]. intros [e d'].
    apply atomic_bind_total; [apply atomic_create_user|]. intros u. total.
  - intros e. destruct e; keeping.
Qed.

Lemma atomic_update_user_by_admin uid data actor ip :
  atomic (update_user_by_admin uid data actor ip).
Proof.
  unfold update_user_by_admin.
  destruct (bool_decide _); [apply keeps_atomic, keeps_raise|].
  apply atomic_try.
  - apply atomic_bind_keeps; [apply keeps_get|]. intros old.
    destruct (Py.pop "password" data) as [pw d].
    apply atomic_bind_total; [apply atomic_save|]. intros u. total.
  - intros e. destruct e; keeping.
Qed.

Lemma atomic_suspend_user uid actor ip : atomic (suspend_user uid actor ip).
Proof.
  pure_goal. unfold suspend_user.
  destruct (bool_decide _); [apply keeps_atomic, keeps_raise|].
  apply atomic_try.
  - apply atomic_bind_keeps; [apply keeps_get|]. intros u.
    destruct (bool_decide _); [apply keeps_atomic; keeping|].
    apply atomic_bind_total; [apply atomic_save|]. intros u'. total.
  - intros e. destruct e; keeping.
Qed.

Lemma atomic_activate_user uid actor ip : atomic (activate_user uid actor ip).
Proof.
  pure_goal. unfold activate_user.
  destruct (bool_decide _); [apply keeps_atomic, keeps_raise|].
  apply atomic_try.
  - apply atomic_bind_keeps; [apply keeps_get|]. intros u.
    destruct (bool_decide _); [apply keeps_atomic; keeping|].
    apply atomic_bind_total; [apply atomic_save|]. intros u'. total.
  - intros e. destruct e; keeping.
Qed.

(** X5. A call of [register_user], [create_user_by_admin],
    [update_user_by_admin], [suspend_user] or [activate_user] that raises,
    whatever the exception, has written neither a user row nor an audit
    row. *)
Theorem failed_service_call_writes_nothing data uid actor ip w :
  (∀ e w', register_user data ip w = (inl e, w') → tables w' = tables w) ∧
  (∀ e w', create_user_by_admin data actor ip w = (inl e, w') →
           tables w' = tables w) ∧
  (∀ e w', update_user_by_admin uid data actor ip w = (inl e, w') →
           tables w' = tables w) ∧
  (∀ e w', suspend_user uid actor ip w = (inl e, w') → tables w' = tables w) ∧
  (∀ e w', activate_user uid actor ip w = (inl e, w') → tables w' = tables w).
Proof.
  split; [|split; [|split; [|split]]]; intros e w'.
  - apply atomic_register_user.
  - apply atomic_create_user_by_admin.
  - apply atomic_update_user_by_admin.
  - apply atomic_suspend_user.
  - apply atomic_activate_user.
Qed.

(** ** What every operation keeps *)

(** [step R m]: every run of [m] takes a state to an [R]-related one. *)
Definition step {S A} (R : S → S → Prop) (m : St S A) : Prop :=
  ∀ s r s', m s = (r, s') → R s s'.

Section Step.
Context {S : Type} (R : S → S → Prop) `{!PreOrder R}.

Lemma step_ret {A} (a : A) : step R (ret a).
Proof using Type*. by intros s r s' [= <- <-]. Qed.

Lemma step_raise {A} e : step R (raise (A:=A) e).
Proof using Type*. by intros s r s' [= <- <-]. Qed.

Lemma step_bind {A B} (m : St S A) (k : A → St S B) :
  step R m → (∀ a, step R (k a)) → step R (bind m k).
Proof using Type*.
  intros Hm Hk s r s'. unfold bind. destruct (m s) as [[e|a] s1] eqn:E.
  - intros [= <- <-]. by eapply Hm.
  - intros E'. etrans; [by eapply Hm|by eapply Hk].
Qed.

Lemma step_try {A} (body : St S A) handler :
  step R body → (∀ e, step R (handler e)) → step R (try_except body handler).
Proof using Type*.
  intros Hb Hh s r s'. unfold try_except. destruct (body s) as [[e|a] s1] eqn:E.
  - intros E'. etrans; [by eapply Hb|by eapply Hh].
  - intros [= <- <-]. by eapply Hb.
Qed.
End Step.

(** The audit table only grows at its end, the keys of the user table
    stay where they are (rows are rewritten in place or appended), and
    the constraints of the user table, once true, stay true. *)
Definition grows (w w' : World) : Prop :=
  audit_logs w `prefix_of` audit_logs w' ∧
  (id <$> users w) `prefix_of` (id <$> users w') ∧
  (db_ok (users w) → db_ok (users w')).

Global Instance grows_preorder : PreOrder grows.
Proof.
  pure_goal. split.
  - by intros w.
  - intros w1 w2 w3 (H1 & H2 & H3) (K1 & K2 & K3). unfold grows.
    split; [by etrans|]. split; [by etrans|]. auto.
Qed.

Lemma grows_same w w' :
  users w' = users w → audit_logs w' = audit_logs w → grows w w'.
Proof. pure_goal. intros Hu Ha. unfold grows. by rewrite Hu, Ha. Qed.

Lemma grows_logger l msg : step grows (logger l msg).
Proof. pure_goal. intros w r w' [= <- <-]. by apply grows_same. Qed.

Lemma grows_uuid4 : step grows uuid4.
Proof. pure_goal. intros w r w' [= <- <-]. by apply grows_same. Qed.

Lemma grows_now : step grows timezone_now.
Proof. pure_goal. by intros w r w' [= <- <-]. Qed.

Lemma grows_read {A} (f : World → A) : step grows (λ w, (inr (f w), w)).
Proof. pure_goal. by intros w r w' [= <- <-]. Qed.

Lemma grows_get uid : step grows (User_objects_get uid).
Proof.
  pure_goal. intros w r w'. unfold User_objects_get.
  by destruct (List.find _ _); intros [= <- <-].
Qed.

Lemma grows_get_by_email e : step grows (User_objects_get_by_email e).
Proof.
  pure_goal. intros w r w'. unfold User_objects_get_by_email.
  by destruct (List.find _ _); intros [= <- <-].
Qed.

Lemma grows_pop_required k data : step grows (pop_required k data).
Proof.
  pure_goal. unfold pop_required.
  destruct (Py.get k data); [apply step_ret, _|apply step_raise, _].
Qed.

Lemma grows_audit_create actor a e eid md ip :
  step grows (AuditLog_objects_create actor a e eid md ip).
Proof.
  pure_goal. intros w r w'. unfold AuditLog_objects_create.
  destruct (audit_fault w); intros [= <- <-]; [done|].
  unfold grows. simpl. split; [by apply prefix_app_r|done].
Qed.

Lemma fmap_map_ext {A B} (g : A → B) (f : A → A) (l : list A) :
  (∀ r, g (f r) = g r) → g <$> List.map f l = g <$> l.
Proof.
  pure_goal. intros H. induction l as [|x l IH]; [done|].
  change (List.map f (x :: l)) with (f x :: List.map f l).
  by rewrite !fmap_cons, H, IH.
Qed.

(** Rewriting rows without touching the constrained columns. *)
Lemma db_ok_rewrite (f : User → User) us :
  (∀ r, id (f r) = id r ∧ email_primary (f r) = email_primary r ∧
        id_type (f r) = id_type r ∧ id_number (f r) = id_number r ∧
        birth_date (f r) = birth_date r) →
  db_ok us → db_ok (f <$> us).
Proof.
  pure_goal. intros Hf (H1 & H2 & H3 & H4). unfold db_ok.
  rewrite <- !list_fmap_compose.
  rewrite (list_fmap_ext (id ∘ f) id us) by (by intros; apply Hf).
  rewrite (list_fmap_ext (email_primary ∘ f) email_primary us)
    by (by intros; apply Hf).
  rewrite (list_fmap_ext ((λ u, (id_type u, id_number u)) ∘ f)
             (λ u, (id_type u, id_number u)) us); cycle 1.
  { intros i r _. simpl. destruct (Hf r) as (_ & _ & -> & -> & _). done. }
  do 3 (split; [done|]).
  apply Forall_fmap. eapply Forall_impl; [exact H4|].
  intros r Hr. simpl. by destruct (Hf r) as (_ & _ & _ & _ & ->).
Qed.

Lemma grows_save_last_login_at u : step grows (save_last_login_at u).
Proof.
  pure_goal. intros w r w' [= <- <-]. unfold grows. simpl.
  split; [done|]. split.
  - rewrite fmap_map_ext; [done|].
    intros r. case_bool_decide; [|done]. by destruct r.
  - apply db_ok_rewrite. intros r. case_bool_decide; [|done]. by destruct r.
Qed.

Lemma filter_others (us : list User) i r :
  r ∈ us → id r ≠ i → r ∈ List.filter (λ x, negb (bool_decide (id x = i))) us.
Proof.
  pure_goal. intros Hin Hne. apply list_elem_of_In, filter_In.
  split; [by apply list_elem_of_In|]. by rewrite bool_decide_eq_false_2.
Qed.

Lemma constraint_violation_None u others :
  constraint_violation u others = None →
  birth_date u ≠ None ∧
  (∀ r, r ∈ others → email_primary r ≠ email_primary u) ∧
  (∀ r, r ∈ others → (id_type r, id_number r) ≠ (id_type u, id_number u)).
Proof.
  pure_goal. unfold constraint_violation.
  case_bool_decide as Hb; [done|].
  destruct (existsb _ others) eqn:He; [done|].
  destruct (existsb _ others) eqn:Hp in |- *; [done|]. intros _.
  split; [done|]. split; intros r Hr E.
  - apply not_true_iff_false in He. apply He.
    apply (existsb_true _ _ r); [done|]. by apply bool_decide_eq_true_2.
  - apply not_true_iff_false in Hp. apply Hp.
    apply (existsb_true _ _ r); [done|]. injection E as E1 E2.
    by rewrite !bool_decide_eq_true_2.
Qed.

(** A saved row keeps the constraints of the table. *)
Lemma db_ok_save u w u' w1 :
  save u w = (inr u', w1) → db_ok (users w) → db_ok (users w1).
Proof.
  pure_goal. intros Es (H1 & H2 & H3 & H4).
  apply save_inv in Es as [Hc Hcases].
  apply constraint_violation_None in Hc as (Hb & He & Hp).
  assert (∀ r, r ∈ users w → id r ≠ id u → email_primary r ≠ email_primary u) as He'.
  { intros r Hr Hne. apply He. by apply filter_others. }
  assert (∀ r, r ∈ users w → id r ≠ id u →
               (id_type r, id_number r) ≠ (id_type u, id_number u)) as Hp'.
  { intros r Hr Hne. apply Hp. by apply filter_others. }
  assert (NoDup (users w)) as Hnd by (by eapply NoDup_fmap_1).
  destruct Hcases as [(Hex & -> & ->)|(Hex & -> & ->)].
  - set (u' := set_timestamps (created_at u) (now w) u).
    assert (id u' = id u ∧ email_primary u' = email_primary u ∧
            id_type u' = id_type u ∧ id_number u' = id_number u ∧
            birth_date u' = birth_date u) as (Ei & Ee & Et & En & Eb) by (by destruct u).
    set (f := λ r : User, if bool_decide (id r = id u) then u' else r).
    assert (∀ r, id (f r) = id r) as Hfi.
    { intros r. unfold f. case_bool_decide; congruence. }
    unfold db_ok. rewrite <- !list_fmap_compose.
    split; [|split; [|split]].
    + by rewrite (list_fmap_ext (id ∘ f) id (users w)) by (by intros; apply Hfi).
    + apply NoDup_fmap_2_strong; [|done]. intros x y Hx Hy. simpl. unfold f.
      do 2 case_bool_decide; intros E.
      * apply (NoDup_fmap_eq id (users w)); [done..|congruence].
      * destruct (He' y Hy); congruence.
      * destruct (He' x Hx); congruence.
      * by apply (NoDup_fmap_eq email_primary (users w)).
    + apply NoDup_fmap_2_strong; [|done]. intros x y Hx Hy. simpl. unfold f.
      do 2 case_bool_decide; intros E.
      * apply (NoDup_fmap_eq id (users w)); [done..|congruence].
      * destruct (Hp' y Hy); congruence.
      * destruct (Hp' x Hx); congruence.
      * by apply (NoDup_fmap_eq (λ u, (id_type u, id_number u)) (users w)).
    + apply Forall_fmap. eapply Forall_impl; [exact H4|].
      intros r Hr. simpl. unfold f. case_bool_decide; congruence.
  - set (u' := set_timestamps (now w) (now w) u).
    assert (id u' = id u ∧ email_primary u' = email_primary u ∧
            id_type u' = id_type u ∧ id_number u' = id_number u ∧
            birth_date u' = birth_date u) as (Ei & Ee & Et & En & Eb) by (by destruct u).
    assert (∀ r, r ∈ users w → id r ≠ id u) as Hfresh.
    { intros r Hr E. apply not_true_iff_false in Hex. apply Hex.
      apply (existsb_true _ _ r); [done|]. by apply bool_decide_eq_true_2. }
    unfold db_ok. rewrite !fmap_app. simpl.
    split; [|split; [|split]].
    + apply NoDup_app. split; [done|]. split; [|apply NoDup_singleton].
      intros i [r [-> Hr]]%list_elem_of_fmap Hi%list_elem_of_singleton.
      apply (Hfresh r Hr). congruence.
    + apply NoDup_app. split; [done|]. split; [|apply NoDup_singleton].
      intros i [r [-> Hr]]%list_elem_of_fmap Hi%list_elem_of_singleton.
      apply (He' r Hr); [by apply Hfresh|congruence].
    + apply NoDup_app. split; [done|]. split; [|apply NoDup_singleton].
      intros i [r [-> Hr]]%list_elem_of_fmap Hi%list_elem_of_singleton.
      apply (Hp' r Hr); [by apply Hfresh|congruence].
    + apply Forall_app. split; [done|]. apply Forall_singleton. congruence.
Qed.

Lemma grows_save u : step grows (save u).
Proof.
  pure_goal. intros w [e|u'] w1 Es.
  - by apply save_failed in Es as ->.
  - destruct (save_frame _ _ _ _ Es) as (Ha & _).
    unfold grows. rewrite Ha. split; [done|].
    split; [|by eapply db_ok_save].
    apply save_inv in Es as [_ [(_ & -> & ->)|(_ & -> & ->)]].
    + simpl. rewrite fmap_map_ext; [done|].
      intros r. case_bool_decide; [|done]. by destruct u.
    + rewrite fmap_app. by apply prefix_app_r.
Qed.

Ltac growing :=
  repeat first
    [ apply step_ret; apply _
    | apply step_raise; apply _
    | apply grows_logger
    | apply grows_uuid4
    | apply grows_now
    | apply grows_get
    | apply grows_get_by_email
    | apply grows_pop_required
    | apply grows_audit_create
    | apply grows_save
    | apply grows_save_last_login_at
    | apply grows_read
    | apply step_bind; [apply _| |intros ?]
    | apply step_try; [apply _| |intros ?]
    | match goal with
      | |- step _ (if ?b then _ else _) => destruct b
      | |- step _ (match ?x with _ => _ end) => destruct x
      | |- step _ (let '(_, _) := ?x in _) => destruct x
      end ].

Lemma grows_log_audit_event actor a e eid md ip :
  step grows (log_audit_event actor a e eid md ip).
Proof. pure_goal. unfold log_audit_event. growing. Qed.

Lemma grows_create_user email pw extra :
  step grows (create_user email pw extra).
Proof. unfold create_user, User_init. growing. Qed.

Lemma grows_register_user data ip : step grows (register_user data ip).
Proof.
  unfold register_user. apply step_try; [apply _| |intros e; growing].
  destruct (Py.pop "password" data) as [pw d]. destruct (negb _); [growing|].
  apply step_bind; [apply _|growing|]. intros [e d'].
  apply step_bind; [apply _|apply grows_create_user|]. intros u.
  apply step_bind; [apply _|apply grows_log_audit_event|]. intros _. growing.
Qed.

Lemma grows_create_user_by_admin data actor ip :
  step grows (create_user_by_admin data actor ip).
Proof.
  unfold create_user_by_admin. destruct (bool_decide _); [growing|].
  apply step_try; [apply _| |intros e; growing].
  destruct (Py.pop "password" data) as [pw d]. destruct (negb _); [growing|].
  apply step_bind; [apply _|growing|]. intros [e d'].
  apply step_bind; [apply _|apply grows_create_user|]. intros u.
  apply step_bind; [apply _|apply grows_log_audit_event|]. intros _. growing.
Qed.

Lemma grows_update_user_by_admin uid data actor ip :
  step grows (update_user_by_admin uid data actor ip).
Proof.
  unfold update_user_by_admin. destruct (bool_decide _); [growing|].
  apply step_try; [apply _| |intros e; growing].
  apply step_bind; [apply _|growing|]. intros old.
  destruct (Py.pop "password" data) as [pw d].
  apply step_bind; [apply _|growing|]. intros u.
  apply step_bind; [apply _|apply grows_log_audit_event|]. intros _. growing.
Qed.

Lemma grows_suspend_user uid actor ip : step grows (suspend_user uid actor ip).
Proof.
  pure_goal. unfold suspend_user. destruct (bool_decide _); [growing|].
  apply step_try; [apply _| |intros e; growing].
  apply step_bind; [apply _|growing|]. intros u.
  destruct (bool_decide _); [growing|].
  apply step_bind; [apply _|growing|]. intros u'.
  apply step_bind; [apply _|apply grows_log_audit_event|]. intros _. growing.
Qed.

Lemma grows_activate_user uid actor ip : step grows (activate_user uid actor ip).
Proof.
  pure_goal. unfold activate_user. destruct (bool_decide _); [growing|].
  apply step_try; [apply _| |intros e; growing].
  apply step_bind; [apply _|growing|]. intros u.
  destruct (bool_decide _); [growing|].
  apply step_bind; [apply _|growing|]. intros u'.
  apply step_bind; [apply _|apply grows_log_audit_event|]. intros _. growing.
Qed.

Lemma grows_get_user_by_id uid : step grows (get_user_by_id uid).
Proof. pure_goal. unfold get_user_by_id. growing. Qed.

Lemma grows_get_user_by_email e : step grows (get_user_by_email e).
Proof. pure_goal. unfold get_user_by_email. growing. Qed.

Lemma grows_list_users filters actor : step grows (list_users filters actor).
Proof.
  pure_goal. unfold list_users. destruct actor as [actor|]; [|growing].
  destruct (bool_decide _); [growing|].
  apply step_bind; [apply _|apply grows_read|]. intros qs.
  apply step_bind; [apply _| |intros ?; growing].
  destruct filters as [[|kv filters]|]; [growing| |growing].
  apply step_bind; [apply _| |intros ?].
  { destruct (Py.truthy_opt _); [|growing]. destruct (bool_decide _); growing. }
  apply step_bind; [apply _| |intros ?].
  { destruct (Py.truthy_opt _); [|growing]. destruct (bool_decide _); growing. }
  apply step_bind; [apply _| |intros ?].
  { destruct (Py.get "search" _) as [[?|]|]; growing. }
  destruct (Py.truthy _); growing.
Qed.

Lemma grows_LoginView_post request :
  step grows (LoginView_post request).
Proof.
  unfold LoginView_post.
  apply step_bind; [apply _|apply grows_read|]. intros [errors|u].
  - apply step_bind; [apply _| |intros ?; growing].
    destruct (Py.truthy _); [|growing].
    apply step_bind; [apply _|apply grows_log_audit_event|]. intros _. growing.
  - destruct (bool_decide _).
    + apply step_bind; [apply _|apply grows_log_audit_event|]. intros _. growing.
    + apply step_bind; [apply _| |].
      * unfold generate_tokens_for_user. growing.
      * intros [[access refresh]|]; [|growing].
        apply step_bind; [apply _|growing|]. intros t.
        apply step_bind; [apply _|growing|]. intros _.
        apply step_bind; [apply _|apply grows_log_audit_event|]. intros _. growing.
Qed.

Lemma grows_RegisterView_post request :
  step grows (RegisterView_post request).
Proof.
  unfold RegisterView_post.
  apply step_bind; [apply _|apply grows_read|]. intros [errors|validated_data]; [growing|].
  apply step_try; [apply _| |intros e; growing].
  apply step_bind; [apply _|apply grows_register_user|]. intros u. growing.
Qed.

(** [update_self_user] runs on the object and the world. *)
Definition grows_object (s s' : User * World) : Prop := grows s.2 s'.2.

Global Instance grows_object_preorder : PreOrder grows_object.
Proof.
  pure_goal. split.
  - intros s. unfold grows_object. done.
  - intros s1 s2 s3. unfold grows_object. by etrans.
Qed.

Lemma grows_with_world {A} (m : M A) : step grows m → step grows_object (with_world m).
Proof.
  pure_goal. intros H [u w] r [u' w']. unfold with_world.
  destruct (m w) as [r' w1] eqn:E. intros [= <- <- <-]. by eapply H.
Qed.

Lemma grows_update_self_user data ip :
  step grows_object (update_self_user data ip).
Proof.
  unfold update_self_user.
  destruct (bool_decide _); [apply step_raise, _|].
  destruct (bool_decide _); [apply step_raise, _|].
  apply step_try; [apply _| |].
  - destruct (Py.pop _ _) as [pw d].
    apply step_bind; [apply _| |intros _].
    { intros [u w] r s' [= <- <-]. done. }
    apply step_bind; [apply _| |intros _].
    { destruct (Py.truthy_opt _); [|apply step_ret, _].
      intros [u w] r s' [= <- <-]. done. }
    apply step_bind; [apply _| |intros _].
    { intros [u w] r s'. unfold save_object.
      destruct (save u w) as [[e|u'] w1] eqn:E; intros [= <- <-];
        by eapply grows_save. }
    apply step_bind; [apply _| |intros u].
    { intros [u w] r s' [= <- <-]. done. }
    apply step_bind; [apply _|apply grows_with_world, grows_log_audit_event|]. intros _.
    apply step_bind; [apply _|apply grows_with_world, grows_logger|]. intros _.
    apply step_ret, _.
  - intros e. apply step_bind; [apply _|apply grows_with_world, grows_logger|].
    intros _. apply step_raise, _.
Qed.

(** The operations of the backend, as calls with their arguments. *)
Inductive call :=
  | Register (data : Py.dict string) (ip : option string)
  | CreateByAdmin (data : Py.dict string) (actor : User) (ip : option string)
  | UpdateByAdmin (uid : nat) (data : Py.dict string) (actor : User) (ip : option string)
  | UpdateSelf (user_ : User) (data : Py.dict string) (ip : option string)
  | Suspend (uid : nat) (actor : User) (ip : option string)
  | Activate (uid : nat) (actor : User) (ip : option string)
  | GetById (uid : nat)
  | GetByEmail (email : option string)
  | ListUsers (filters : option (Py.dict (option string))) (actor : option User)
  | LogAuditEvent (actor : option User) (action entity : string) (entity_id : option nat)
      (metadata : option (Py.dict json)) (ip : option string)
  | Login (request : Request)
  | RegisterPost (request : Request).

(** The world a call leaves behind, whether it returns or raises. *)
Definition exec (c : call) (w : World) : World :=
  match c with
  | Register data ip => (register_user data ip w).2
  | CreateByAdmin data actor ip => (create_user_by_admin data actor ip w).2
  | UpdateByAdmin uid data actor ip =>
      (update_user_by_admin uid data actor ip w).2
  | UpdateSelf user_ data ip => (update_self_user data ip (user_, w)).2.2
  | Suspend uid actor ip => (suspend_user uid actor ip w).2
  | Activate uid actor ip => (activate_user uid actor ip w).2
  | GetById uid => (get_user_by_id uid w).2
  | GetByEmail email => (get_user_by_email email w).2
  | ListUsers filters actor => (list_users filters actor w).2
  | LogAuditEvent actor action entity entity_id metadata ip =>
      (log_audit_event actor action entity entity_id metadata ip w).2
  | Login request => (LoginView_post request w).2
  | RegisterPost request =>
      (RegisterView_post request w).2
  end.

(** The world after a sequence of calls. *)
Definition exec_all (cs : list call) (w : World) : World := foldl (λ w c, exec c w) w cs.

Lemma step_snd {A} (m : M A) w : step grows m → grows w (m w).2.
Proof. pure_goal. intros H. destruct (m w) as [r w'] eqn:E. by eapply H. Qed.

Lemma exec_grows c w : grows w (exec c w).
Proof.
  destruct c; simpl; try apply step_snd.
  - apply grows_register_user.
  - apply grows_create_user_by_admin.
  - apply grows_update_user_by_admin.
  - destruct (update_self_user _ _ _) as [r [u' w']] eqn:E.
    by apply grows_update_self_user in E.
  - apply grows_suspend_user.
  - apply grows_activate_user.
  - apply grows_get_user_by_id.
  - apply grows_get_user_by_email.
  - apply grows_list_users.
  - apply grows_log_audit_event.
  - apply grows_LoginView_post.
  - apply grows_RegisterView_post.
Qed.

(** X6. The audit table is append-only: after any sequence of calls of
    the services, selectors and the login and registration views, the
    audit rows that were there are still there, unchanged and in the same
    positions, followed by the new ones. *)
Theorem audit_table_is_append_only cs w :
  audit_logs w `prefix_of` audit_logs (exec_all cs w).
Proof.
  unfold exec_all. revert w. induction cs as [|c cs IH]; intros w; [done|].
  simpl. etrans; [|apply IH]. by destruct (exec_grows c w) as (H & _ & _).
Qed.

(** X7. No call deletes a user or changes a primary key: after any
    sequence of calls the keys of the user table are the old keys, in
    place, followed by those of the rows created since. *)
Theorem user_rows_are_never_deleted cs w :
  (id <$> users w) `prefix_of` (id <$> users (exec_all cs w)).
Proof.
  unfold exec_all. revert w. induction cs as [|c cs IH]; intros w; [done|].
  simpl. etrans; [|apply IH]. by destruct (exec_grows c w) as (_ & H & _).
Qed.

(** X8. The constraints of the user table are an invariant: starting
    from a table with unique keys, unique primary emails, unique identity
    documents and no missing birth date, every sequence of calls leaves
    such a table. *)
Theorem user_table_constraints_invariant cs w :
  db_ok (users w) → db_ok (users (exec_all cs w)).
Proof.
  unfold exec_all. revert w. induction cs as [|c cs IH]; intros w; [done|].
  simpl. intros Hok. apply IH. by destruct (exec_grows c w) as (_ & _ & H); apply H.
Qed.

(** ** Looking a user up by email *)

Lemma find_email_Some (us : list User) n u :
  List.find (λ r, bool_decide (email_primary r = n)) us = Some u →
  u ∈ us ∧ email_primary u = n.
Proof.
  pure_goal. intros [Hin Hb]%find_some. split; [by apply list_elem_of_In|].
  by apply bool_decide_eq_true_1 in Hb.
Qed.

Lemma find_email_unique (us : list User) u :
  NoDup (email_primary <$> us) → u ∈ us →
  List.find (λ r, bool_decide (email_primary r = email_primary u)) us = Some u.
Proof.
  pure_goal. intros Hnd Hin.
  destruct (List.find _ us) as [u'|] eqn:E.
  - apply find_email_Some in E as [Hin' He]. f_equal.
    by apply (NoDup_fmap_eq email_primary us).
  - exfalso. eapply find_none in E; [|by apply list_elem_of_In].
    by rewrite bool_decide_eq_true_2 in E.
Qed.

Lemma find_email_None (us : list User) n :
  (∀ u, u ∈ us → email_primary u ≠ n) →
  List.find (λ r, bool_decide (email_primary r = n)) us = None.
Proof.
  pure_goal. intros H. induction us as [|r us IH]; [done|]. simpl.
  rewrite bool_decide_eq_false_2 by (apply H; left).
  apply IH. intros u Hu. apply H. by right.
Qed.

(** X9. [get_user_by_email] looks the user up by the normal form [n] of
    its argument, [email.strip().lower()], which is empty without an
    argument or with an empty one.  When [n] is empty it raises
    ValueError and does nothing; when no row has the email [n] it raises
    [DoesNotExist] after one WARNING record; it returns the row whose
    stored email is [n] when emails are unique; and whatever it returns
    is a row of the table whose stored email is exactly [n], so a row
    whose stored email is not the normal form of the argument is never
    returned for it. *)
Theorem get_user_by_email_normal_form e w :
  let n := if Py.truthy_opt e then lower (strip (default "" e)) else "" in
  (n = "" →
     get_user_by_email e w = (inl (ValueError "El email no puede estar vacío"), w)) ∧
  (n ≠ "" → (∀ u, u ∈ users w → email_primary u ≠ n) →
     ∃ w', get_user_by_email e w = (inl DoesNotExist, w') ∧ tables w' = tables w ∧
           log w' = log w ++ [(WARNING, "Usuario con email " +:+ n +:+ " no encontrado")]) ∧
  (∀ u, n ≠ "" → NoDup (email_primary <$> users w) → u ∈ users w →
     email_primary u = n →
     ∃ w', get_user_by_email e w = (inr u, w') ∧ tables w' = tables w) ∧
  (∀ u w', get_user_by_email e w = (inr u, w') →
     u ∈ users w ∧ email_primary u = n).
Proof.
  intros n. unfold get_user_by_email. fold n. generalize n. clear n. intros n.
  split; [|split; [|split]].
  - intros ->. done.
  - intros Hne Hmiss. apply truthy_true in Hne. rewrite Hne. simpl.
    apply find_email_None in Hmiss.
    eexists. split.
    + erewrite try_inl; cycle 1.
      { erewrite bind_inl; [reflexivity|].
        unfold User_objects_get_by_email. by rewrite Hmiss. }
      reflexivity.
    + done.
  - intros u Hne Hnd Hin Hu. apply truthy_true in Hne. rewrite Hne. simpl.
    eexists. split.
    + erewrite try_inr; [reflexivity|].
      erewrite bind_inr; cycle 1.
      { unfold User_objects_get_by_email. rewrite <- Hu.
        by rewrite find_email_unique. }
      reflexivity.
    + done.
  - intros u w'. destruct (Py.truthy n) eqn:Ht; [|done]. simpl.
    unfold try_except, bind, User_objects_get_by_email.
    destruct (List.find _ (users w)) as [u'|] eqn:E; [|done].
    intros [= <- <-]. by apply find_email_Some in E as [Hin He].
Qed.

(** ** Registration through the view *)

Lemma init_kwargs_frame kw u0 u :
  init_kwargs kw u0 = inr u → id u = id u0.
Proof.
  pure_goal. revert u0. induction kw as [|[k v] kw IH]; intros u0.
  - by intros [= ->].
  - rewrite init_kwargs_cons. destruct (column_of k) as [c|]; [|done].
    intros H. apply IH in H. rewrite H. by destruct (set_column_frame c v u0).
Qed.

Lemma init_kwargs_getattr kw u0 u c :
  init_kwargs kw u0 = inr u → NoDup (Py.keys kw) →
  getattr c u = match Py.get (column_name c) kw with
                | Some v => Some v
                | None => getattr c u0
                end.
Proof.
  pure_goal. revert u0. induction kw as [|[k v] kw IH]; intros u0.
  - by intros [= ->].
  - rewrite init_kwargs_cons, keys_cons, get_cons.
    destruct (column_of k) as [c'|] eqn:Ec; [|done].
    intros H [Hk Hnd]%NoDup_cons. rewrite (IH _ H Hnd).
    apply column_of_name in Ec as ->.
    destruct (String.eqb_spec (column_name c) (column_name c')) as [E|Hne].
    + rewrite E. apply get_None_keys in Hk. rewrite Hk.
      rewrite getattr_set_column. rewrite decide_True; [done|].
      destruct c, c'; done.
    + destruct (Py.get (column_name c) kw); [done|].
      rewrite getattr_set_column. rewrite decide_False; [done|]. by intros ->.
Qed.

(** The validated data of a serializer: only declared fields, each
    once, each with the value its validation returned. *)
Lemma field_values_cons (r : string * (string + string)) rs :
  field_values (r :: rs) =
    match r.2 with inr v => (r.1, v) :: field_values rs | inl _ => field_values rs end.
Proof. pure_goal. unfold field_values. cbn [omap list_omap]. by destruct r.2. Qed.

Lemma run_declared_fields_cons validate_field partial f fs d :
  run_declared_fields validate_field partial (f :: fs) d =
    match run_declared_field validate_field partial d f with
    | Some y => y :: run_declared_fields validate_field partial fs d
    | None => run_declared_fields validate_field partial fs d
    end.
Proof. reflexivity. Qed.

Lemma declared_values_sublist validate_field partial fs d :
  Py.keys (field_values (run_declared_fields validate_field partial fs d))
    `sublist_of` fs.*1.
Proof.
  pure_goal. induction fs as [|f fs IH]; [done|].
  rewrite fmap_cons, run_declared_fields_cons.
  destruct (run_declared_field validate_field partial d f) as [[k r]|] eqn:E;
    [|by apply sublist_cons].
  rewrite field_values_cons. simpl.
  assert (k = f.1) as ->.
  { unfold run_declared_field in E.
    destruct (Py.get f.1 d); [|destruct (f.2 && negb partial)]; by simplify_eq. }
  destruct r; [by apply sublist_cons|]. rewrite keys_cons. by apply sublist_skip.
Qed.

Lemma declared_values_get validate_field partial fs d k v :
  Py.get k (field_values (run_declared_fields validate_field partial fs d)) = Some v →
  ∃ v0, Py.get k d = Some v0 ∧ validate_field k v0 = inr v.
Proof.
  pure_goal. induction fs as [|f fs IH]; [done|].
  rewrite run_declared_fields_cons.
  destruct (run_declared_field validate_field partial d f) as [[k' r]|] eqn:E; [|done].
  rewrite field_values_cons. simpl. destruct r as [e|v']; [done|].
  rewrite get_cons. destruct (String.eqb_spec k k') as [->|]; [|done].
  intros [= ->]. unfold run_declared_field in E.
  destruct (Py.get f.1 d) as [v0|] eqn:Eg; [|by destruct (f.2 && negb partial)].
  injection E as <- E. by exists v0.
Qed.

(** A required field without an error is in the validated data. *)
Lemma declared_values_required validate_field fs d k :
  field_errors (run_declared_fields validate_field false fs d) = [] →
  (k, true) ∈ fs →
  ∃ v, Py.get k (field_values (run_declared_fields validate_field false fs d)) = Some v.
Proof.
  pure_goal. induction fs as [|f fs IH]; [by intros _ ?%elem_of_nil|].
  rewrite run_declared_fields_cons. intros He Hin.
  destruct (run_declared_field validate_field false d f) as [[k' r]|] eqn:E.
  - unfold field_errors in He. cbn [omap list_omap] in He. simpl in He.
    rewrite field_values_cons. simpl. destruct r as [e|v]; [done|].
    rewrite get_cons. destruct (String.eqb_spec k k') as [->|Hne]; [by eexists|].
    apply IH; [done|]. apply elem_of_cons in Hin as [<-|Hin]; [|done].
    unfold run_declared_field in E. simpl in E.
    destruct (Py.get k d); by simplify_eq.
  - apply IH; [done|]. apply elem_of_cons in Hin as [<-|Hin]; [|done].
    unfold run_declared_field in E. simpl in E. by destruct (Py.get k d).
Qed.

Lemma cleaned_inr instance w validate_field k v0 v :
  cleaned instance w validate_field k v0 = inr v →
  ∃ v1, clean instance (users w) k v0 = inr v1 ∧ validate_field k v1 = inr v.
Proof.
  unfold cleaned. destruct (clean instance (users w) k v0) as [e|v1]; [done|].
  intros H. by exists v1.
Qed.

(** What [validated] delivers as validated data. *)
Lemma validated_inr instance w results vd :
  validated instance w results = inr vd →
  field_errors results = [] ∧ vd = field_values results ∧
  run_validators instance (users w) vd = None.
Proof.
  unfold validated. destruct (field_errors results); [|done].
  destruct (run_validators _ _ _) eqn:E; [done|]. by intros [= <-].
Qed.

Lemma register_fields_NoDup : NoDup register_fields.*1.
Proof. pure_goal. apply (bool_decide_unpack _). by vm_compute. Qed.

(** [register_user] only succeeds with a non-empty password. *)
Lemma register_user_password data ip w u w' :
  register_user data ip w = (inr u, w') →
  ∃ pw, Py.get "password" data = Some pw ∧ pw ≠ "".
Proof.
  intros H. unfold register_user, try_except in H.
  match type of H with match ?b w with _ => _ end = _ =>
    destruct (b w) as [[ex|u0] w0] eqn:B end.
  { destruct ex; unfold bind, logger, raise in H; simpl in H; done. }
  unfold Py.pop in B.
  destruct (Py.get "password" data) as [pw|] eqn:Epw; simpl in B; [|done].
  destruct (Py.truthy pw) eqn:Tpw; simpl in B; [|done].
  exists pw. split; [done|]. by apply truthy_true.
Qed.

#[local] Opaque register_fields.

(** X10. What [RegisterView.post] creates.  A 201 answer means: the
    request carried an email and a password that passed the validation
    of their fields, the email, stripped and lower-cased, being the email
    of no user, the password being accepted by the password validators;
    one user was created, with role CLIENT and status ACTIVE whatever
    the request asked for, with that email as [normalize_email] stores it
    and with the hash of that password; the body is the public
    representation of that user; and one USER_REGISTERED event with that
    user as actor was handed to the audit log. *)
Theorem RegisterView_post_created request w body_ w' :
  RegisterView_post request w
    = (inr (mkResponse body_ 201), w') →
  ∃ u e0 e1 p0 pw,
    Py.get "email_primary" (data request) = Some e0 ∧
    clean None (users w) "email_primary" e0 = inr e1 ∧
    (∀ r, r ∈ users w → email_primary r ≠ lower (strip e1)) ∧
    Py.get "password" (data request) = Some p0 ∧
    clean None (users w) "password" p0 = inr pw ∧ validate_password pw = None ∧
    u ∈ users w' ∧
    role u = Role.CLIENT ∧ status u = Status.ACTIVE ∧
    email_primary u = normalize_email (lower (strip e1)) ∧
    password u = make_password pw ∧
    body_ = UserPublicSerializer u request ∧
    ∃ row,
      audit_logs w' = audit_logs w ++ emitted w row ∧
      action row = constants.USER_REGISTERED ∧
      actor_user row = Some (id u) ∧ entity_id row = Some (id u) ∧
      metadata row = [("email", JStr (email_primary u)); ("role", JStr Role.CLIENT)] ∧
      ip_address row = get_client_ip request.
Proof.
  unfold RegisterView_post, bind.
  destruct (UserRegisterSerializer_is_valid _ _) as [errors|vd] eqn:Ev; [done|].
  unfold try_except.
  destruct (register_user _ _ _) as [[e|u] w1] eqn:Er; [done|].
  intros [= <- <-].
  unfold UserRegisterSerializer_is_valid in Ev.
  apply validated_inr in Ev as (Herr & -> & _).
  set (vd := field_values _) in *.
  assert (NoDup (Py.keys vd)) as Hnd.
  { eapply sublist_NoDup;
      first [apply declared_values_sublist|apply register_fields_NoDup]. }
  assert (∀ k, k ∉ register_fields.*1 → Py.get k vd = None) as Hnone.
  { intros k Hk. apply get_None_keys. intros Hin. apply Hk.
    eapply elem_of_sublist; [exact Hin|apply declared_values_sublist]. }
  destruct (register_user_password _ _ _ _ _ Er) as (pw' & Epw' & Hpw').
  apply register_user_inv in Er
    as (pw & e & kwargs & u1 & u2 & w2 & Epw & -> & Ee & Ei & -> & Sv & Hu & Hl).
  rewrite get_setdefault, get_setdefault, get_remove_ne in Ee by done. simpl in Ee.
  rewrite Epw' in Epw. injection Epw as ->.
  apply truthy_true in Hpw'. rewrite Hpw' in Sv.
  apply declared_values_get in Epw' as (p0 & Hp0 & Hvp).
  apply declared_values_get in Ee as (e0 & He0 & Hve).
  apply cleaned_inr in Hvp as (p1 & Hcp & Hvp).
  apply cleaned_inr in Hve as (e1 & Hce & Hve).
  unfold register_validate in Hvp, Hve. simpl in Hvp, Hve.
  destruct (validate_password p1) eqn:Evp; [done|]. injection Hvp as ->.
  unfold validate_email_primary in Hve.
  destruct (email_exists _ w) eqn:Eex; [done|]. injection Hve as <-.
  assert (∀ r, r ∈ users w → email_primary r ≠ lower (strip e1)) as Hfree.
  { intros r Hr Heq. unfold email_exists in Eex.
    rewrite (existsb_true _ _ r) in Eex; [done|done|by apply bool_decide_eq_true]. }
  set (kwargs := Py.remove "email_primary" _) in Ei.
  assert (NoDup (Py.keys kwargs)) as Hk.
  { by apply NoDup_keys_remove, NoDup_keys_setdefault, NoDup_keys_setdefault,
      NoDup_keys_remove. }
  assert (Py.get "role" kwargs = Some Role.CLIENT) as Hrole.
  { unfold kwargs.
    rewrite get_remove_ne, get_setdefault, get_setdefault, get_remove_ne by done.
    simpl. rewrite Hnone; [done|]. apply (bool_decide_unpack _). by vm_compute. }
  assert (Py.get "status" kwargs = Some Status.ACTIVE) as Hstatus.
  { unfold kwargs. rewrite get_remove_ne, get_setdefault by done.
    simpl. rewrite get_setdefault, get_remove_ne by done. simpl.
    rewrite Hnone; [done|]. apply (bool_decide_unpack _). by vm_compute. }
  assert (Py.get "email_primary" kwargs = None) as Hemail.
  { apply get_None_keys. unfold kwargs. rewrite keys_remove. prop. }
  pose proof (init_kwargs_getattr _ _ _ c_role Ei Hk) as G1.
  pose proof (init_kwargs_getattr _ _ _ c_status Ei Hk) as G2.
  pose proof (init_kwargs_getattr _ _ _ c_email_primary Ei Hk) as G3.
  simpl in G1, G2, G3. rewrite Hrole in G1. rewrite Hstatus in G2. rewrite Hemail in G3.
  injection G1 as G1. injection G2 as G2. injection G3 as G3.
  destruct (save_frame _ _ _ _ Sv) as (Fa & _ & _ & _ & Ff).
  apply save_result in Sv as ((ca & ua & ->) & Hin & _).
  set (u2 := set_password pw u1) in *.
  assert (role u2 = Role.CLIENT ∧ status u2 = Status.ACTIVE ∧
          email_primary u2 = normalize_email (lower (strip e1)) ∧
          password u2 = make_password pw) as (R1 & R2 & R3 & R4).
  { unfold u2, set_password. by destruct u1; simplify_eq/=. }
  assert (role (set_timestamps ca ua u2) = role u2 ∧
          status (set_timestamps ca ua u2) = status u2 ∧
          email_primary (set_timestamps ca ua u2) = email_primary u2 ∧
          password (set_timestamps ca ua u2) = password u2) as (T1 & T2 & T3 & T4)
    by (by destruct u2).
  exists (set_timestamps ca ua u2), e0, e1, p0, pw.
  rewrite T1, T2, T3, T4, R1, R2, R3, R4.
  do 6 (split; [done|]).
  split; [by rewrite Hu|]. do 5 (split; [done|]).
  eexists. split; [rewrite Hl, Fa; unfold emitted; rewrite Ff; reflexivity|].
  simpl. by rewrite T1, T3, R1, R3.
Qed.

(** ** Every constraint violation is reported as a duplicate email *)

Lemma constraint_violation_pair u others r :
  r ∈ others → id_type r = id_type u → id_number r = id_number u →
  ∃ m, constraint_violation u others = Some (IntegrityError m).
Proof.
  pure_goal. intros Hin Ht Hn. unfold constraint_violation.
  destruct (bool_decide _); [by eexists|].
  destruct (existsb _ others); [by eexists|].
  rewrite (existsb_true _ _ r Hin); [by eexists|].
  by rewrite !bool_decide_eq_true_2.
Qed.

Lemma constraint_violation_birth_date u others :
  birth_date u = None →
  ∃ m, constraint_violation u others = Some (IntegrityError m).
Proof.
  pure_goal. intros Hb. unfold constraint_violation.
  rewrite bool_decide_eq_true_2 by done. by eexists.
Qed.

(** The run of [register_user] up to the write, when the write is refused. *)
Lemma register_user_refused data ip w pw e u1 m :
  Py.get "password" data = Some pw → pw ≠ "" →
  Py.get "email_primary" data = Some e → e ≠ "" →
  init_kwargs (register_kwargs data)
    (mkUser (next_id w) "" "" "" None "" None None (normalize_email e) None
            Role.CLIENT Status.ACTIVE "" 0 0 None) = inr u1 →
  constraint_violation (set_password pw u1)
    (List.filter (λ r, negb (bool_decide (id r = id (set_password pw u1))))
       (users w)) = Some (IntegrityError m) →
  ∃ w', register_user data ip w =
          (inl (ValidationError "El email ya está en uso"), w') ∧
        tables w' = tables w.
Proof.
  intros Epw Hpw Ee He Ei Hc. apply truthy_true in Hpw, He.
  eexists. split.
  - unfold register_user. erewrite try_inl.
    2:{ unfold Py.pop. rewrite Epw. simpl. rewrite Hpw. simpl.
        erewrite bind_inr.
        2:{ unfold pop_required.
            rewrite get_setdefault, get_setdefault, get_remove_ne, Ee by done.
            simpl. reflexivity. }
        apply bind_inl. unfold create_user. simpl. rewrite He, Hpw. simpl.
        erewrite bind_inr.
        2:{ unfold User_init. erewrite bind_inr by reflexivity.
            fold (register_kwargs data). simpl. rewrite Ei. reflexivity. }
        unfold save. simpl. rewrite Hc. reflexivity. }
    simpl. reflexivity.
  - done.
Qed.

Lemma get_register_kwargs data k :
  k ≠ "password" → k ≠ "email_primary" → k ≠ "role" → k ≠ "status" →
  Py.get k (register_kwargs data) = Py.get k data.
Proof.
  pure_goal. intros H1 H2 H3 H4. unfold register_kwargs.
  rewrite get_remove_ne, get_setdefault by done. rewrite decide_False by done.
  rewrite get_setdefault. rewrite decide_False by done. by rewrite get_remove_ne.
Qed.

Lemma NoDup_register_kwargs data :
  NoDup (Py.keys data) → NoDup (Py.keys (register_kwargs data)).
Proof.
  pure_goal. intros H. unfold register_kwargs.
  by apply NoDup_keys_remove, NoDup_keys_setdefault, NoDup_keys_setdefault,
    NoDup_keys_remove.
Qed.

(** X11. [register_user] reports every refusal of the user table as
    'El email ya está en uso', whether or not the email is taken: data
    without a birth date, and the data of a person who is a user already
    (the identity document, type and number, and the birth date of an
    existing row), both end in that ValidationError, with nothing
    written.  The data name text columns only. *)
Theorem register_user_reports_any_violation_as_email data ip w pw e :
  Py.get "password" data = Some pw → pw ≠ "" →
  Py.get "email_primary" data = Some e → e ≠ "" →
  NoDup (Py.keys data) →
  (∀ k, k ∈ Py.keys data → hasattr k = true) →
  Py.get "birth_date" data = None ∨
  (∃ r, r ∈ users w ∧ id r ≠ next_id w ∧
        Py.get "id_type" data = Some (id_type r) ∧
        Py.get "id_number" data = Some (id_number r) ∧
        Py.get "birth_date" data = birth_date r) →
  ∃ w', register_user data ip w =
          (inl (ValidationError "El email ya está en uso"), w') ∧
        tables w' = tables w.
Proof.
  intros Epw Hpw Ee He Hnd Hcols Hcase.
  destruct (init_kwargs_total (register_kwargs data)
              (mkUser (next_id w) "" "" "" None "" None None (normalize_email e) None
                      Role.CLIENT Status.ACTIVE "" 0 0 None))
    as [u1 Ei]; [by apply register_kwargs_columns|].
  pose proof (NoDup_register_kwargs data Hnd) as Hk.
  pose proof (init_kwargs_frame _ _ _ Ei) as Hid. simpl in Hid.
  set (u2 := set_password pw u1).
  assert (id u2 = next_id w ∧ birth_date u2 = birth_date u1 ∧
          id_type u2 = id_type u1 ∧ id_number u2 = id_number u1) as (I1 & I2 & I3 & I4).
  { unfold u2, set_password. by destruct u1. }
  assert (∃ m, constraint_violation u2
            (List.filter (λ r, negb (bool_decide (id r = id u2))) (users w))
            = Some (IntegrityError m)) as [m Hc].
  { destruct Hcase as [Hb|(r & Hr & Hne & Ht & Hn & _)].
    - apply constraint_violation_birth_date. rewrite I2.
      pose proof (init_kwargs_getattr _ _ _ c_birth_date Ei Hk) as G.
      simpl in G. by rewrite get_register_kwargs, Hb in G.
    - apply (constraint_violation_pair _ _ r).
      + apply filter_others; [done|]. by rewrite I1.
      + pose proof (init_kwargs_getattr _ _ _ c_id_type Ei Hk) as G.
        simpl in G. rewrite get_register_kwargs, Ht in G by done. congruence.
      + pose proof (init_kwargs_getattr _ _ _ c_id_number Ei Hk) as G.
        simpl in G. rewrite get_register_kwargs, Hn in G by done. congruence. }
  by eapply register_user_refused.
Qed.

(** ** [LoginView.post] once the serializer has validated a user *)

(** X12. When the login serializer validates user [u]: a user that is
    not ACTIVE gets 403 'Usuario suspendido' and one LOGIN_FAILED event
    with reason user_suspended, and no token is asked for; when the token
    service fails the answer is 500 with two ERROR records, and neither
    table is written (no event, no last login); otherwise the answer is
    200 with both tokens and the public representation of the user, the
    [last_login_at] column of that user's row, and only that, is set to
    the time of the call, and one LOGIN_SUCCESS event is emitted. *)
Theorem LoginView_post_validated_user request w u :
  LoginSerializer_is_valid (data request) w = inr u →
  (status u ≠ Status.ACTIVE →
     ∃ w', LoginView_post request w =
             (inr (mkResponse (JObj [("detail", JStr "Usuario suspendido")]) 403), w') ∧
       users w' = users w ∧
       audit_logs w' =
         audit_logs w ++
         emitted w (audit_row w (Some u) constants.LOGIN_FAILED "User" (Some (id u))
                      [("reason", JStr "user_suspended")] (get_client_ip request))) ∧
  (status u = Status.ACTIVE → ∀ e, for_user u = inl e →
     ∃ w', LoginView_post request w =
             (inr (mkResponse (JObj [("detail", JStr "Error al generar tokens")]) 500), w') ∧
       tables w' = tables w ∧
       log w' = log w ++
         [(ERROR, "Error al generar tokens para usuario " +:+ str_id (id u)
                  +:+ ": " +:+ str_exn e);
          (ERROR, "Error al generar tokens para usuario " +:+ str_id (id u)
                  +:+ ": " +:+ str_exn e)]) ∧
  (status u = Status.ACTIVE → ∀ access refresh, for_user u = inr (access, refresh) →
     let u' := set_last_login_at (Some (now w)) u in
     ∃ w', LoginView_post request w =
             (inr (mkResponse
                     (JObj [("access", JStr access); ("refresh", JStr refresh);
                            ("user", UserPublicSerializer u' request)]) 200), w') ∧
       users w' =
         (λ r, if bool_decide (id r = id u)
               then set_last_login_at (Some (now w)) r else r) <$> users w ∧
       audit_logs w' =
         audit_logs w ++
         emitted w (audit_row w (Some u') constants.LOGIN_SUCCESS "User" (Some (id u))
                      [("email", JStr (email_primary u))] (get_client_ip request))).
Proof.
  intros Hv. unfold LoginView_post.
  erewrite bind_inr; [|by rewrite Hv].
  split; [|split].
  - intros Hs. rewrite bool_decide_eq_true_2 by done.
    destruct (log_audit_event_stored (Some u) constants.LOGIN_FAILED "User"
                (Some (id u)) [("reason", JStr "user_suspended")]
                (get_client_ip request) w) as (r & w' & E & Hu & Hl); [done|done|].
    exists w'. erewrite bind_inr by exact E. done.
  - intros Hs e He. rewrite bool_decide_eq_false_2 by (by intros ?).
    eexists. erewrite bind_inr; cycle 1.
    { erewrite try_inl; cycle 1.
      { erewrite bind_inl; [reflexivity|].
        unfold generate_tokens_for_user. rewrite He.
        erewrite bind_inr by reflexivity. reflexivity. }
      reflexivity. }
    cbn. split; [reflexivity|]. split; [done|]. by rewrite <- app_assoc.
  - intros Hs access refresh Ht. rewrite bool_decide_eq_false_2 by (by intros ?).
    erewrite bind_inr; cycle 1.
    { erewrite try_inr; [reflexivity|].
      erewrite bind_inr; [reflexivity|].
      unfold generate_tokens_for_user. by rewrite Ht. }
    cbv beta iota. erewrite bind_inr by reflexivity.
    erewrite bind_inr by reflexivity.
    match goal with |- context [bind (log_audit_event ?a ?b ?c ?d (Some ?md) ?i) _ ?ww] =>
      destruct (log_audit_event_stored a b c d md i ww) as (r & w' & E & Hu & Hl);
        [done|done|] end.
    exists w'. erewrite bind_inr by exact E.
    split; [reflexivity|]. split.
    + rewrite Hu. simpl. by destruct u.
    + rewrite Hl. unfold emitted, audit_row. simpl. by destruct u.
Qed.

(** ** What the public representation shows, and to whom *)

(** The requesting user sees the contact data of [instance]: it is
    authenticated and is not a CLIENT, or it is [instance] itself. *)
Definition sees_contact_data (request : Request) (instance : User) : Prop :=
  match user request with
  | Some requesting_user =>
      role requesting_user ≠ Role.CLIENT ∨ id requesting_user = id instance
  | None => False
  end.

(** X13. [UserPublicSerializer] never shows the password, the identity
    document, the birth date or the address; it always shows the key, the
    name, the primary email, the role and the status; and it shows the
    phone and the secondary email exactly to an authenticated requester
    that is not a CLIENT or is the user shown.  An anonymous requester and
    a CLIENT looking at another user get neither key. *)
Theorem UserPublicSerializer_visibility instance request :
  ∃ representation,
    UserPublicSerializer instance request = JObj representation ∧
    (∀ k, k ∈ ["password"; "id_type"; "id_number"; "birth_date"; "address"] →
          Py.get k representation = None) ∧
    Py.get "id" representation = Some (JStr (str_id (id instance))) ∧
    Py.get "full_name" representation = Some (JStr (full_name instance)) ∧
    Py.get "email_primary" representation = Some (JStr (email_primary instance)) ∧
    Py.get "role" representation = Some (JStr (role instance)) ∧
    Py.get "status" representation = Some (JStr (status instance)) ∧
    (sees_contact_data request instance →
       Py.get "phone" representation = Some (JStr (phone instance)) ∧
       Py.get "email_secondary" representation
         = Some (json_of_opt (email_secondary instance))) ∧
    (¬ sees_contact_data request instance →
       Py.get "phone" representation = None ∧
       Py.get "email_secondary" representation = None).
Proof.
  pure_goal. unfold UserPublicSerializer, sees_contact_data.
  eexists. split; [reflexivity|].
  assert (∀ k : string,
            k ∈ ["password"; "id_type"; "id_number"; "birth_date"; "address"] →
            k = "password" ∨ k = "id_type" ∨ k = "id_number" ∨ k = "birth_date" ∨
            k = "address") as Hk.
  { intros k. rewrite !elem_of_cons, elem_of_nil. tauto. }
  destruct (user request) as [r|].
  - case_bool_decide as Hc; [case_bool_decide as Hi|].
    + split; [by intros k [->|[->|[->|[->| ->]]]]%Hk|]. do 5 (split; [done|]).
      split; [done|]. intros H. destruct H. by right.
    + split; [by intros k [->|[->|[->|[->| ->]]]]%Hk|]. do 5 (split; [done|]).
      split; [|done]. by intros [?|?].
    + split; [by intros k [->|[->|[->|[->| ->]]]]%Hk|]. do 5 (split; [done|]).
      split; [done|]. intros H. destruct H. by left.
  - split; [by intros k [->|[->|[->|[->| ->]]]]%Hk|]. do 5 (split; [done|]).
    split; [done|]. done.
Qed.

(** ** The client address *)

Lemma before_comma_split s :
  ¬ substring_of "," (before_comma s) ∧
  (s = before_comma s ∨ ∃ rest, s = before_comma s +:+ "," +:+ rest).
Proof.
  pure_goal. induction s as [|c s [IH1 IH2]].
  - split; [|by left]. intros ([|??] & post & H); by rewrite ?app_cons in H.
  - cbn [before_comma]. destruct (Ascii.eqb_spec c ",") as [->|Hne].
    + split; [|right; by exists s].
      intros ([|??] & post & H); by rewrite ?app_cons in H.
    + split.
      * intros ([|c' pre] & post & H).
        -- change ("" +:+ "," +:+ post) with (String "," post) in H. congruence.
        -- rewrite app_cons in H. injection H as _ H. apply IH1. by exists pre, post.
      * destruct IH2 as [IH2|[rest IH2]]; [left|right; exists rest];
          rewrite ?app_cons; by f_equal.
Qed.

(** X14. [get_client_ip] trusts the X-Forwarded-For header: when the
    header is present and not empty the result is its text up to the
    first comma (the first hop, without trimming), whatever REMOTE_ADDR
    says; only without the header, or with an empty one, the result is
    REMOTE_ADDR. *)
Theorem get_client_ip_prefers_forwarded_header request :
  (∀ x, Py.get "HTTP_X_FORWARDED_FOR" (META request) = Some x → x ≠ "" →
     ∃ ip, get_client_ip request = Some ip ∧ ¬ substring_of "," ip ∧
           (x = ip ∨ ∃ rest, x = ip +:+ "," +:+ rest)) ∧
  (Py.get "HTTP_X_FORWARDED_FOR" (META request) = None ∨
   Py.get "HTTP_X_FORWARDED_FOR" (META request) = Some "" →
     get_client_ip request = Py.get "REMOTE_ADDR" (META request)).
Proof.
  pure_goal. unfold get_client_ip. split.
  - intros x -> Hx. simpl. apply truthy_true in Hx. rewrite Hx.
    eexists. split; [reflexivity|]. apply before_comma_split.
  - by intros [-> | ->].
Qed.

(** ** apps/users/permissions.py *)

(** [request.user and request.user.is_authenticated]: a user of the table
    is authenticated, the anonymous user is not. *)
Definition is_authenticated (requesting_user : option User) : bool :=
  match requesting_user with Some _ => true | None => false end.

Definition IsAdmin_has_permission (request : Request) : bool :=
  match user request with
  | Some requesting_user => bool_decide (role requesting_user = Role.ADMIN)
  | None => false
  end.

Definition IsAdminOrSupervisor_has_permission (request : Request) : bool :=
  match user request with
  | Some requesting_user =>
      bool_decide (role requesting_user ∈ [Role.ADMIN; Role.SUPERVISOR])
  | None => false
  end.

Definition SAFE_METHODS : list string := ["GET"; "HEAD"; "OPTIONS"].

(** [method] is [request.method]. *)
Definition IsAdminOrReadOnly_has_permission (method : string) (request : Request) : bool :=
  if bool_decide (method ∈ SAFE_METHODS) then is_authenticated (user request)
  else
    match user request with
    | Some requesting_user => bool_decide (role requesting_user = Role.ADMIN)
    | None => false
    end.

Definition IsOwnerOrAdmin_has_permission (request : Request) : bool :=
  is_authenticated (user request).

(** [has_object_permission] runs after [has_permission]: [requesting_user]
    is the authenticated [request.user]. *)
Definition IsOwnerOrAdmin_has_object_permission (requesting_user obj : User) : bool :=
  if bool_decide (role requesting_user = Role.ADMIN) then true
  else bool_decide (id obj = id requesting_user).

(** X15. The permission classes are ordered as their names say, and the
    requester they let through always gets the full representation:
    [IsAdmin] implies [IsAdminOrSupervisor] and [IsAdminOrReadOnly] for
    every method; for a method that is not safe [IsAdminOrReadOnly] is
    [IsAdmin]; [IsOwnerOrAdmin] lets a requester that is not an
    administrator reach its own record only; and a requester that passes
    the object permission, or that [list_users] accepts, or that looks at
    itself, sees the contact data that [UserPublicSerializer] hides from
    others. *)
Theorem permissions_and_visibility request requesting_user :
  user request = Some requesting_user →
  (IsAdmin_has_permission request = true →
     IsAdminOrSupervisor_has_permission request = true ∧
     ∀ method, IsAdminOrReadOnly_has_permission method request = true) ∧
  (∀ method, ¬ (method ∈ SAFE_METHODS) →
     IsAdminOrReadOnly_has_permission method request = IsAdmin_has_permission request) ∧
  (∀ obj, IsOwnerOrAdmin_has_object_permission requesting_user obj = true ↔
          role requesting_user = Role.ADMIN ∨ id obj = id requesting_user) ∧
  (∀ obj, IsOwnerOrAdmin_has_object_permission requesting_user obj = true →
          sees_contact_data request obj) ∧
  (∀ filters w qs w' obj,
     list_users filters (Some requesting_user) w = (inr qs, w') →
     sees_contact_data request obj) ∧
  sees_contact_data request requesting_user.
Proof.
  pure_goal. intros Hu.
  unfold IsAdmin_has_permission, IsAdminOrSupervisor_has_permission,
    IsAdminOrReadOnly_has_permission, IsOwnerOrAdmin_has_object_permission,
    sees_contact_data.
  rewrite Hu. split; [|split; [|split; [|split; [|split]]]].
  - intros Ha%bool_decide_eq_true_1. split.
    + apply bool_decide_eq_true_2. rewrite Ha. by left.
    + intros method. case_bool_decide; [done|]. by apply bool_decide_eq_true_2.
  - intros method Hm. by rewrite bool_decide_eq_false_2.
  - intros obj. case_bool_decide as Hr.
    + split; [by left|done].
    + rewrite bool_decide_eq_true. split; [by right|]. by intros [?|?].
  - intros obj. case_bool_decide as Hr.
    + intros _. left. by rewrite Hr.
    + intros Hi%bool_decide_eq_true_1. by right.
  - intros filters w qs w' obj. unfold list_users.
    case_bool_decide as Hr; [by unfold bind, logger, raise|].
    intros _. left. intros Hc. rewrite Hc in Hr. unfold ALLOWED_LIST_ROLES in Hr.
    rewrite !elem_of_union, !elem_of_singleton in Hr. by destruct Hr as [[?|?]|?].
  - by right.
Qed.

(** ** apps/users/views.py: suspending and activating *)

(** [UserSuspendView.post] with [actor_user] for [request.user].  The
    [PermissionDenied] the view catches is the one of [rest_framework];
    the services raise the one of [django.core.exceptions], which that
    clause does not catch: it reaches [except Exception]. *)
Definition UserSuspendView_post (request : Request) (actor_user : User) (id : nat)
    : M Response :=
  let ip_address := get_client_ip request in
  do r <- try_except
            (do user_ <- suspend_user id actor_user ip_address; ret (inr user_))
            (λ e,
               match e with
               | DoesNotExist =>
                   ret (inl (mkResponse (JObj [("detail", JStr "Usuario no encontrado")]) 404))
               | _ =>
                   logger ERROR ("Error al suspender usuario: " +:+ str_exn e) ;;;
                   ret (inl (mkResponse (JObj [("detail", JStr (str_exn e))]) 400))
               end);
  match r with
  | inl response => ret response
  | inr _ => ret (mkResponse (JObj [("detail", JStr "user suspended")]) 200)
  end.

Definition UserActivateView_post (request : Request) (actor_user : User) (id : nat)
    : M Response :=
  let ip_address := get_client_ip request in
  do r <- try_except
            (do user_ <- activate_user id actor_user ip_address; ret (inr user_))
            (λ e,
               match e with
               | DoesNotExist =>
                   ret (inl (mkResponse (JObj [("detail", JStr "Usuario no encontrado")]) 404))
               | _ =>
                   logger ERROR ("Error al activar usuario: " +:+ str_exn e) ;;;
                   ret (inl (mkResponse (JObj [("detail", JStr (str_exn e))]) 400))
               end);
  match r with
  | inl response => ret response
  | inr _ => ret (mkResponse (JObj [("detail", JStr "user activated")]) 200)
  end.

Lemma view_ok {A} (m : M A) (h : exn → M (Response + A)) (ok : Response) w a w' :
  m w = (inr a, w') →
  (do r <- try_except (do x <- m; ret (inr x)) h;
   match r with inl response => ret response | inr _ => ret ok end) w = (inr ok, w').
Proof.
  pure_goal. intros E. erewrite bind_inr; cycle 1.
  { erewrite try_inr; [reflexivity|]. by erewrite bind_inr. }
  reflexivity.
Qed.

Lemma status_after_replace (us : list User) u u' s :
  NoDup (id <$> us) → id u' = id u → status u' = s →
  ∀ r, r ∈ (λ r, if bool_decide (id r = id u) then u' else r) <$> us →
       id r = id u → status r = s.
Proof.
  pure_goal. intros Hnd Hi Hs r [x [-> Hx]]%list_elem_of_fmap.
  by case_bool_decide.
Qed.

(** X16. The suspend and activate endpoints, for a requester [IsAdmin]
    lets through and a consistent table: for the key of an existing user
    the answer is always 200 ('user suspended' / 'user activated'),
    whatever the status was, and afterwards that user's row has the
    target status while the keys of the table are unchanged; for a key no
    row carries the answer is 404 'Usuario no encontrado' and no table is
    written. *)
Theorem suspend_and_activate_views request actor uid w :
  user request = Some actor → IsAdmin_has_permission request = true →
  db_ok (users w) →
  (∀ u, u ∈ users w → id u = uid →
     (∃ w', UserSuspendView_post request actor uid w =
              (inr (mkResponse (JObj [("detail", JStr "user suspended")]) 200), w') ∧
        id <$> users w' = id <$> users w ∧
        ∀ r, r ∈ users w' → id r = uid → status r = Status.SUSPENDED) ∧
     (∃ w', UserActivateView_post request actor uid w =
              (inr (mkResponse (JObj [("detail", JStr "user activated")]) 200), w') ∧
        id <$> users w' = id <$> users w ∧
        ∀ r, r ∈ users w' → id r = uid → status r = Status.ACTIVE)) ∧
  ((∀ u, u ∈ users w → id u ≠ uid) →
     ∃ w', UserSuspendView_post request actor uid w =
             (inr (mkResponse (JObj [("detail", JStr "Usuario no encontrado")]) 404), w') ∧
           UserActivateView_post request actor uid w =
             (inr (mkResponse (JObj [("detail", JStr "Usuario no encontrado")]) 404), w') ∧
           tables w' = tables w).
Proof.
  pure_goal. intros Hu Hperm Hdb. unfold IsAdmin_has_permission in Hperm.
  rewrite Hu in Hperm. apply bool_decide_eq_true_1 in Hperm.
  pose proof Hdb as (Hnd & _).
  split.
  - intros u Hin <-. split.
    + destruct (decide (status u = Status.SUSPENDED)) as [Hs|Hs].
      * destruct (suspend_noop w actor (id u) u (get_client_ip request))
          as (w' & E & Hus & _); [done|by apply find_by_id|done|].
        exists w'. split; [by apply view_ok with (a := u)|]. rewrite Hus.
        split; [done|]. intros r Hr Hi.
        by rewrite (NoDup_fmap_eq id (users w) r u).
      * destruct (suspend_transition w actor u (get_client_ip request))
          as (u' & w' & E & Hs' & Hi' & Hus & _); [done..|].
        exists w'. split; [by apply view_ok with (a := u')|]. rewrite Hus.
        split; [|by apply status_after_replace].
        rewrite <- list_fmap_compose. apply list_fmap_ext. intros i r _. simpl.
        case_bool_decide; congruence.
    + destruct (decide (status u = Status.ACTIVE)) as [Hs|Hs].
      * destruct (activate_noop w actor (id u) u (get_client_ip request))
          as (w' & E & Hus & _); [done|by apply find_by_id|done|].
        exists w'. split; [by apply view_ok with (a := u)|]. rewrite Hus.
        split; [done|]. intros r Hr Hi.
        by rewrite (NoDup_fmap_eq id (users w) r u).
      * destruct (activate_transition w actor u (get_client_ip request))
          as (u' & w' & E & Hs' & Hi' & Hus & _); [done..|].
        exists w'. split; [by apply view_ok with (a := u')|]. rewrite Hus.
        split; [|by apply status_after_replace].
        rewrite <- list_fmap_compose. apply list_fmap_ext. intros i r _. simpl.
        case_bool_decide; congruence.
  - intros Hmiss. apply find_missing in Hmiss.
    assert (User_objects_get uid w = (inl DoesNotExist, w)) as Hget.
    { unfold User_objects_get. by rewrite Hmiss. }
    eexists. unfold UserSuspendView_post, UserActivateView_post,
      suspend_user, activate_user.
    rewrite !bool_decide_eq_false_2 by (by intros ?).
    split; [|split].
    + erewrite bind_inr; cycle 1.
      { erewrite try_inl; cycle 1.
        { erewrite bind_inl; [reflexivity|].
          erewrite try_inl; [|by erewrite bind_inl]. reflexivity. }
        reflexivity. }
      reflexivity.
    + erewrite bind_inr; cycle 1.
      { erewrite try_inl; cycle 1.
        { erewrite bind_inl; [reflexivity|].
          erewrite try_inl; [|by erewrite bind_inl]. reflexivity. }
        reflexivity. }
      reflexivity.
    + done.
Qed.

(** ** The serializers of the user views *)

(** [UserCreateByAdminSerializer]: [validate_role], [validate_status] *)
Definition validate_role (value : string) : string + string :=
  if bool_decide (value ∈ Role.choices) then inr value
  else inl ("Rol inválido. Opciones: " +:+ Py.join ", " Role.choices).

Definition validate_status (value : string) : string + string :=
  if bool_decide (value ∈ Status.choices) then inr value
  else inl ("Estado inválido. Opciones: " +:+ Py.join ", " Status.choices).

(** The fields of [UserCreateByAdminSerializer.Meta] with their
    [required] flag. *)
Definition create_by_admin_fields : list (string * bool) :=
  [("full_name", true); ("id_type", true); ("id_number", true);
   ("email_primary", true); ("phone", true); ("birth_date", true);
   ("password", true); ("email_secondary", false); ("address", false);
   ("profile_photo_url", false); ("role", true); ("status", true)].

Definition create_by_admin_validate (w : World) (name value : string) : string + string :=
  if bool_decide (name = "email_primary") then validate_email_primary value w
  else if bool_decide (name = "password") then
    match validate_password value with Some e => inl e | None => inr value end
  else if bool_decide (name = "role") then validate_role value
  else if bool_decide (name = "status") then validate_status value
  else inr value.

Definition UserCreateByAdminSerializer_is_valid (initial_data : Py.dict string) (w : World)
    : Py.dict string + Py.dict string :=
  validated None w
    (run_declared_fields (cleaned None w (create_by_admin_validate w)) false
       create_by_admin_fields initial_data).

(** [UserListView.create], with [actor_user] for [request.user].  The
    [PermissionDenied] clause is the one of [rest_framework] and catches
    nothing [create_user_by_admin] raises. *)
Definition UserListView_create (request : Request) (actor_user : User) : M Response :=
  do serializer <- (λ w, (inr (UserCreateByAdminSerializer_is_valid (data request) w), w));
  match serializer with
  | inl errors => ret (mkResponse (errors_json errors) 400)
  | inr validated_data =>
      let ip_address := get_client_ip request in
      do r <- try_except
                (do user_ <- create_user_by_admin validated_data
                               actor_user ip_address;
                 ret (inr user_))
                (λ e,
                   logger ERROR ("Error al crear usuario: " +:+ str_exn e) ;;;
                   ret (inl (mkResponse (JObj [("detail", JStr (str_exn e))]) 400)));
      match r with
      | inl response => ret response
      | inr user_ => ret (mkResponse (UserPublicSerializer user_ request) 201)
      end
  end.

(** What a successful [create_user_by_admin] has done. *)
Lemma create_user_by_admin_inv data actor ip w u w' :
  create_user_by_admin data actor ip w = (inr u, w') →
  role actor = Role.ADMIN ∧
  ∃ pw e u1 w2,
    Py.get "password" data = Some pw ∧ pw ≠ "" ∧
    Py.get "email_primary" (Py.remove "password" data) = Some e ∧
    init_kwargs (Py.remove "email_primary" (Py.remove "password" data))
      (mkUser (next_id w) "" "" "" None "" None None (normalize_email e) None
              Role.CLIENT Status.ACTIVE "" 0 0 None) = inr u1 ∧
    save (set_password pw u1) (snd (uuid4 w)) = (inr u, w2) ∧
    users w' = users w2 ∧
    audit_logs w' =
      audit_logs w2 ++
      emitted w2 (audit_row w2 (Some actor) constants.USER_CREATED_BY_ADMIN "User"
                    (Some (id u))
                    [("created_user_email", JStr (email_primary u));
                     ("created_user_role", JStr (role u));
                     ("created_user_status", JStr (status u));
                     ("created_by", JStr (str_id (id actor)))] ip).
Proof.
  intros H. unfold create_user_by_admin in H.
  case_bool_decide as Hr; [done|]. split; [by destruct (decide (role actor = Role.ADMIN))|].
  unfold try_except in H.
  match type of H with match ?b w with _ => _ end = _ =>
    destruct (b w) as [[ex|u0] w0] eqn:B end.
  { destruct ex; unfold bind, logger, raise in H; simpl in H; done. }
  simplify_eq. unfold Py.pop in B.
  destruct (Py.get "password" data) as [pw|] eqn:Epw; simpl in B; [|done].
  destruct (Py.truthy pw) eqn:Tpw; simpl in B; [|done].
  apply bind_inv_inr in B as ([e kwargs] & s1 & P & B).
  unfold pop_required in P.
  destruct (Py.get "email_primary" _) as [e'|] eqn:Ee; [|done].
  unfold ret in P. simplify_eq.
  apply bind_inv_inr in B as (u3 & s2 & C & B).
  unfold create_user in C. simpl in C.
  destruct (Py.truthy e) eqn:Te; simpl in C; [|done].
  apply bind_inv_inr in C as (u1 & s3 & I & Sv).
  unfold User_init in I. apply bind_inv_inr in I as (pk & s4 & U & I).
  unfold uuid4 in U. simplify_eq. simpl in I.
  destruct (init_kwargs _ _) as [|u1'] eqn:Ei; [done|].
  unfold ret in I. simplify_eq.
  apply bind_inv_inr in B as (r & s5 & L & B).
  apply bind_inv_inr in B as ([] & s6 & Lg & B).
  unfold ret in B. unfold logger in Lg. simplify_eq.
  match type of L with log_audit_event ?a ?b ?c ?d (Some ?md) ?i ?ww = _ =>
    destruct (log_audit_event_stored a b c d md i ww) as (r' & w3 & E & Hu & Hl);
      [done|done|] end.
  rewrite E in L. simplify_eq.
  rewrite Tpw in Sv. exists pw, e, u1, s2.
  split; [done|]. split; [by apply truthy_true|]. done.
Qed.

Lemma create_by_admin_fields_NoDup : NoDup create_by_admin_fields.*1.
Proof. pure_goal. apply (bool_decide_unpack _). by vm_compute. Qed.

#[local] Opaque create_by_admin_fields.

(** X17. What [UserListView.create] creates.  A 201 answer means: the
    requester is an administrator; the request carried an email, a
    password, a role and a status that passed the validation of their
    fields, the password also the password validators, the role and the
    status being among the choices; one user was created with exactly
    that role and status, with the validated email, stripped and
    lower-cased (which is the email of no user), as [normalize_email]
    stores it, and with the hashed password; the body is its public
    representation; and one USER_CREATED_BY_ADMIN event with the
    administrator as actor and the new user as entity was handed to the
    audit log. *)
Theorem UserListView_create_created request actor w body_ w' :
  UserListView_create request actor w = (inr (mkResponse body_ 201), w') →
  role actor = Role.ADMIN ∧
  ∃ u e0 e1 p0 pw ro0 st0,
    Py.get "email_primary" (data request) = Some e0 ∧
    clean None (users w) "email_primary" e0 = inr e1 ∧
    (∀ r, r ∈ users w → email_primary r ≠ lower (strip e1)) ∧
    Py.get "password" (data request) = Some p0 ∧
    clean None (users w) "password" p0 = inr pw ∧ validate_password pw = None ∧
    Py.get "role" (data request) = Some ro0 ∧
    clean None (users w) "role" ro0 = inr (role u) ∧ role u ∈ Role.choices ∧
    Py.get "status" (data request) = Some st0 ∧
    clean None (users w) "status" st0 = inr (status u) ∧ status u ∈ Status.choices ∧
    u ∈ users w' ∧
    email_primary u = normalize_email (lower (strip e1)) ∧
    password u = make_password pw ∧
    body_ = UserPublicSerializer u request ∧
    ∃ row,
      audit_logs w' = audit_logs w ++ emitted w row ∧
      action row = constants.USER_CREATED_BY_ADMIN ∧
      actor_user row = Some (id actor) ∧ entity_id row = Some (id u) ∧
      metadata row =
        [("created_user_email", JStr (email_primary u));
         ("created_user_role", JStr (role u));
         ("created_user_status", JStr (status u));
         ("created_by", JStr (str_id (id actor)))] ∧
      ip_address row = get_client_ip request.
Proof.
  unfold UserListView_create, bind.
  destruct (UserCreateByAdminSerializer_is_valid _ _) as [errors|vd] eqn:Ev; [done|].
  unfold try_except.
  destruct (create_user_by_admin _ _ _ _) as [[e|u] w1] eqn:Ec; [done|].
  intros [= <- <-].
  unfold UserCreateByAdminSerializer_is_valid in Ev.
  apply validated_inr in Ev as (Herr & -> & _).
  set (vd := field_values _) in *.
  assert (NoDup (Py.keys vd)) as Hnd.
  { eapply sublist_NoDup;
      first [apply declared_values_sublist|apply create_by_admin_fields_NoDup]. }
  apply create_user_by_admin_inv in Ec
    as (Hadmin & pw & e & u1 & w2 & Epw & Hpw & Ee & Ei & Sv & Hu & Hl).
  split; [done|].
  rewrite get_remove_ne in Ee by done.
  apply declared_values_get in Epw as (p0 & Hp0 & Hvp).
  apply declared_values_get in Ee as (e0 & He0 & Hve).
  apply cleaned_inr in Hvp as (p1 & Hcp & Hvp).
  apply cleaned_inr in Hve as (e1 & Hce & Hve).
  unfold create_by_admin_validate in Hvp, Hve. simpl in Hvp, Hve.
  destruct (validate_password p1) eqn:Evp; [done|]. injection Hvp as ->.
  unfold validate_email_primary in Hve.
  destruct (email_exists _ w) eqn:Eex; [done|]. injection Hve as <-.
  assert (∀ r, r ∈ users w → email_primary r ≠ lower (strip e1)) as Hfree.
  { intros r Hr Heq. unfold email_exists in Eex.
    rewrite (existsb_true _ _ r) in Eex; [done|done|by apply bool_decide_eq_true]. }
  destruct (declared_values_required (cleaned None w (create_by_admin_validate w))
              create_by_admin_fields (data request) "role" Herr) as [ro Hro].
  { apply (bool_decide_unpack _). by vm_compute. }
  destruct (declared_values_required (cleaned None w (create_by_admin_validate w))
              create_by_admin_fields (data request) "status" Herr) as [st Hst].
  { apply (bool_decide_unpack _). by vm_compute. }
  fold vd in Hro, Hst.
  pose proof Hro as Hro'. pose proof Hst as Hst'.
  apply declared_values_get in Hro' as (ro0 & Hro0 & Hvr).
  apply declared_values_get in Hst' as (st0 & Hst0 & Hvs).
  apply cleaned_inr in Hvr as (ro1 & Hcr & Hvr).
  apply cleaned_inr in Hvs as (st1 & Hcs & Hvs).
  unfold create_by_admin_validate in Hvr, Hvs. simpl in Hvr, Hvs.
  unfold validate_role in Hvr. unfold validate_status in Hvs.
  case_bool_decide as Hrc; [|done]. case_bool_decide as Hsc; [|done].
  injection Hvr as <-. injection Hvs as <-.
  set (kwargs := Py.remove "email_primary" _) in Ei.
  assert (NoDup (Py.keys kwargs)) as Hk.
  { by apply NoDup_keys_remove, NoDup_keys_remove. }
  assert (Py.get "role" kwargs = Some ro1) as Hrole.
  { unfold kwargs. by rewrite !get_remove_ne. }
  assert (Py.get "status" kwargs = Some st1) as Hstatus.
  { unfold kwargs. by rewrite !get_remove_ne. }
  assert (Py.get "email_primary" kwargs = None) as Hemail.
  { apply get_None_keys. unfold kwargs. rewrite keys_remove. prop. }
  pose proof (init_kwargs_getattr _ _ _ c_role Ei Hk) as G1.
  pose proof (init_kwargs_getattr _ _ _ c_status Ei Hk) as G2.
  pose proof (init_kwargs_getattr _ _ _ c_email_primary Ei Hk) as G3.
  simpl in G1, G2, G3. rewrite Hrole in G1. rewrite Hstatus in G2. rewrite Hemail in G3.
  injection G1 as G1. injection G2 as G2. injection G3 as G3.
  destruct (save_frame _ _ _ _ Sv) as (Fa & _ & _ & _ & Ff).
  apply save_result in Sv as ((ca & ua & ->) & Hin & _).
  set (u2 := set_password pw u1) in *.
  assert (role u2 = ro1 ∧ status u2 = st1 ∧
          email_primary u2 = normalize_email (lower (strip e1)) ∧
          password u2 = make_password pw) as (R1 & R2 & R3 & R4).
  { unfold u2, set_password. by destruct u1; simplify_eq/=. }
  assert (role (set_timestamps ca ua u2) = role u2 ∧
          status (set_timestamps ca ua u2) = status u2 ∧
          email_primary (set_timestamps ca ua u2) = email_primary u2 ∧
          password (set_timestamps ca ua u2) = password u2) as (T1 & T2 & T3 & T4)
    by (by destruct u2).
  exists (set_timestamps ca ua u2), e0, e1, p0, pw, ro0, st0.
  rewrite T1, T2, T3, T4, R1, R2, R3, R4.
  do 6 (split; [done|]). do 3 (split; [done|]). do 3 (split; [done|]).
  split; [by rewrite Hu|]. do 3 (split; [done|]).
  eexists. split; [rewrite Hl, Fa; unfold emitted; rewrite Ff; reflexivity|].
  simpl. by rewrite T1, T2, T3, R1, R2, R3.
Qed.


(** The fields of [UserMeUpdateSerializer.Meta]; none is required. *)
Definition me_fields : list (string * bool) :=
  [("full_name", false); ("phone", false); ("address", false);
   ("email_secondary", false); ("profile_photo_url", false); ("password", false)].

Definition me_validate (name value : string) : string + string :=
  if bool_decide (name = "password") then
    match validate_password value with Some e => inl e | None => inr value end
  else inr value.

(** [UserMeUpdateSerializer(instance, data, partial=True).is_valid()]: the
    declared fields, then [validate(attrs)] on what they delivered. *)
(** [UserMeUpdateSerializer(instance, data, partial=True).is_valid()]: the
    declared fields, then [validate(attrs)] on what they delivered. *)
Definition UserMeUpdateSerializer_is_valid (instance : User)
    (initial_data : Py.dict string) (w : World) : Py.dict string + Py.dict string :=
  let results :=
    run_declared_fields (cleaned (Some instance) w me_validate) true me_fields
      initial_data in
  match field_errors results with
  | [] =>
      match UserMeUpdateSerializer_validate (field_values results) with
      | inl e => inl [("non_field_errors", e)]
      | inr attrs => inr attrs
      end
  | errors => inl errors
  end.

(** [UserMeView.patch]: the state is [request.user], which
    [update_self_user] mutates, and the world. *)
Definition UserMeView_patch (request : Request) : St (User * World) Response :=
  do serializer <-
    (λ '(u, w), (inr (UserMeUpdateSerializer_is_valid u (data request) w), (u, w)));
  match serializer with
  | inl errors => ret (mkResponse (errors_json errors) 400)
  | inr validated_data =>
      let ip_address := get_client_ip request in
      do r <- try_except
                (do user_ <- update_self_user validated_data ip_address;
                 ret (inr user_))
                (λ e,
                   with_world (logger ERROR ("Error al actualizar perfil propio: "
                                             +:+ str_exn e)) ;;;
                   ret (inl (mkResponse (JObj [("detail", JStr (str_exn e))]) 400)));
      match r with
      | inl response => ret response
      | inr user_ => ret (mkResponse (UserPublicSerializer user_ request) 200)
      end
  end.

Lemma me_fields_NoDup : NoDup me_fields.*1.
Proof. pure_goal. apply (bool_decide_unpack _). by vm_compute. Qed.

Lemma me_fields_editable k : k ∈ me_fields.*1 → k ∈ SELF_EDITABLE_FIELDS.
Proof.
  pure_goal. unfold me_fields, SELF_EDITABLE_FIELDS.
  rewrite !fmap_cons, !elem_of_cons, !elem_of_union, !elem_of_singleton, fmap_nil,
    elem_of_nil. simpl. tauto.
Qed.

Lemma editable_not_prohibited k :
  k ∈ SELF_EDITABLE_FIELDS → ¬ (k ∈ SELF_PROHIBITED_FIELDS) ∧ ¬ (k ∈ PROHIBITED_FIELDS).
Proof.
  pure_goal. unfold SELF_EDITABLE_FIELDS, SELF_PROHIBITED_FIELDS, PROHIBITED_FIELDS.
  rewrite !elem_of_union, !elem_of_singleton.
  intros H. split; intros H'.
  - repeat (destruct H as [H|H]); subst;
      repeat (destruct H' as [H'|H']); done.
  - repeat (destruct H as [H|H]); subst;
      repeat (destruct H' as [H'|H']); done.
Qed.

Lemma run_declared_fields_ext validate_field partial fs d d' :
  (∀ k, k ∈ fs.*1 → Py.get k d = Py.get k d') →
  run_declared_fields validate_field partial fs d =
  run_declared_fields validate_field partial fs d'.
Proof.
  pure_goal. induction fs as [|f fs IH]; [done|]. intros H.
  rewrite !run_declared_fields_cons. unfold run_declared_field.
  rewrite (H f.1) by (rewrite fmap_cons; left).
  rewrite IH; [done|]. intros k Hk. apply H. rewrite fmap_cons. by right.
Qed.

Lemma declared_values_present validate_field partial fs d k v v' :
  k ∈ fs.*1 → Py.get k d = Some v → validate_field k v = inr v' →
  Py.get k (field_values (run_declared_fields validate_field partial fs d)) = Some v'.
Proof.
  pure_goal. intros Hk Hg Hv. induction fs as [|f fs IH]; [by apply elem_of_nil in Hk|].
  rewrite run_declared_fields_cons. unfold run_declared_field at 1.
  destruct (decide (f.1 = k)) as [->|Hne].
  - rewrite Hg, field_values_cons. simpl. rewrite Hv, get_cons.
    by rewrite String.eqb_refl.
  - rewrite fmap_cons in Hk. apply elem_of_cons in Hk as [->|Hk]; [done|].
    destruct (Py.get f.1 d).
    + rewrite field_values_cons. simpl. destruct (validate_field f.1 s); [by apply IH|].
      rewrite get_cons. destruct (String.eqb_spec k f.1) as [->|]; [done|]. by apply IH.
    + destruct (f.2 && negb partial); [|by apply IH].
      rewrite field_values_cons. simpl. by apply IH.
Qed.

(** The key of a field error is a declared field. *)
Lemma declared_errors_declared validate_field partial fs d k :
  k ∈ Py.keys (field_errors (run_declared_fields validate_field partial fs d)) →
  k ∈ fs.*1.
Proof.
  pure_goal. intros Hk. unfold field_errors in Hk.
  apply list_elem_of_fmap in Hk as ([k1 e1] & -> & Hx).
  apply list_elem_of_omap in Hx as ([k2 r] & Hx & Hy). simpl in Hy.
  destruct r as [e2|]; [|done]. injection Hy as -> ->.
  unfold run_declared_fields in Hx.
  apply list_elem_of_omap in Hx as (f & Hf & Hr).
  unfold run_declared_field in Hr.
  apply list_elem_of_fmap. exists f. split; [|done].
  destruct (Py.get f.1 d); [by injection Hr|].
  destruct (f.2 && negb partial); by simplify_eq.
Qed.

Lemma declared_no_errors validate_field fs d :
  (∀ k v, k ∈ fs.*1 → Py.get k d = Some v → ∃ v', validate_field k v = inr v') →
  field_errors (run_declared_fields validate_field true fs d) = [].
Proof.
  pure_goal. intros Hok. induction fs as [|f fs IH]; [done|].
  rewrite run_declared_fields_cons. unfold run_declared_field at 1.
  rewrite andb_false_r.
  assert (field_errors (run_declared_fields validate_field true fs d) = []) as IH'.
  { apply IH. intros k v Hk. apply Hok. rewrite fmap_cons. by right. }
  destruct (Py.get f.1 d) as [v|] eqn:Eg; [|done].
  destruct (Hok f.1 v) as [v' Hv]; [rewrite fmap_cons; by left|done|].
  unfold field_errors. cbn [omap list_omap]. simpl. by rewrite Hv.
Qed.

#[local] Opaque me_fields.

(** X18. [UserMeView.patch] reads the six declared fields of the body and
    nothing else: two bodies that agree on them are answered alike.  Its
    validation reports errors on declared fields only: the
    prohibited-field check of the serializer, and that of
    [update_self_user] behind it, never fire, because no other key
    reaches them.  So for a user of a consistent table, a body with at
    least one declared field, whose declared fields pass the validation of
    their fields and whose password passes the password validators, is
    answered 200 whatever other keys it carries (role, status, ...): the
    declared fields are applied as validated and the protected attributes
    keep their values. *)
Theorem UserMeView_patch_reads_declared_fields request me w :
  (∀ errors k, UserMeUpdateSerializer_is_valid me (data request) w = inl errors →
     k ∈ Py.keys errors → k ∈ me_fields.*1) ∧
  (∀ request',
     (∀ k, k ∈ me_fields.*1 → Py.get k (data request') = Py.get k (data request)) →
     META request' = META request → user request' = user request →
     UserMeView_patch request' (me, w) = UserMeView_patch request (me, w)) ∧
  (db_ok (users w) → me ∈ users w →
   (∃ k, k ∈ me_fields.*1 ∧ k ∈ Py.keys (data request)) →
   (∀ k v, k ∈ me_fields.*1 → Py.get k (data request) = Some v →
      ∃ v', clean (Some me) (users w) k v = inr v' ∧
            (k = "password" → validate_password v' = None)) →
   ∃ u' w',
     UserMeView_patch request (me, w) =
       (inr (mkResponse (UserPublicSerializer u' request) 200), (u', w')) ∧
     protected u' = protected me ∧
     ∀ c v v', c ≠ c_password → column_name c ∈ me_fields.*1 →
               Py.get (column_name c) (data request) = Some v →
               clean (Some me) (users w) (column_name c) v = inr v' →
               getattr c u' = Some v').
Proof.
  set (results d := run_declared_fields (cleaned (Some me) w me_validate) true me_fields d).
  assert (∀ d, NoDup (Py.keys (field_values (results d)))) as Hnd.
  { intros d. eapply sublist_NoDup;
      first [apply declared_values_sublist|apply me_fields_NoDup]. }
  assert (∀ d k, k ∈ Py.keys (field_values (results d)) → k ∈ SELF_EDITABLE_FIELDS)
    as Hed.
  { intros d k Hk. apply me_fields_editable.
    eapply elem_of_sublist; [exact Hk|apply declared_values_sublist]. }
  assert (∀ d, UserMeUpdateSerializer_validate (field_values (results d))
               = inr (field_values (results d))) as Hval.
  { intros d. unfold UserMeUpdateSerializer_validate.
    rewrite bool_decide_eq_false_2; [done|]. intros Hne. apply Hne.
    apply set_eq. intros k. rewrite elem_of_intersection, elem_of_keyset.
    split; [|by intros ?%elem_of_empty]. intros [Hk Hp].
    by destruct (editable_not_prohibited k (Hed d k Hk)). }
  split; [|split].
  - intros errors k. unfold UserMeUpdateSerializer_is_valid. fold (results (data request)).
    rewrite Hval. destruct (field_errors _) as [|x l] eqn:E; [done|].
    intros [= <-] Hk. rewrite <- E in Hk.
    by apply declared_errors_declared in Hk.
  - intros request' Hd Hm Hu.
    unfold UserMeView_patch, bind, UserMeUpdateSerializer_is_valid.
    rewrite (run_declared_fields_ext (cleaned (Some me) w me_validate) true
               me_fields _ _ Hd).
    unfold get_client_ip, UserPublicSerializer. by rewrite Hm, Hu.
  - intros Hdb Hin (k0 & Hk0 & Hk0') Hclean.
    assert (∀ k v, k ∈ me_fields.*1 → Py.get k (data request) = Some v →
                   ∃ v', clean (Some me) (users w) k v = inr v' ∧
                         cleaned (Some me) w me_validate k v = inr v') as Hok.
    { intros k v Hk Hg. destruct (Hclean k v Hk Hg) as (v' & Hc & Hp).
      exists v'. split; [done|]. unfold cleaned. rewrite Hc.
      unfold me_validate. case_bool_decide as E; [|done]. by rewrite (Hp E). }
    assert (field_errors (results (data request)) = []) as Herr.
    { apply declared_no_errors. intros k v Hk Hg.
      destruct (Hok k v Hk Hg) as (v' & _ & Hv). by exists v'. }
    destruct (Py.get k0 (data request)) as [v0|] eqn:Hv0;
      [|by apply get_None_keys in Hv0].
    destruct (Hok k0 v0 Hk0 Hv0) as (v0' & _ & Hv0').
    pose proof (declared_values_present (cleaned (Some me) w me_validate) true me_fields
                  (data request) k0 v0 v0' Hk0 Hv0 Hv0') as Hpresent.
    fold (results (data request)) in Hpresent.
    set (vd := field_values (results (data request))) in *.
    destruct (self_update_saved vd (get_client_ip request) me w) as (w' & Erun & _);
      [done|done| | |].
    { intros k Hk. by destruct (editable_not_prohibited k (Hed _ k Hk)). }
    { exists k0. split; [|by apply me_fields_editable].
      apply dec_stable. intros Hn. apply get_None_keys in Hn. congruence. }
    set (allowed := filter (λ kv : string * string, kv.1 ∈ SELF_EDITABLE_FIELDS) vd) in *.
    set (u2 := admin_updated allowed me) in *.
    eexists _, w'. split; [|split].
    + unfold UserMeView_patch, UserMeUpdateSerializer_is_valid.
      erewrite bind_inr; cycle 1.
      { fold (results (data request)). fold vd. rewrite Herr. unfold vd at 1.
        rewrite Hval. fold vd. reflexivity. }
      cbv beta iota.
      erewrite bind_inr; cycle 1.
      { erewrite try_inr; [reflexivity|]. by erewrite bind_inr. }
      reflexivity.
    + rewrite protected_set_timestamps. apply self_updated_protected.
    + intros c v v' Hc Hf Hg Hcl. rewrite set_timestamps_getattr.
      apply admin_updated_assigned; [|done|].
      * apply (NoDup_keys_filter (λ k, k ∈ SELF_EDITABLE_FIELDS)), Hnd.
      * unfold allowed.
        rewrite (get_filter (λ k, k ∈ SELF_EDITABLE_FIELDS)) by by apply me_fields_editable.
        apply (declared_values_present _ _ _ _ _ v v'); [done|done|].
        destruct (Hok _ v Hf Hg) as (v'' & Hc'' & Hv''). congruence.
Qed.

(** ** [UserUpdateByAdminSerializer]: the field validators *)

(** [validate_email_primary], with [self.instance]. *)
Definition update_validate_email_primary (instance : option User) (value : string)
    (w : World) : string + string :=
  if Py.truthy value then
    let value := lower (strip value) in
    match instance with
    | Some instance =>
        if existsb (λ u, bool_decide (email_primary u = value) &&
                         negb (bool_decide (id u = id instance))) (users w)
        then inl "Este email ya está en uso" else inr value
    | None => inr value
    end
  else inr value.

Definition update_validate_role (value : string) : string + string :=
  if Py.truthy value then
    if bool_decide (value ∈ Role.choices) then inr value
    else inl ("Rol inválido. Opciones: " +:+ Py.join ", " Role.choices)
  else inr value.

Definition update_validate_status (value : string) : string + string :=
  if Py.truthy value then
    if bool_decide (value ∈ Status.choices) then inr value
    else inl ("Estado inválido. Opciones: " +:+ Py.join ", " Status.choices)
  else inr value.

(** X20. The email validator of the admin update excludes the user being
    updated: with unique emails, a value whose normal form
    ([strip().lower()]) is the user's own stored email is accepted and
    returned in that form, a value whose normal form is another user's
    stored email is refused with 'Este email ya está en uso', and a value
    whose normal form no row has is accepted.  The empty value skips
    every check, in all three validators. *)
Theorem update_serializer_email_excludes_instance instance w :
  NoDup (email_primary <$> users w) → instance ∈ users w →
  (∀ value, value ≠ "" → lower (strip value) = email_primary instance →
     update_validate_email_primary (Some instance) value w
       = inr (email_primary instance)) ∧
  (∀ value other, value ≠ "" → other ∈ users w → id other ≠ id instance →
     lower (strip value) = email_primary other →
     update_validate_email_primary (Some instance) value w
       = inl "Este email ya está en uso") ∧
  (∀ value, value ≠ "" →
     (∀ u, u ∈ users w → email_primary u ≠ lower (strip value)) →
     update_validate_email_primary (Some instance) value w
       = inr (lower (strip value))) ∧
  update_validate_email_primary (Some instance) "" w = inr "" ∧
  update_validate_role "" = inr "" ∧ update_validate_status "" = inr "".
Proof.
  pure_goal. intros Hnd Hin. unfold update_validate_email_primary.
  split; [|split; [|split]].
  - intros value Hv He. apply truthy_true in Hv. rewrite Hv. simpl.
    rewrite existsb_false; [by rewrite He|].
    intros u Hu. rewrite He.
    destruct (decide (email_primary u = email_primary instance)) as [E|E].
    + rewrite (NoDup_fmap_eq email_primary (users w) u instance) by done.
      rewrite (bool_decide_eq_true_2 (id instance = id instance)) by done.
      apply andb_false_r.
    + by rewrite bool_decide_eq_false_2.
  - intros value other Hv Ho Hne He. apply truthy_true in Hv. rewrite Hv. simpl.
    rewrite (existsb_true _ _ other Ho); [done|].
    rewrite bool_decide_eq_true_2 by done. by rewrite bool_decide_eq_false_2.
  - intros value Hv Hfree. apply truthy_true in Hv. rewrite Hv. simpl.
    rewrite existsb_false; [done|].
    intros u Hu. by rewrite bool_decide_eq_false_2 by by apply Hfree.
  - done.
Qed.


(** ** [UserDetailView]: the administrator's update endpoint *)

(** The exceptions of the framework a view raises instead of answering. *)
Inductive api_exception :=
  | NotFound (detail : string)
  | APIPermissionDenied (detail : string).

(** The fields of [UserUpdateByAdminSerializer.Meta]; none is required. *)
Definition update_by_admin_fields : list (string * bool) :=
  [("full_name", false); ("id_type", false); ("id_number", false);
   ("email_primary", false); ("phone", false); ("birth_date", false);
   ("password", false); ("email_secondary", false); ("address", false);
   ("profile_photo_url", false); ("role", false); ("status", false)].

Definition update_by_admin_validate (instance : User) (w : World) (name value : string)
    : string + string :=
  if bool_decide (name = "email_primary") then
    update_validate_email_primary (Some instance) value w
  else if bool_decide (name = "password") then
    match validate_password value with Some e => inl e | None => inr value end
  else if bool_decide (name = "role") then update_validate_role value
  else if bool_decide (name = "status") then update_validate_status value
  else inr value.

(** [UserUpdateByAdminSerializer(instance, data, partial=True).is_valid()] *)
Definition UserUpdateByAdminSerializer_is_valid (instance : User)
    (initial_data : Py.dict string) (w : World) : Py.dict string + Py.dict string :=
  validated (Some instance) w
    (run_declared_fields (cleaned (Some instance) w (update_by_admin_validate instance w))
       true update_by_admin_fields initial_data).

(** [UserDetailView.get_object]: the selector, then the object
    permissions of the view ([IsAuthenticated], [IsOwnerOrAdmin]). *)
Definition UserDetailView_get_object (actor_user : User) (user_id : nat)
    : M (api_exception + User) :=
  do r <- try_except
            (do user_ <- get_user_by_id user_id; ret (inr user_))
            (λ e,
               match e with
               | DoesNotExist => ret (inl (NotFound "Usuario no encontrado"))
               | _ => raise e
               end);
  match r with
  | inl ex => ret (inl ex)
  | inr user_ =>
      if IsOwnerOrAdmin_has_object_permission actor_user user_ then ret (inr user_)
      else ret (inl (APIPermissionDenied
                       "You do not have permission to perform this action."))
  end.

(** [UserDetailView.update], with [actor_user] for [request.user]. *)
Definition UserDetailView_update (request : Request) (actor_user : User) (user_id : nat)
    : M (api_exception + Response) :=
  if bool_decide (role actor_user ≠ Role.ADMIN) then
    ret (inr (mkResponse
                (JObj [("detail",
                        JStr "Solo los administradores pueden actualizar usuarios")])
                403))
  else
    do instance <- UserDetailView_get_object actor_user user_id;
    match instance with
    | inl ex => ret (inl ex)
    | inr instance =>
        do serializer <-
          (λ w, (inr (UserUpdateByAdminSerializer_is_valid instance (data request) w), w));
        match serializer with
        | inl errors => ret (inr (mkResponse (errors_json errors) 400))
        | inr validated_data =>
            let ip_address := get_client_ip request in
            do r <- try_except
                      (do user_ <- update_user_by_admin (id instance)
                                     validated_data actor_user ip_address;
                       ret (inr user_))
                      (λ e,
                         logger ERROR ("Error al actualizar usuario: " +:+ str_exn e) ;;;
                         ret (inl (mkResponse (JObj [("detail", JStr (str_exn e))]) 400)));
            match r with
            | inl response => ret (inr response)
            | inr user_ => ret (inr (mkResponse (UserPublicSerializer user_ request) 200))
            end
        end
    end.

Lemma update_by_admin_fields_NoDup : NoDup update_by_admin_fields.*1.
Proof. pure_goal. apply (bool_decide_unpack _). by vm_compute. Qed.

Lemma declared_errors_present validate_field partial fs d k v e :
  NoDup fs.*1 → k ∈ fs.*1 → Py.get k d = Some v → validate_field k v = inl e →
  (k, e) ∈ field_errors (run_declared_fields validate_field partial fs d).
Proof.
  pure_goal. intros Hnd Hk Hg Hv. unfold field_errors, run_declared_fields.
  apply list_elem_of_omap. exists (k, inl e). split; [|done].
  apply list_elem_of_fmap in Hk as ([k' req] & -> & Hf).
  apply list_elem_of_omap. exists (k', req). split; [done|].
  unfold run_declared_field. simpl in *. by rewrite Hg, Hv.
Qed.

Lemma get_object_found actor u w :
  role actor = Role.ADMIN → NoDup (id <$> users w) → u ∈ users w →
  ∃ w', UserDetailView_get_object actor (id u) w = (inr (inr u), w') ∧
        tables w' = tables w ∧
        (∀ e, email_exists e w' = email_exists e w) ∧
        users w' = users w.
Proof.
  pure_goal. intros Hadmin Hnd Hin.
  pose proof (get_found (id u) w u (find_by_id _ _ Hnd Hin)) as Hg.
  eexists. split.
  - unfold UserDetailView_get_object. erewrite bind_inr; cycle 1.
    { erewrite try_inr; [reflexivity|]. erewrite bind_inr; [reflexivity|].
      unfold get_user_by_id. erewrite try_inr; [reflexivity|].
      erewrite bind_inr; [|exact Hg]. reflexivity. }
    cbv beta iota. unfold IsOwnerOrAdmin_has_object_permission.
    rewrite bool_decide_eq_true_2 by done. reflexivity.
  - done.
Qed.

#[local] Opaque update_by_admin_fields.

(** X24. [UserDetailView.update]: a requester that is not an
    administrator is answered 403 before anything is looked up or
    logged; for an administrator and a key no row carries the view raises
    NotFound 'Usuario no encontrado' and writes no table; and an
    administrator's request to give a user the email of another user (a
    value that the field refuses, or passes on in a spelling with the
    other user's normal form) is stopped by the serializer with 400 and
    an error on [email_primary], which is 'Este email ya está en uso'
    when the field passed the value on, so that [update_user_by_admin] is
    not called and no table is written. *)
Theorem UserDetailView_update_guards request actor user_id w :
  (role actor ≠ Role.ADMIN →
     UserDetailView_update request actor user_id w =
       (inr (inr (mkResponse
                    (JObj [("detail",
                            JStr "Solo los administradores pueden actualizar usuarios")])
                    403)), w)) ∧
  (role actor = Role.ADMIN → (∀ u, u ∈ users w → id u ≠ user_id) →
     ∃ w', UserDetailView_update request actor user_id w =
             (inr (inl (NotFound "Usuario no encontrado")), w') ∧
           tables w' = tables w) ∧
  (role actor = Role.ADMIN → NoDup (id <$> users w) →
   ∀ target other value,
     target ∈ users w → id target = user_id →
     other ∈ users w → id other ≠ id target →
     Py.get "email_primary" (data request) = Some value →
     (∀ value', clean (Some target) (users w) "email_primary" value = inr value' →
        value' ≠ "" ∧ lower (strip value') = email_primary other) →
     ∃ errors msg w',
       UserDetailView_update request actor user_id w =
         (inr (inr (mkResponse (errors_json errors) 400)), w') ∧
       ("email_primary", msg) ∈ errors ∧
       ((∃ value', clean (Some target) (users w) "email_primary" value = inr value') →
          msg = "Este email ya está en uso") ∧
       tables w' = tables w).
Proof.
  split; [|split].
  - intros Hr. unfold UserDetailView_update. by rewrite bool_decide_eq_true_2.
  - intros Hadmin Hmiss. apply find_missing in Hmiss.
    assert (User_objects_get user_id w = (inl DoesNotExist, w)) as Hget.
    { unfold User_objects_get. by rewrite Hmiss. }
    unfold UserDetailView_update. rewrite bool_decide_eq_false_2 by (by intros ?).
    eexists. split.
    + erewrite bind_inr; cycle 1.
      { unfold UserDetailView_get_object. erewrite bind_inr; cycle 1.
        { erewrite try_inl; cycle 1.
          { erewrite bind_inl; [reflexivity|].
            unfold get_user_by_id. erewrite try_inl; cycle 1.
            { erewrite bind_inl; [reflexivity|exact Hget]. }
            reflexivity. }
          reflexivity. }
        reflexivity. }
      reflexivity.
    + done.
  - intros Hadmin Hnd target other value Ht <- Ho Hne Hg Hcl.
    destruct (get_object_found actor target w Hadmin Hnd Ht) as (w' & Eo & Htab & _ & Hus).
    unfold UserDetailView_update. rewrite bool_decide_eq_false_2 by (by intros ?).
    assert (∃ msg,
              cleaned (Some target) w' (update_by_admin_validate target w')
                "email_primary" value = inl msg ∧
              ((∃ value', clean (Some target) (users w) "email_primary" value
                          = inr value') → msg = "Este email ya está en uso"))
      as (msg & Hval & Hmsg).
    { unfold cleaned. rewrite Hus.
      destruct (clean (Some target) (users w) "email_primary" value) as [e|value'] eqn:Ec.
      - exists e. split; [done|]. by intros [? ?].
      - destruct (Hcl value' eq_refl) as [Hv He].
        exists "Este email ya está en uso". split; [|done].
        unfold update_by_admin_validate. simpl. unfold update_validate_email_primary.
        apply truthy_true in Hv. rewrite Hv. rewrite Hus.
        rewrite (existsb_true _ _ other Ho); [done|].
        rewrite bool_decide_eq_true_2 by done. by rewrite bool_decide_eq_false_2. }
    pose proof (declared_errors_present
                  (cleaned (Some target) w' (update_by_admin_validate target w')) true
                  update_by_admin_fields (data request) "email_primary" value _
                  update_by_admin_fields_NoDup
                  ltac:(apply (bool_decide_unpack _); by vm_compute) Hg Hval) as Hin.
    destruct (field_errors _) as [|err errs] eqn:Eerr; [by apply elem_of_nil in Hin|].
    exists (err :: errs), msg, w'. split; [|done].
    erewrite bind_inr by exact Eo. cbv beta iota.
    erewrite bind_inr; cycle 1.
    { unfold UserUpdateByAdminSerializer_is_valid, validated. rewrite Eerr.
      reflexivity. }
    reflexivity.
Qed.

(** ** An administrator's update that collides with another user's email *)

(** X19. [update_user_by_admin] has no clause for the unique
    constraints: when data that name text columns only, the birth date
    not among them, set the primary email to that of another user, the
    call raises the [IntegrityError] of the storage layer as it is (not
    the ValidationError registration turns it into), after one ERROR
    record, and writes nothing. *)
Theorem update_user_by_admin_duplicate_email actor old other data ip w :
  role actor = Role.ADMIN → db_ok (users w) →
  old ∈ users w → other ∈ users w → id other ≠ id old →
  NoDup (Py.keys data) →
  (∀ k, k ∈ Py.keys data → hasattr k = true ∧ k ≠ "birth_date") →
  Py.get "email_primary" data = Some (email_primary other) →
  ∃ m w',
    update_user_by_admin (id old) data actor ip w
      = (inl (IntegrityError m), w') ∧
    tables w' = tables w ∧
    log w' = log w ++
      [(ERROR, "Error al actualizar usuario: " +:+ str_exn (IntegrityError m))].
Proof.
  intros Hadmin Hdb Hold Hother Hne Hnd _ Hg.
  pose proof Hdb as (Hids & _).
  set (u2 := admin_updated data old).
  assert (id u2 = id old) as Hid by apply admin_updated_frame.
  assert (email_primary u2 = email_primary other) as Hem.
  { pose proof (admin_updated_assigned data old c_email_primary (email_primary other)
                  Hnd ltac:(done) Hg) as H.
    simpl in H. by injection H. }
  destruct (constraint_violation_email u2
              (List.filter (λ r, negb (bool_decide (id r = id u2))) (users w)) other)
    as [m Hc]; [|done|].
  { apply filter_others; [done|]. by rewrite Hid. }
  exists m. eexists. split.
  - unfold update_user_by_admin. rewrite bool_decide_eq_false_2 by (by intros ?).
    erewrite try_inl; cycle 1.
    { erewrite bind_inr; [|apply get_found, find_by_id; done].
      assert (save u2 w = (inl (IntegrityError m), w)) as Hsave.
      { unfold save. by rewrite Hc. }
      unfold u2, admin_updated in Hsave. destruct (Py.pop "password" data) as [pw d].
      apply bind_inl. exact Hsave. }
    reflexivity.
  - done.
Qed.

(** ** [UserListView.get_queryset]: the filter map of the list endpoint *)

(** The filter map [get_queryset] builds from the query parameters:
    the three keys with what [query_params.get] returns for them, the
    [None] values then removed. *)
Definition query_filters (query_params : Py.dict string) : Py.dict (option string) :=
  filter (λ kv, is_Some kv.2)
    [("role", Py.get "role" query_params);
     ("status", Py.get "status" query_params);
     ("search", Py.get "search" query_params)].

(** [UserListView.get_queryset], with [actor_user] for [request.user]. *)
Definition UserListView_get_queryset (query_params : Py.dict string) (actor_user : User)
    : M (list User) :=
  let filters := query_filters query_params in
  list_users (if bool_decide (filters = []) then None else Some filters)
    (Some actor_user).

Lemma get_query_filters query_params k :
  k ∈ ["role"; "status"; "search"] →
  Py.get k (query_filters query_params) = Some <$> Py.get k query_params.
Proof.
  pure_goal. intros Hk. unfold query_filters.
  rewrite !elem_of_cons, elem_of_nil in Hk.
  destruct Hk as [->|[->|[->|[]]]];
    destruct (Py.get "role" query_params), (Py.get "status" query_params),
             (Py.get "search" query_params); reflexivity.
Qed.

(** X25. The list endpoint hands [list_users] a filter map without
    [None]: whatever the query parameters, [get_queryset] raises nothing
    but the PermissionDenied of a requester whose role may not list, and
    for a requester who may it returns, with both tables unchanged and
    ordered by [created_at], newest first, exactly the users that have
    the role parameter if it is a valid role, the status parameter if it
    is a valid status, and the stripped search parameter, if anything is
    left of it, somewhere in one of the four searched columns. *)
Theorem UserListView_get_queryset_filters query_params actor w :
  (∀ e w', UserListView_get_queryset query_params actor w = (inl e, w') →
     e = PermissionDenied "No tiene permisos para listar usuarios" ∧
     role actor ∉ ALLOWED_LIST_ROLES) ∧
  (role actor ∈ ALLOWED_LIST_ROLES →
     ∃ result w',
       UserListView_get_queryset query_params actor w = (inr result, w') ∧
       tables w' = tables w ∧
       StronglySorted newest_first result ∧
       result ≡ₚ filter (selects (query_filters query_params)) (users w)) ∧
  (∀ u, selects (query_filters query_params) u ↔
     (∀ r, Py.get "role" query_params = Some r → r ∈ Role.choices → role u = r) ∧
     (∀ s, Py.get "status" query_params = Some s → s ∈ Status.choices →
           status u = s) ∧
     (∀ q, Py.get "search" query_params = Some q → strip q ≠ "" →
           matches_search (strip q) u)).
Proof.
  assert (Hrun : role actor ∈ ALLOWED_LIST_ROLES →
            ∃ result w',
              UserListView_get_queryset query_params actor w = (inr result, w') ∧
              tables w' = tables w ∧
              StronglySorted newest_first result ∧
              result ≡ₚ filter (selects (query_filters query_params)) (users w)).
  { intros Ha. unfold UserListView_get_queryset.
    set (filters := query_filters query_params).
    assert (default [] (if bool_decide (filters = []) then None else Some filters)
            = filters) as Hd.
    { case_bool_decide as E; [by rewrite E|done]. }
    rewrite (list_users_run _ _ _ Ha).
    - rewrite Hd.
      destruct (order_by_sorted (filter (selects filters) (users w))) as [Hs Hp].
      by eexists _, _.
    - rewrite Hd. unfold search_is_text, filters.
      rewrite get_query_filters by (rewrite !elem_of_cons; prop).
      by destruct (Py.get "search" query_params). }
  split; [|split; [exact Hrun|]].
  - intros e w' H.
    destruct (decide (role actor ∈ ALLOWED_LIST_ROLES)) as [Ha|Hn].
    + destruct (Hrun Ha) as (result & w1 & E & _). congruence.
    + split; [|done]. unfold UserListView_get_queryset, list_users in H.
      rewrite bool_decide_eq_true_2 in H by done.
      unfold bind, logger, raise in H. by injection H as <- _.
  - intros u. unfold selects.
    assert (∀ k, k ∈ ["role"; "status"; "search"] →
              Py.get_value k (query_filters query_params) = Py.get k query_params)
      as Hv.
    { intros k Hk. unfold Py.get_value. rewrite get_query_filters by done.
      by destruct (Py.get k query_params). }
    rewrite !Hv by (rewrite !elem_of_cons; prop).
    assert (∀ choices v r, valid_filter choices v = Some r ↔ v = Some r ∧ r ∈ choices)
      as Hvalid.
    { intros choices [x|] r; simpl; [|by split; [|intros []]].
      case_bool_decide; split; try done.
      - by intros [= <-].
      - by intros [[= <-] _].
      - by intros [[= <-] ?]. }
    assert (∀ q', search_term (query_filters query_params) = Some q' ↔
                  ∃ q, Py.get "search" query_params = Some q ∧ strip q ≠ "" ∧
                       q' = strip q) as Hsearch.
    { intros q'. unfold search_term.
      rewrite get_query_filters by (rewrite !elem_of_cons; prop).
      destruct (Py.get "search" query_params) as [q|]; simpl.
      - destruct (Py.truthy (strip q)) eqn:T.
        + apply truthy_true in T. split; [intros [= <-]; by exists q|].
          by intros (? & [= <-] & _ & ->).
        + apply truthy_false in T. split; [done|]. by intros (? & [= <-] & ? & _).
      - split; [done|]. by intros (? & ? & _). }
    split.
    + intros (H1 & H2 & H3). split; [|split].
      * intros r Hr Hc. apply H1, Hvalid. done.
      * intros s Hs Hc. apply H2, Hvalid. done.
      * intros q Hq Hne. apply H3, Hsearch. by exists q.
    + intros (H1 & H2 & H3). split; [|split].
      * intros r [Hr Hc]%Hvalid. by apply H1.
      * intros s [Hs Hc]%Hvalid. by apply H2.
      * intros q' (q & Hq & Hne & ->)%Hsearch. by apply H3.
Qed.

(** ** apps/authn/services/jwt.py: reading a token *)

Section Jwt.

(** The token backend and the key column: [decode] is
    [TokenBackend(...).decode(token, verify=True)], which raises or
    returns the payload; [is_token_error] tells the exceptions the first
    clause names ([TokenError], [InvalidToken]) from the others;
    [to_uuid] is the conversion of a text to a key that
    [User.objects.get(id=...)] performs, a text that is no key being a
    ValidationError. *)
Variable decode : string → exn + Py.dict string.
Variable is_token_error : exn → bool.
Variable to_uuid : string → option nat.

Definition get_user_from_token (token : string) : M (option User) :=
  try_except
    (match decode token with
     | inl e => raise e
     | inr validated_data =>
         let user_id := Py.get "user_id" validated_data in
         if negb (Py.truthy_opt user_id) then
           logger WARNING "Token no contiene user_id" ;;;
           ret None
         else
           let user_id := default "" user_id in
           try_except
             (do user_ <-
                match to_uuid user_id with
                | Some key => User_objects_get key
                | None => raise (ValidationError ("“" +:+ user_id +:+ "” is not a valid UUID."))
                end;
              ret (Some user_))
             (λ e,
                match e with
                | DoesNotExist =>
                    logger WARNING ("Usuario con ID " +:+ user_id +:+ " no encontrado") ;;;
                    ret None
                | _ => raise e
                end)
     end)
    (λ e,
       if is_token_error e then
         logger DEBUG ("Token inválido: " +:+ str_exn e) ;;;
         ret None
       else
         logger ERROR ("Error al obtener usuario desde token: " +:+ str_exn e) ;;;
         ret None).

Definition validate_token (token : string) : M bool :=
  try_except
    (match decode token with
     | inl e => raise e
     | inr _ => ret true
     end)
    (λ e,
       if is_token_error e then ret false
       else
         logger ERROR ("Error al validar token: " +:+ str_exn e) ;;;
         ret false).

(** X22. [get_user_from_token] and [validate_token] never raise and
    write to no table.  [validate_token] answers [True] exactly when the
    token decodes.  [get_user_from_token] returns a user only for a token
    that decodes to a payload whose [user_id] claim is the key of that
    row, and it returns that row whenever the claim names one, whatever
    the status of the user (a suspended user is returned as well); a
    token that decodes without a [user_id] yields [None] although
    [validate_token] accepts it. *)
Theorem token_functions_never_raise token w :
  (∃ r w', get_user_from_token token w = (inr r, w') ∧ tables w' = tables w ∧
     (∀ u, r = Some u →
        ∃ payload claim,
          decode token = inr payload ∧ Py.get "user_id" payload = Some claim ∧
          to_uuid claim = Some (id u) ∧ u ∈ users w) ∧
     (∀ u payload claim,
        NoDup (id <$> users w) → u ∈ users w →
        decode token = inr payload → Py.get "user_id" payload = Some claim →
        claim ≠ "" → to_uuid claim = Some (id u) → r = Some u) ∧
     (∀ payload, decode token = inr payload →
        Py.truthy_opt (Py.get "user_id" payload) = false → r = None)) ∧
  (∃ b w', validate_token token w = (inr b, w') ∧ tables w' = tables w ∧
     (b = true ↔ ∃ payload, decode token = inr payload)).
Proof.
  pure_goal.
  split.
  - unfold get_user_from_token.
    destruct (decode token) as [e|payload] eqn:Ed.
    { unfold try_except, raise. destruct (is_token_error e);
        (eexists _, _; split; [reflexivity|]; split; [done|];
         split; [done|]; split; [done|]; done). }
    destruct (Py.get "user_id" payload) as [claim|] eqn:Ec; cycle 1.
    { eexists _, _. split; [reflexivity|]. split; [done|].
      split; [done|]. split; [|done].
      intros u payload' claim' _ _ [= <-] Hc. congruence. }
    simpl. destruct (Py.truthy claim) eqn:Ht; simpl; cycle 1.
    { eexists _, _. split; [reflexivity|]. split; [done|].
      split; [done|]. split; [|done].
      intros u payload' claim' _ _ [= <-] Hc Hne. rewrite Ec in Hc.
      injection Hc as <-. apply truthy_true in Hne. congruence. }
    destruct (to_uuid claim) as [key|] eqn:Ek; cycle 1.
    { unfold try_except, bind, raise.
      destruct (is_token_error _);
        (eexists _, _; split; [reflexivity|]; split; [done|];
         split; [done|]; split; [|done];
         intros u payload' claim' _ _ [= <-] Hc _; rewrite Ec in Hc;
         injection Hc as <-; congruence). }
    destruct (List.find (λ r, bool_decide (id r = key)) (users w)) as [u|] eqn:Ef.
    + pose proof (get_found key w u Ef) as Eg.
      eexists _, _. split.
      { erewrite try_inr; [reflexivity|]. erewrite try_inr; [reflexivity|].
        erewrite bind_inr; [reflexivity|exact Eg]. }
      split; [done|].
      apply find_some in Ef as [Hin Hk]. apply bool_decide_eq_true_1 in Hk.
      split; [|split].
      3:{ intros payload' [= <-]. rewrite Ec. simpl. congruence. }
      * intros u' [= <-]. exists payload, claim. rewrite Hk.
        split; [done|]. split; [done|]. split; [done|]. by apply list_elem_of_In.
      * intros u' payload' claim' Hnd Hu' [= <-] Hc _ Hkey. rewrite Ec in Hc.
        injection Hc as <-. rewrite Ek in Hkey. injection Hkey as Hkey. f_equal.
        apply (NoDup_fmap_eq id (users w)); [done|by apply list_elem_of_In|done|].
        congruence.
    + assert (User_objects_get key w = (inl DoesNotExist, w)) as Eg.
      { unfold User_objects_get. by rewrite Ef. }
      eexists _, _. split.
      { erewrite try_inr; [reflexivity|]. erewrite try_inl; cycle 1.
        { erewrite bind_inl; [reflexivity|exact Eg]. }
        reflexivity. }
      split; [done|]. split; [done|]. split; [|done].
      intros u' payload' claim' _ Hu' [= <-] Hc _ Hkey. rewrite Ec in Hc.
      injection Hc as <-. rewrite Ek in Hkey. injection Hkey as Hkey. exfalso.
      eapply find_none in Ef; [|by apply list_elem_of_In].
      by rewrite bool_decide_eq_true_2 in Ef.
  - unfold validate_token, try_except.
    destruct (decode token) as [e|payload] eqn:Ed.
    + unfold raise. destruct (is_token_error e);
        (eexists _, _; split; [reflexivity|]; split; [done|];
         split; [done|]; by intros [? ?]).
    + eexists _, _. split; [reflexivity|]. split; [done|].
      split; [by eexists|done].
Qed.

End Jwt.

(** ** app/middleware/correlation.py *)

(** [d[k] = v] *)
Fixpoint dict_set {V} (k : string) (v : V) (d : Py.dict V) : Py.dict V :=
  match d with
  | [] => [(k, v)]
  | (k', v') :: t =>
      if String.eqb k k' then (k, v) :: t else (k', v') :: dict_set k v t
  end.

(** A response with its headers. *)
Record HttpResponse := mkHttpResponse {
  response : Response;
  headers : Py.dict string
}.

(** [CorrelationIDMiddleware.__call__] around the handler
    [get_response]. *)
Definition CorrelationIDMiddleware (get_response : Request → M HttpResponse)
    (request : Request) : M HttpResponse :=
  do correlation_id <- uuid4;
  let correlation_id := str_id correlation_id in
  let request :=
    mkRequest (data request)
              (dict_set "CORRELATION_ID" correlation_id (META request))
              (user request) in
  do response_ <- get_response request;
  ret (mkHttpResponse (response response_)
         (dict_set "X-Correlation-ID" correlation_id (headers response_))).

Lemma get_dict_set {V} k k' (v : V) d :
  Py.get k' (dict_set k v d) = if decide (k' = k) then Some v else Py.get k' d.
Proof.
  pure_goal. induction d as [|[k0 v0] d IH].
  - simpl. destruct (String.eqb_spec k' k); by case_decide.
  - cbn [dict_set]. destruct (String.eqb_spec k k0) as [->|Hne].
    + rewrite !get_cons. destruct (String.eqb_spec k' k0); by case_decide.
    + rewrite !get_cons, IH. destruct (String.eqb_spec k' k0) as [->|]; [|done].
      by rewrite decide_False by done.
Qed.

(** X23. The correlation id a response carries is the one the handler
    saw: when the middleware returns, the handler was called once, on the
    request with a [CORRELATION_ID] entry in [META] that replaces any
    entry of that name the request came with, and the response is the
    handler's with the header [X-Correlation-ID] set to the same id,
    replacing a header of that name the handler may have set; every other
    entry of [META] and every other header is untouched.  An exception of
    the handler leaves the middleware as it is. *)
Theorem correlation_id_round_trip get_response request w :
  (∀ response_ w',
     CorrelationIDMiddleware get_response request w = (inr response_, w') →
     ∃ cid seen w1 handled,
       get_response seen w1 = (inr handled, w') ∧
       Py.get "CORRELATION_ID" (META seen) = Some cid ∧
       Py.get "X-Correlation-ID" (headers response_) = Some cid ∧
       data seen = data request ∧ user seen = user request ∧
       (∀ k, k ≠ "CORRELATION_ID" → Py.get k (META seen) = Py.get k (META request)) ∧
       response response_ = response handled ∧
       (∀ k, k ≠ "X-Correlation-ID" →
             Py.get k (headers response_) = Py.get k (headers handled))) ∧
  (∀ e w',
     CorrelationIDMiddleware get_response request w = (inl e, w') →
     ∃ seen w1, get_response seen w1 = (inl e, w')).
Proof.
  pure_goal. unfold CorrelationIDMiddleware, bind, uuid4, ret.
  split.
  - intros response_ w'.
    match goal with |- context [get_response ?r ?s] =>
      destruct (get_response r s) as [[e|handled] w1] eqn:E end; [done|].
    intros [= <- <-]. eexists _, _, _, handled. split; [exact E|]. simpl.
    split; [by rewrite get_dict_set, decide_True|].
    split; [by rewrite get_dict_set, decide_True|].
    split; [done|]. split; [done|].
    split; [by intros k Hk; rewrite get_dict_set, decide_False|].
    split; [done|]. by intros k Hk; rewrite get_dict_set, decide_False.
  - intros e w'.
    match goal with |- context [get_response ?r ?s] =>
      destruct (get_response r s) as [[e'|handled] w1] eqn:E end; [|done].
    intros [= <- <-]. by eexists _, _.
Qed.

End Backend.

(** ** The properties at concrete inputs *)

(** A small deployment over text in the ASCII range, with a stand-in
    credential and token service, an administrator, a client and a
    supervisor.

    On text in the ASCII range [str.lower] changes the letters A to Z and
    nothing else, [str.strip] removes blanks, tabs, line breaks and the
    separators 28 to 31 at both ends, and the database folds case as
    [lower] does.  The fields of the serializers trim their value and
    accept it, and no validator of a serializer as a whole objects. *)
Module Example.

Definition is_upper (c : ascii) : bool :=
  let n := nat_of_ascii c in (Nat.leb 65 n && Nat.leb n 90)%bool.

Definition lower_char (c : ascii) : ascii :=
  if is_upper c then ascii_of_nat (nat_of_ascii c + 32) else c.

(** [str.lower()] of a text in the ASCII range *)
Fixpoint lower (s : string) : string :=
  match s with
  | EmptyString => EmptyString
  | String c t => String (lower_char c) (lower t)
  end.

(** Whitespace as [str.strip()] sees it in the ASCII range:
    space, \t, \n, \v, \f, \r and the separators 28..31. *)
Definition is_space (c : ascii) : bool :=
  let n := nat_of_ascii c in
  (Nat.eqb n 32 || (Nat.leb 9 n && Nat.leb n 13) || (Nat.leb 28 n && Nat.leb n 31))%bool.

Fixpoint lstrip (s : string) : string :=
  match s with
  | EmptyString => EmptyString
  | String c t => if is_space c then lstrip t else s
  end.

(** [rstrip] keeps a character when something other than whitespace
    follows it or it is not whitespace itself. *)
Fixpoint rstrip (s : string) : string :=
  match s with
  | EmptyString => EmptyString
  | String c t =>
      match rstrip t with
      | EmptyString => if is_space c then EmptyString else String c EmptyString
      | t' => String c t'
      end
  end.

(** [str.strip()] of a text in the ASCII range *)
Definition strip (s : string) : string := rstrip (lstrip s).

Definition fold : string → string := lower.

Definition make_password (raw : string) : string := "hashed:" +:+ raw.
Definition check_password (raw hashed : string) : bool :=
  bool_decide (make_password raw = hashed).
Definition validate_password (raw : string) : option string :=
  if Nat.ltb (String.length raw) 8 then Some "This password is too short." else None.
Definition for_user (u : User) : exn + (string * string) := inr ("access", "refresh").

Definition clean (instance : option User) (table : list User)
    (name value : string) : string + string :=
  inr (strip value).
Definition run_validators (instance : option User) (table : list User)
    (attrs : Py.dict string) : option string := None.

Definition admin : User :=
  mkUser 1 "Root Admin" "CC" "1" (Some "1980-01-01") "3001112233" None None
         "root@x.com" None Role.ADMIN Status.ACTIVE "hashed:Adm1n!234" 10 10 None.
Definition ana : User :=
  mkUser 2 "Ana Ruiz" "CC" "123" (Some "1990-01-01") "3000000000" None None
         "a@x.com" None Role.CLIENT Status.ACTIVE "hashed:Secr3t!23" 20 20 None.
Definition sofia : User :=
  mkUser 3 "Sofia Vega" "CE" "987" (Some "1985-05-05") "3109998877" None None
         "sofia@x.com" None Role.SUPERVISOR Status.ACTIVE "hashed:S0f1a!234" 30 30 None.
Definition w0 : World := mkWorld [admin; ana; sofia] [] [] 100 4 None.


(** A registration that asks for the ADMIN role, and the row it creates. *)
Definition bo_data : Py.dict string :=
  [("full_name", "Bo Diaz"); ("id_type", "CC"); ("id_number", "555");
   ("email_primary", "bo@x.com"); ("phone", "3020000000");
   ("birth_date", "2000-02-02"); ("password", "B0d1az!234"); ("role", "ADMIN")].
Definition bo : User :=
  mkUser 4 "Bo Diaz" "CC" "555" (Some "2000-02-02") "3020000000" None None
         "bo@x.com" None Role.ADMIN Status.ACTIVE "hashed:B0d1az!234" 100 100 None.




End Example.

Import Example.

(** A self-update of the phone that also asks for the ADMIN role. *)
Lemma update_self_rejects_prohibited_witness :
  ∃ named msg,
    msg = "No se pueden actualizar los siguientes campos: " +:+ Py.join ", " named ∧
    update_self_user make_password [("phone", "3015550000"); ("role", "ADMIN")] None
      (ana, w0) = (inl (ValidationError msg), (ana, w0)) ∧
    UserMeUpdateSerializer_validate [("phone", "3015550000"); ("role", "ADMIN")] = inl msg ∧
    NoDup named ∧
    (∀ k, k ∈ named ↔
          k ∈ Py.keys [("phone", "3015550000"); ("role", "ADMIN")] ∧
          k ∈ SELF_PROHIBITED_FIELDS) ∧
    (∀ k, k ∈ named → substring_of k msg).
Proof.
  apply (update_self_rejects_prohibited make_password).
  exists "role". split; [by right; left|]. by vm_compute.
Defined.

(** The client is denied; the administrator is not. *)
Lemma admin_path_role_check_witness :
  suspend_user 2 ana None w0 =
    (inl (PermissionDenied "Solo los administradores pueden suspender usuarios"), w0) ∧
  create_user_by_admin lower strip make_password [("email_primary", "b@x.com")] ana
    None w0 =
    (inl (PermissionDenied "Solo los administradores pueden crear usuarios"), w0) ∧
  ∀ msg, fst (suspend_user 2 admin None w0) ≠ inl (PermissionDenied msg).
Proof.
  destruct (admin_path_role_check lower strip make_password ana
              [("email_primary", "b@x.com")] 2 None w0)
    as [Hclient _].
  destruct (admin_path_role_check lower strip make_password admin [] 2 None w0) as [_ Hadmin].
  destruct (Hclient ltac:(done)) as (Hc & _ & Hs & _).
  split; [exact Hs|]. split; [exact Hc|].
  intros msg. by destruct (Hadmin eq_refl msg) as (_ & _ & H & _).
Defined.

(** The administrator suspends Ana twice. *)
Lemma suspend_activate_idempotent_witness :
  role admin = Role.ADMIN ∧ db_ok (users w0) ∧ ana ∈ users w0 ∧
  status ana = Status.ACTIVE ∧
  ∃ u' w',
    suspend_user 2 admin None w0 = (inr u', w') ∧
    status u' = Status.SUSPENDED ∧
    length (audit_logs w') = 1%nat ∧
    ∃ w'', suspend_user 2 admin None w' = (inr u', w'') ∧
           users w'' = users w' ∧ audit_logs w'' = audit_logs w'.
Proof.
  assert (Hok : db_ok (users w0)) by (apply (bool_decide_unpack _); by vm_compute).
  assert (Hin : ana ∈ users w0) by (right; left).
  do 4 (split; [done|]).
  destruct (suspend_activate_idempotent w0 admin ana None eq_refl Hok Hin) as [Hactive _].
  destruct (Hactive eq_refl) as [(u' & w' & E & Hs & _ & _ & Hl & Hagain) _].
  exists u', w'. do 2 (split; [done|]). split; [by rewrite Hl|done].
Defined.


(** A registration whose data carries role ADMIN creates an ADMIN. *)
Lemma register_user_keeps_supplied_role_witness :
  NoDup (Py.keys bo_data) ∧
  register_user lower strip make_password bo_data None w0 =
    (inr bo, snd (register_user lower strip make_password bo_data None w0)) ∧
  role bo = Role.ADMIN ∧ status bo = Status.ACTIVE ∧
  bo ∈ users (snd (register_user lower strip make_password bo_data None w0)).
Proof.
  assert (Hnd : NoDup (Py.keys bo_data)) by (apply (bool_decide_unpack _); by vm_compute).
  assert (E : register_user lower strip make_password bo_data None w0 =
              (inr bo, snd (register_user lower strip make_password bo_data None w0)))
    by (by vm_compute).
  split; [exact Hnd|]. split; [exact E|].
  exact (register_user_keeps_supplied_role lower strip make_password bo_data None w0 bo _ Hnd E).
Defined.



(** Ana, a client, may not list; the supervisor lists the ADMIN users. *)
Lemma list_users_permission_and_role_filter_witness :
  fst (list_users strip fold (Some [("role", Some "ADMIN")]) (Some ana) w0) =
    inl (PermissionDenied "No tiene permisos para listar usuarios") ∧
  ∃ result w',
    list_users strip fold (Some [("role", Some "ADMIN")]) (Some sofia) w0
      = (inr result, w') ∧
    users w' = users w0 ∧
    result ≡ₚ filter (λ u, role u = "ADMIN") (users w0) ∧
    StronglySorted newest_first result.
Proof.
  split.
  - by apply (list_users_permission_and_role_filter strip fold w0
                (Some [("role", Some "ADMIN")]) ana).
  - destruct (list_users_permission_and_role_filter strip fold w0
                (Some [("role", Some "ADMIN")]) sofia)
      as (_ & _ & Hallowed).
    apply (Hallowed ltac:(by right; left) [("role", Some "ADMIN")] "ADMIN");
      [done|done|by left|done|by intros ?|done].
Defined.

(** The supervisor lists with an invalid role and a padded search. *)
Lemma list_users_filters_and_order_witness :
  ∃ result w',
    list_users strip fold (Some [("role", Some "BOSS"); ("search", Some " RUIZ ")])
      (Some sofia) w0 = (inr result, w') ∧
    users w' = users w0 ∧ audit_logs w' = audit_logs w0 ∧
    result ≡ₚ filter (selects strip fold
                        [("role", Some "BOSS"); ("search", Some " RUIZ ")]) (users w0) ∧
    StronglySorted newest_first result ∧
    log w' =
      log w0 ++ filter_warnings [("role", Some "BOSS"); ("search", Some " RUIZ ")] ++
      [(DEBUG, "Lista de usuarios obtenida por " +:+ email_primary sofia +:+ ": "
               +:+ pretty (length result) +:+ " usuarios")].
Proof.
  destruct (list_users_filters_and_order strip fold w0
              (Some [("role", Some "BOSS"); ("search", Some " RUIZ ")]) sofia)
    as [Htext _]; [by right; left|].
  apply Htext. by intros ?.
Defined.

(** C5, counterexample.  The search value "ruiz " (with a blank at its
    end) occurs in no searched column of Ana Ruiz, yet she is the result of
    the search: the value is stripped before it is compared.  The empty
    role value, which is no valid choice, is skipped without a warning.
    And a filter map that holds [None] under the search key does not
    succeed: the call raises an AttributeError. *)
Lemma list_users_filters_counterexample :
  ¬ matches_search fold "ruiz " ana ∧
  fst (list_users strip fold (Some [("search", Some "ruiz ")]) (Some admin) w0)
    = inr [ana] ∧
  ¬ ("" ∈ Role.choices) ∧
  log (snd (list_users strip fold (Some [("role", Some "")]) (Some admin) w0)) =
    [(DEBUG, "Lista de usuarios obtenida por root@x.com: 3 usuarios")] ∧
  fst (list_users strip fold (Some [("search", None)]) (Some admin) w0) =
    inl (AttributeError "'NoneType' object has no attribute 'strip'").
Proof.
  split; [|split; [by vm_compute|split; [apply empty_not_role|split; by vm_compute]]].
  rewrite <- search_q_spec. by vm_compute.
Qed.

(** An unknown email and Ana's email with a wrong password. *)
Lemma login_failures_indistinguishable_witness :
  ∃ w1 w2,
    LoginView_post lower strip check_password for_user
      (mkRequest [("email_primary", "nobody@x.com"); ("password", "Secr3t!23")]
                 [("REMOTE_ADDR", "10.0.0.7")] None) w0 =
      (inr (mkResponse InvalidCredentials 401), w1) ∧
    LoginView_post lower strip check_password for_user
      (mkRequest [("email_primary", "A@x.com"); ("password", "wrong")]
                 [("REMOTE_ADDR", "10.0.0.7")] None) w0 =
      (inr (mkResponse InvalidCredentials 401), w2) ∧
    audit_logs w1 =
      [mkAuditLog 4 None constants.LOGIN_FAILED "User" None
         [("email", JStr "nobody@x.com"); ("reason", JStr "invalid_credentials")]
         (Some "10.0.0.7") 100] ∧
    audit_logs w2 =
      [mkAuditLog 4 None constants.LOGIN_FAILED "User" None
         [("email", JStr "A@x.com"); ("reason", JStr "invalid_credentials")]
         (Some "10.0.0.7") 100].
Proof.
  destruct (login_failures_indistinguishable lower strip check_password for_user w0
              (mkRequest [("email_primary", "nobody@x.com"); ("password", "Secr3t!23")]
                         [("REMOTE_ADDR", "10.0.0.7")] None)
              (mkRequest [("email_primary", "A@x.com"); ("password", "wrong")]
                         [("REMOTE_ADDR", "10.0.0.7")] None)
              "nobody@x.com" "A@x.com" "wrong")
    as (w1 & w2 & E1 & E2 & _ & _ & A1 & A2); try done.
  - intros u Hu. repeat (apply elem_of_cons in Hu as [->|Hu]; [done|]).
    by apply elem_of_nil in Hu.
  - exists ana. split; [by right; left|done].
  - intros u Hu. repeat (apply elem_of_cons in Hu as [->|Hu]; [done|]).
    by apply elem_of_nil in Hu.
  - by exists w1, w2.
Defined.

(** C8, counterexample.  A login whose email_primary is empty matches no
    user and is answered 401 like any other failed login, but no
    LOGIN_FAILED event is emitted for it, although the audit storage
    works: the world after the request is the world before it. *)
Lemma login_empty_email_counterexample :
  (∀ u, u ∈ users w0 → email_primary u ≠ lower (strip "")) ∧
  audit_fault w0 = None ∧
  LoginView_post lower strip check_password for_user
    (mkRequest [("email_primary", ""); ("password", "Secr3t!23")]
               [("REMOTE_ADDR", "10.0.0.7")] None) w0 =
    (inr (mkResponse InvalidCredentials 401), w0).
Proof.
  split; [|split; [done|by vm_compute]].
  intros u Hu. repeat (apply elem_of_cons in Hu as [->|Hu]; [done|]).
  by apply elem_of_nil in Hu.
Qed.


(** ** The further properties on the example deployment *)

(** Ana changes her phone and her name; nothing protected moves. *)
Lemma update_self_user_keeps_protected_witness :
  let out := update_self_user make_password
               [("phone", "3015550000"); ("full_name", "Ana R.")] None (ana, w0) in
  NoDup (id <$> users w0) ∧ ana ∈ users w0 ∧
  protected out.2.1 = protected ana ∧
  protected <$> users out.2.2 = protected <$> users w0.
Proof.
  intros out.
  assert (Hnd : NoDup (id <$> users w0)) by (apply (bool_decide_unpack _); by vm_compute).
  assert (Hin : ana ∈ users w0) by (right; left).
  split; [exact Hnd|]. split; [exact Hin|].
  apply (update_self_user_keeps_protected make_password
           [("phone", "3015550000"); ("full_name", "Ana R.")] None ana w0
           out.1 out.2.1 out.2.2 Hnd Hin).
  by vm_compute.
Defined.

(** A key the model does not know is not a valid field. *)
Lemma update_self_user_no_valid_fields_witness :
  update_self_user make_password [("nickname", "ani")] None (ana, w0) =
    (inl (ValidationError "No hay campos válidos para actualizar"), (ana, w0)).
Proof.
  apply (update_self_user_no_valid_fields make_password [("nickname", "ani")] None ana w0).
  intros k Hk. apply elem_of_cons in Hk as [->|Hk]; [|by apply elem_of_nil in Hk].
  apply (bool_decide_unpack _). by vm_compute.
Defined.

(** Ana sets a new phone and a new password. *)
Lemma update_self_user_updates_witness :
  ∃ u' w',
    update_self_user make_password
      [("phone", "3015550000"); ("password", "N3wPass!9")] None (ana, w0)
      = (inr u', (u', w')) ∧
    phone u' = "3015550000" ∧ password u' = "hashed:N3wPass!9" ∧
    full_name u' = "Ana Ruiz" ∧ updated_at u' = 100 ∧
    length (audit_logs w') = 1%nat.
Proof.
  destruct (update_self_user_updates make_password
              [("phone", "3015550000"); ("password", "N3wPass!9")] None ana w0)
    as (u' & w' & E & _ & Hup & Hset & Hkeep & Hpw & Hl).
  - apply (bool_decide_unpack _). by vm_compute.
  - by right; left.
  - apply (bool_decide_unpack _). by vm_compute.
  - intros k Hk. repeat (apply elem_of_cons in Hk as [->|Hk];
      [apply (bool_decide_unpack _); by vm_compute|]).
    by apply elem_of_nil in Hk.
  - exists "phone". split; [by left|]. apply (bool_decide_unpack _). by vm_compute.
  - exists u', w'. split; [exact E|].
    pose proof (Hset c_phone "3015550000" ltac:(done)
                  ltac:(apply (bool_decide_unpack _); by vm_compute) eq_refl) as Hphone.
    pose proof (Hkeep c_full_name
                  ltac:(apply (bool_decide_unpack _); by vm_compute)) as Hname.
    simpl in Hphone, Hname.
    split; [by injection Hphone|]. split; [exact Hpw|].
    split; [by injection Hname|]. split; [exact Hup|]. by rewrite Hl.
Defined.

(** The administrator addresses a key no user has. *)
Lemma admin_calls_on_missing_user_witness :
  ∃ w',
    suspend_user 9 admin None w0 = (inl DoesNotExist, w') ∧
    activate_user 9 admin None w0 = (inl DoesNotExist, w') ∧
    update_user_by_admin make_password 9 [("phone", "1")] admin None w0
      = (inl DoesNotExist, w') ∧
    users w' = users w0 ∧ audit_logs w' = audit_logs w0 ∧
    log w' = [(ERROR, "Usuario con ID 9 no encontrado")].
Proof.
  destruct (admin_calls_on_missing_user make_password admin 9 [("phone", "1")] None w0)
    as (w' & H1 & H2 & H3 & H4 & H5 & H6); [done| |].
  - intros u Hu. repeat (apply elem_of_cons in Hu as [->|Hu]; [done|]).
    by apply elem_of_nil in Hu.
  - exists w'. do 5 (split; [done|]). exact H6.
Defined.

(** A registration, a suspension, a login and a self-update in a row. *)
Lemma user_table_constraints_invariant_witness :
  db_ok (users w0) ∧
  db_ok (users (exec_all lower strip fold make_password check_password
                  validate_password for_user clean run_validators
                  [Register bo_data None; Suspend 2 admin None;
                   Login (mkRequest [("email_primary", "sofia@x.com");
                                     ("password", "S0f1a!234")] [] None);
                   UpdateSelf sofia [("phone", "3110000000")] None] w0)).
Proof.
  assert (Hok : db_ok (users w0)) by (apply (bool_decide_unpack _); by vm_compute).
  split; [exact Hok|].
  by apply (user_table_constraints_invariant lower strip fold make_password
              check_password validate_password for_user clean run_validators).
Defined.

(** A registration through the view that asks for the ADMIN role, with
    the email in capitals: the user is a CLIENT with the email in normal
    form. *)
Lemma RegisterView_post_created_witness :
  ∃ u,
    u ∈ users (RegisterView_post lower strip make_password validate_password clean
                 run_validators
                 (mkRequest [("full_name", "Bo Diaz"); ("id_type", "CC");
                             ("id_number", "555"); ("email_primary", " Bo@X.COM ");
                             ("phone", "3020000000"); ("birth_date", "2000-02-02");
                             ("password", "B0d1az!234"); ("role", "ADMIN")]
                            [] None) w0).2 ∧
    role u = Role.CLIENT ∧ status u = Status.ACTIVE ∧
    email_primary u = "bo@x.com".
Proof.
  set (request := mkRequest _ _ _).
  eassert (RegisterView_post lower strip make_password validate_password clean
             run_validators request w0
           = (inr (mkResponse _ 201), _)) as E by (vm_compute; reflexivity).
  destruct (RegisterView_post_created lower strip make_password validate_password
              clean run_validators request w0 _ _ E)
    as (u & e0 & e1 & p0 & pw & He & Hce & _ & _ & _ & _ & Hin & Hr & Hs & Hm & _).
  injection He as <-. injection Hce as <-.
  exists u. rewrite E. simpl. do 3 (split; [done|]).
  rewrite Hm. by vm_compute.
Defined.

(** A registration with a fresh email and Ana's identity document and
    birth date. *)
Lemma register_user_reports_any_violation_as_email_witness :
  ∃ w',
    register_user lower strip make_password
      [("full_name", "Ana Dos"); ("id_type", "CC"); ("id_number", "123");
       ("email_primary", "dos@x.com"); ("phone", "3030000000");
       ("birth_date", "1990-01-01"); ("password", "An4d0s!234")] None w0
      = (inl (ValidationError "El email ya está en uso"), w') ∧
    tables w' = tables w0 ∧
    (∀ u, u ∈ users w0 → email_primary u ≠ "dos@x.com").
Proof.
  destruct (register_user_reports_any_violation_as_email lower strip make_password
              [("full_name", "Ana Dos"); ("id_type", "CC"); ("id_number", "123");
               ("email_primary", "dos@x.com"); ("phone", "3030000000");
               ("birth_date", "1990-01-01"); ("password", "An4d0s!234")] None w0
              "An4d0s!234" "dos@x.com") as (w' & E & Ht); try done.
  - apply (bool_decide_unpack _). by vm_compute.
  - intros k Hk. repeat (apply elem_of_cons in Hk as [->|Hk]; [done|]).
    by apply elem_of_nil in Hk.
  - right. exists ana. split; [by right; left|]. done.
  - exists w'. split; [exact E|]. split; [exact Ht|].
    intros u Hu. repeat (apply elem_of_cons in Hu as [->|Hu]; [done|]).
    by apply elem_of_nil in Hu.
Defined.

(** Ana logs in. *)
Lemma LoginView_post_validated_user_witness :
  ∃ w',
    LoginView_post lower strip check_password for_user
      (mkRequest [("email_primary", "A@x.com "); ("password", "Secr3t!23")]
                 [("REMOTE_ADDR", "10.0.0.7")] None) w0 =
      (inr (mkResponse
              (JObj [("access", JStr "access"); ("refresh", JStr "refresh");
                     ("user", UserPublicSerializer (set_last_login_at (Some 100) ana)
                                (mkRequest [("email_primary", "A@x.com ");
                                            ("password", "Secr3t!23")]
                                           [("REMOTE_ADDR", "10.0.0.7")] None))])
              200), w') ∧
    users w' = [admin; set_last_login_at (Some 100) ana; sofia] ∧
    length (audit_logs w') = 1%nat.
Proof.
  destruct (LoginView_post_validated_user lower strip check_password for_user
              (mkRequest [("email_primary", "A@x.com "); ("password", "Secr3t!23")]
                         [("REMOTE_ADDR", "10.0.0.7")] None) w0 ana)
    as (_ & _ & Hok); [by vm_compute|].
  destruct (Hok eq_refl "access" "refresh" eq_refl) as (w' & E & Hu & Hl).
  exists w'. split; [exact E|]. split; [by rewrite Hu|]. by rewrite Hl.
Defined.

(** Ana, a client, may look at herself and at nobody else. *)
Lemma permissions_and_visibility_witness :
  IsOwnerOrAdmin_has_object_permission ana ana = true ∧
  IsOwnerOrAdmin_has_object_permission ana sofia = false ∧
  sees_contact_data (mkRequest [] [] (Some ana)) ana ∧
  IsAdminOrReadOnly_has_permission "POST" (mkRequest [] [] (Some ana)) = false.
Proof.
  destruct (permissions_and_visibility strip fold (mkRequest [] [] (Some ana)) ana eq_refl)
    as (_ & Hro & Hobj & _ & _ & Hself).
  split; [by apply Hobj; right|]. split; [done|]. split; [exact Hself|].
  rewrite Hro; [done|]. apply (bool_decide_unpack _). by vm_compute.
Defined.

(** The administrator suspends Ana through the view, and asks for a user
    that does not exist. *)
Lemma suspend_and_activate_views_witness :
  (∃ w', UserSuspendView_post (mkRequest [] [] (Some admin)) admin 2 w0 =
           (inr (mkResponse (JObj [("detail", JStr "user suspended")]) 200), w') ∧
         ∀ r, r ∈ users w' → id r = 2%nat → status r = Status.SUSPENDED) ∧
  (∃ w', UserSuspendView_post (mkRequest [] [] (Some admin)) admin 9 w0 =
           (inr (mkResponse (JObj [("detail", JStr "Usuario no encontrado")]) 404), w') ∧
         tables w' = tables w0).
Proof.
  assert (Hok : db_ok (users w0)) by (apply (bool_decide_unpack _); by vm_compute).
  split.
  - destruct (suspend_and_activate_views (mkRequest [] [] (Some admin)) admin 2 w0
                eq_refl eq_refl Hok) as [Hfound _].
    destruct (Hfound ana ltac:(by right; left) eq_refl) as [(w' & E & _ & Hs) _].
    by exists w'.
  - destruct (suspend_and_activate_views (mkRequest [] [] (Some admin)) admin 9 w0
                eq_refl eq_refl Hok) as [_ Hmissing].
    destruct Hmissing as (w' & E & _ & Ht).
    + intros u Hu. repeat (apply elem_of_cons in Hu as [->|Hu]; [done|]).
      by apply elem_of_nil in Hu.
    + by exists w'.
Defined.

(** The administrator creates a supervisor through the view. *)
Lemma UserListView_create_created_witness :
  ∃ u,
    u ∈ users (UserListView_create lower strip make_password validate_password clean
                 run_validators
                 (mkRequest [("full_name", "Bo Diaz"); ("id_type", "CC");
                             ("id_number", "555"); ("email_primary", "Bo@x.com ");
                             ("phone", "3020000000"); ("birth_date", "2000-02-02");
                             ("password", "B0d1az!234"); ("role", "SUPERVISOR");
                             ("status", "ACTIVE")]
                            [] (Some admin)) admin w0).2 ∧
    role u = Role.SUPERVISOR ∧ status u = Status.ACTIVE ∧
    email_primary u = "bo@x.com".
Proof.
  set (request := mkRequest _ _ _).
  eassert (UserListView_create lower strip make_password validate_password clean
             run_validators request admin w0 = (inr (mkResponse _ 201), _)) as E
    by (vm_compute; reflexivity).
  destruct (UserListView_create_created lower strip make_password validate_password
              clean run_validators
              request admin w0 _ _ E)
    as (_ & u & e0 & e1 & p0 & pw & ro0 & st0 & He & Hce & _ & _ & _ & _ & Hr & Hcr &
        _ & Hs & Hcs & _ & Hin & Hm & _).
  injection He as <-. injection Hce as <-.
  injection Hr as <-. injection Hcr as Hcr.
  injection Hs as <-. injection Hcs as Hcs.
  exists u. rewrite E. simpl. split; [exact Hin|].
  split; [by rewrite <- Hcr|]. split; [by rewrite <- Hcs|]. rewrite Hm. by vm_compute.
Defined.

(** The administrator gives Ana the email of Sofia. *)
Lemma update_user_by_admin_duplicate_email_witness :
  ∃ m w',
    update_user_by_admin make_password 2 [("email_primary", "sofia@x.com")] admin None w0
      = (inl (IntegrityError m), w') ∧
    tables w' = tables w0.
Proof.
  destruct (update_user_by_admin_duplicate_email make_password admin ana sofia
              [("email_primary", "sofia@x.com")] None w0)
    as (m & w' & E & Ht & _); try done.
  - apply (bool_decide_unpack _). by vm_compute.
  - by right; left.
  - by right; right; left.
  - apply (bool_decide_unpack _). by vm_compute.
  - intros k Hk. apply elem_of_cons in Hk as [->|Hk]; [done|by apply elem_of_nil in Hk].
  - by exists m, w'.
Defined.

(** Updating Ana: her own email in capitals passes, Sofia's does not. *)
Lemma update_serializer_email_excludes_instance_witness :
  update_validate_email_primary lower strip (Some ana) " A@X.com " w0 = inr "a@x.com" ∧
  update_validate_email_primary lower strip (Some ana) "SOFIA@x.com" w0
    = inl "Este email ya está en uso".
Proof.
  destruct (update_serializer_email_excludes_instance lower strip ana w0)
    as (Hown & Hother & _).
  - apply (bool_decide_unpack _). by vm_compute.
  - by right; left.
  - split.
    + by apply (Hown " A@X.com ").
    + by apply (Hother "SOFIA@x.com" sofia); [|right; right; left| |].
Defined.

(** Ana patches her phone and asks for the ADMIN role in the same body:
    the answer is 200, the phone is set, the role is not. *)
Lemma UserMeView_patch_reads_declared_fields_witness :
  ∃ u' w',
    UserMeView_patch make_password validate_password clean
      (mkRequest [("phone", " 3015550000 "); ("role", "ADMIN")] [] (Some ana)) (ana, w0)
      = (inr (mkResponse
                (UserPublicSerializer u'
                   (mkRequest [("phone", " 3015550000 "); ("role", "ADMIN")] []
                              (Some ana))) 200),
         (u', w')) ∧
    phone u' = "3015550000" ∧ role u' = Role.CLIENT.
Proof.
  destruct (UserMeView_patch_reads_declared_fields make_password validate_password clean
              (mkRequest [("phone", " 3015550000 "); ("role", "ADMIN")] [] (Some ana))
              ana w0) as (_ & _ & Hok).
  destruct Hok as (u' & w' & E & Hp & Hset).
  - apply (bool_decide_unpack _). by vm_compute.
  - by right; left.
  - exists "phone". split; [|by left]. apply (bool_decide_unpack _). by vm_compute.
  - intros k v Hk Hg. exists (strip v). split; [done|].
    intros ->. by vm_compute in Hg.
  - exists u', w'. split; [exact E|].
    pose proof (Hset c_phone " 3015550000 " "3015550000" ltac:(done)
                  ltac:(apply (bool_decide_unpack _); by vm_compute) eq_refl eq_refl)
      as Hphone.
    simpl in Hphone. split; [by injection Hphone|].
    unfold protected in Hp. by injection Hp.
Defined.

(** The administrator tries to give Ana the email of Sofia through the
    view. *)
Lemma UserDetailView_update_guards_witness :
  ∃ errors w',
    UserDetailView_update lower strip make_password validate_password clean
      run_validators
      (mkRequest [("email_primary", " SOFIA@x.com")] [] (Some admin)) admin 2 w0
      = (inr (inr (mkResponse (errors_json errors) 400)), w') ∧
    ("email_primary", "Este email ya está en uso") ∈ errors ∧
    tables w' = tables w0.
Proof.
  destruct (UserDetailView_update_guards lower strip make_password validate_password
              clean run_validators
              (mkRequest [("email_primary", " SOFIA@x.com")] [] (Some admin))
              admin 2 w0) as (_ & _ & Hdup).
  destruct (Hdup eq_refl ltac:(apply (bool_decide_unpack _); by vm_compute)
              ana sofia " SOFIA@x.com")
    as (errors & msg & w' & E & Hin & Hmsg & Ht); try done.
  - by right; left.
  - by right; right; left.
  - intros value' [= <-]. by vm_compute.
  - exists errors, w'. split; [exact E|]. split; [|exact Ht].
    rewrite <- Hmsg; [done|]. by eexists.
Defined.
